(** * Fyrtur motor board: the motor module ([Core/Src/motor.c])

    A shallow embedding of the motor controller of the roller-blind
    firmware: the globals of [motor.c] as one record, every C function as
    a Rocq function over that record, and the properties of the
    specification stated and proved about those functions.

    Conventions.
    - A C integer of width [w] is a [Z]; every store into a variable of
      that width is wrapped explicitly ([to_u8], [to_u16], [to_u32],
      [to_i32]).
    - A C division is checked: a zero divisor yields [None], so that a
      function returning [Some] never divided by zero.
    - [float] is IEEE-754 binary32 ([SpecFloat] at precision 24).
    - What a call reads from the outside world is an argument: the tick
      count [HAL_GetTick()] returns is [now], the analog readings
      [get_voltage()] and [get_motor_current()] come in a record of
      inputs.
    - The macros of [main.h] are the variables of the section [Board];
      [SLIM_BINARY] tells whether the build leaves out the EEPROM and the
      analog readings. *)

From Stdlib Require Import ZArith Lia Bool List.
From Stdlib Require SpecFloat.
From stdpp Require Import base option list.

Open Scope Z_scope.

(** ** Machine integers *)

Definition to_u8 (x : Z) : Z := x mod 2 ^ 8.
Definition to_u16 (x : Z) : Z := x mod 2 ^ 16.
Definition to_u32 (x : Z) : Z := x mod 2 ^ 32.
Definition to_i32 (x : Z) : Z := (x + 2 ^ 31) mod 2 ^ 32 - 2 ^ 31.

Definition is_u8 (x : Z) : Prop := 0 <= x < 2 ^ 8.
Definition is_u16 (x : Z) : Prop := 0 <= x < 2 ^ 16.
Definition is_u32 (x : Z) : Prop := 0 <= x < 2 ^ 32.
Definition is_i32 (x : Z) : Prop := - 2 ^ 31 <= x < 2 ^ 31.

(** [int] arithmetic, two's complement *)
Definition add_i32 (a b : Z) : Z := to_i32 (a + b).
Definition sub_i32 (a b : Z) : Z := to_i32 (a - b).
Definition mul_i32 (a b : Z) : Z := to_i32 (a * b).
Definition abs_i32 (a : Z) : Z := to_i32 (Z.abs a).
Definition div_i32 (a b : Z) : option Z :=
  if b =? 0 then None else Some (to_i32 (Z.quot a b)).

(** [uint32_t] arithmetic *)
Definition add_u32 (a b : Z) : Z := to_u32 (a + b).
Definition sub_u32 (a b : Z) : Z := to_u32 (a - b).
Definition div_u32 (a b : Z) : option Z :=
  if b =? 0 then None else Some (a / b).

(** ** Enumerations *)

(** Modelled from the spec: the five motion states. [motor.c] uses
    [Stopping] and [CalibratingEndPoint], which the [motor_status]
    declaration of [motor.h] lacks; the order is the one of the spec. *)
Inductive motor_status : Type :=
  | Stopped
  | Moving
  | Stopping
  | CalibratingEndPoint
  | Error.

(** [enum motor_direction { None, Up, Down }]; the first enumerator is
    spelled [DirNone] here, [None] being the constructor of [option]. *)
Inductive motor_direction : Type :=
  | DirNone
  | Up
  | Down.

Inductive motor_command : Type :=
  | NoCommand
  | MotorUp
  | MotorDown
  | Stop.

Inductive GPIO_PinState : Type :=
  | GPIO_PIN_RESET
  | GPIO_PIN_SET.

(** Modelled from the spec: the values of the enumerators of
    [motor_status], counted from 0 in the order of the spec. *)
Definition status_code (st : motor_status) : Z :=
  match st with
  | Stopped => 0
  | Moving => 1
  | Stopping => 2
  | CalibratingEndPoint => 3
  | Error => 4
  end.

#[export] Instance motor_status_eq_dec : EqDecision motor_status.
Proof. solve_decision. Defined.
#[export] Instance motor_direction_eq_dec : EqDecision motor_direction.
Proof. solve_decision. Defined.
#[export] Instance motor_command_eq_dec : EqDecision motor_command.
Proof. solve_decision. Defined.
#[export] Instance GPIO_PinState_eq_dec : EqDecision GPIO_PinState.
Proof. solve_decision. Defined.

(** ** The state: the globals of [motor.c], the timer and GPIO registers
    it writes, and the emulated EEPROM *)

(** [LOW1_PWM] and [LOW2_PWM] tell whether the PWM output of the low-side
    channel runs. [eeprom] is the log of the emulated EEPROM, the newest
    write first. *)
Record state : Type := Build_state {
  status : motor_status;
  direction : motor_direction;
  target_location : Z;
  location : Z;
  full_curtain_length : Z;
  max_curtain_length : Z;
  minimum_voltage : Z;
  default_speed : Z;
  target_speed : Z;
  curr_pwm : Z;
  endpoint_calibration_started_timestamp : Z;
  calibrating : Z;
  auto_calibration : Z;
  hall_sensor_1_idle_time : Z;
  hall_sensor_1_ticks : Z;
  hall_sensor_2_ticks : Z;
  hall_sensor_1_interval : Z;
  movement_started_timestamp : Z;
  rotor_position : Z;
  min_slowdown_speed : Z;
  slowdown_factor : Z;
  command : motor_command;
  dir_error : Z;
  sensor_ticks_while_stopped : Z;
  sensor_ticks_while_calibrating_endpoint : Z;
  saved_hall_sensor_1_ticks : Z;
  saved_hall_sensor_2_ticks : Z;
  TIM1_CCR1 : Z;
  TIM1_CCR4 : Z;
  HIGH_1_GATE : GPIO_PinState;
  HIGH_2_GATE : GPIO_PinState;
  LOW1_PWM : bool;
  LOW2_PWM : bool;
  eeprom : list (Z * Z)
}.

Definition set_status (v : motor_status) (s : state) : state :=
  Build_state v (direction s) (target_location s) (location s) (full_curtain_length s)
  (max_curtain_length s) (minimum_voltage s) (default_speed s) (target_speed s) (curr_pwm s)
  (endpoint_calibration_started_timestamp s) (calibrating s) (auto_calibration s)
  (hall_sensor_1_idle_time s) (hall_sensor_1_ticks s) (hall_sensor_2_ticks s)
  (hall_sensor_1_interval s) (movement_started_timestamp s) (rotor_position s)
  (min_slowdown_speed s) (slowdown_factor s) (command s) (dir_error s)
  (sensor_ticks_while_stopped s) (sensor_ticks_while_calibrating_endpoint s)
  (saved_hall_sensor_1_ticks s) (saved_hall_sensor_2_ticks s) (TIM1_CCR1 s) (TIM1_CCR4 s)
  (HIGH_1_GATE s) (HIGH_2_GATE s) (LOW1_PWM s) (LOW2_PWM s) (eeprom s).
Definition set_direction (v : motor_direction) (s : state) : state :=
  Build_state (status s) v (target_location s) (location s) (full_curtain_length s)
  (max_curtain_length s) (minimum_voltage s) (default_speed s) (target_speed s) (curr_pwm s)
  (endpoint_calibration_started_timestamp s) (calibrating s) (auto_calibration s)
  (hall_sensor_1_idle_time s) (hall_sensor_1_ticks s) (hall_sensor_2_ticks s)
  (hall_sensor_1_interval s) (movement_started_timestamp s) (rotor_position s)
  (min_slowdown_speed s) (slowdown_factor s) (command s) (dir_error s)
  (sensor_ticks_while_stopped s) (sensor_ticks_while_calibrating_endpoint s)
  (saved_hall_sensor_1_ticks s) (saved_hall_sensor_2_ticks s) (TIM1_CCR1 s) (TIM1_CCR4 s)
  (HIGH_1_GATE s) (HIGH_2_GATE s) (LOW1_PWM s) (LOW2_PWM s) (eeprom s).
Definition set_target_location (v : Z) (s : state) : state :=
  Build_state (status s) (direction s) v (location s) (full_curtain_length s)
  (max_curtain_length s) (minimum_voltage s) (default_speed s) (target_speed s) (curr_pwm s)
  (endpoint_calibration_started_timestamp s) (calibrating s) (auto_calibration s)
  (hall_sensor_1_idle_time s) (hall_sensor_1_ticks s) (hall_sensor_2_ticks s)
  (hall_sensor_1_interval s) (movement_started_timestamp s) (rotor_position s)
  (min_slowdown_speed s) (slowdown_factor s) (command s) (dir_error s)
  (sensor_ticks_while_stopped s) (sensor_ticks_while_calibrating_endpoint s)
  (saved_hall_sensor_1_ticks s) (saved_hall_sensor_2_ticks s) (TIM1_CCR1 s) (TIM1_CCR4 s)
  (HIGH_1_GATE s) (HIGH_2_GATE s) (LOW1_PWM s) (LOW2_PWM s) (eeprom s).
Definition set_location (v : Z) (s : state) : state :=
  Build_state (status s) (direction s) (target_location s) v (full_curtain_length s)
  (max_curtain_length s) (minimum_voltage s) (default_speed s) (target_speed s) (curr_pwm s)
  (endpoint_calibration_started_timestamp s) (calibrating s) (auto_calibration s)
  (hall_sensor_1_idle_time s) (hall_sensor_1_ticks s) (hall_sensor_2_ticks s)
  (hall_sensor_1_interval s) (movement_started_timestamp s) (rotor_position s)
  (min_slowdown_speed s) (slowdown_factor s) (command s) (dir_error s)
  (sensor_ticks_while_stopped s) (sensor_ticks_while_calibrating_endpoint s)
  (saved_hall_sensor_1_ticks s) (saved_hall_sensor_2_ticks s) (TIM1_CCR1 s) (TIM1_CCR4 s)
  (HIGH_1_GATE s) (HIGH_2_GATE s) (LOW1_PWM s) (LOW2_PWM s) (eeprom s).
Definition set_full_curtain_length (v : Z) (s : state) : state :=
  Build_state (status s) (direction s) (target_location s) (location s) v (max_curtain_length
  s) (minimum_voltage s) (default_speed s) (target_speed s) (curr_pwm s)
  (endpoint_calibration_started_timestamp s) (calibrating s) (auto_calibration s)
  (hall_sensor_1_idle_time s) (hall_sensor_1_ticks s) (hall_sensor_2_ticks s)
  (hall_sensor_1_interval s) (movement_started_timestamp s) (rotor_position s)
  (min_slowdown_speed s) (slowdown_factor s) (command s) (dir_error s)
  (sensor_ticks_while_stopped s) (sensor_ticks_while_calibrating_endpoint s)
  (saved_hall_sensor_1_ticks s) (saved_hall_sensor_2_ticks s) (TIM1_CCR1 s) (TIM1_CCR4 s)
  (HIGH_1_GATE s) (HIGH_2_GATE s) (LOW1_PWM s) (LOW2_PWM s) (eeprom s).
Definition set_max_curtain_length (v : Z) (s : state) : state :=
  Build_state (status s) (direction s) (target_location s) (location s) (full_curtain_length
  s) v (minimum_voltage s) (default_speed s) (target_speed s) (curr_pwm s)
  (endpoint_calibration_started_timestamp s) (calibrating s) (auto_calibration s)
  (hall_sensor_1_idle_time s) (hall_sensor_1_ticks s) (hall_sensor_2_ticks s)
  (hall_sensor_1_interval s) (movement_started_timestamp s) (rotor_position s)
  (min_slowdown_speed s) (slowdown_factor s) (command s) (dir_error s)
  (sensor_ticks_while_stopped s) (sensor_ticks_while_calibrating_endpoint s)
  (saved_hall_sensor_1_ticks s) (saved_hall_sensor_2_ticks s) (TIM1_CCR1 s) (TIM1_CCR4 s)
  (HIGH_1_GATE s) (HIGH_2_GATE s) (LOW1_PWM s) (LOW2_PWM s) (eeprom s).
Definition set_minimum_voltage (v : Z) (s : state) : state :=
  Build_state (status s) (direction s) (target_location s) (location s) (full_curtain_length
  s) (max_curtain_length s) v (default_speed s) (target_speed s) (curr_pwm s)
  (endpoint_calibration_started_timestamp s) (calibrating s) (auto_calibration s)
  (hall_sensor_1_idle_time s) (hall_sensor_1_ticks s) (hall_sensor_2_ticks s)
  (hall_sensor_1_interval s) (movement_started_timestamp s) (rotor_position s)
  (min_slowdown_speed s) (slowdown_factor s) (command s) (dir_error s)
  (sensor_ticks_while_stopped s) (sensor_ticks_while_calibrating_endpoint s)
  (saved_hall_sensor_1_ticks s) (saved_hall_sensor_2_ticks s) (TIM1_CCR1 s) (TIM1_CCR4 s)
  (HIGH_1_GATE s) (HIGH_2_GATE s) (LOW1_PWM s) (LOW2_PWM s) (eeprom s).
Definition set_default_speed (v : Z) (s : state) : state :=
  Build_state (status s) (direction s) (target_location s) (location s) (full_curtain_length
  s) (max_curtain_length s) (minimum_voltage s) v (target_speed s) (curr_pwm s)
  (endpoint_calibration_started_timestamp s) (calibrating s) (auto_calibration s)
  (hall_sensor_1_idle_time s) (hall_sensor_1_ticks s) (hall_sensor_2_ticks s)
  (hall_sensor_1_interval s) (movement_started_timestamp s) (rotor_position s)
  (min_slowdown_speed s) (slowdown_factor s) (command s) (dir_error s)
  (sensor_ticks_while_stopped s) (sensor_ticks_while_calibrating_endpoint s)
  (saved_hall_sensor_1_ticks s) (saved_hall_sensor_2_ticks s) (TIM1_CCR1 s) (TIM1_CCR4 s)
  (HIGH_1_GATE s) (HIGH_2_GATE s) (LOW1_PWM s) (LOW2_PWM s) (eeprom s).
Definition set_target_speed (v : Z) (s : state) : state :=
  Build_state (status s) (direction s) (target_location s) (location s) (full_curtain_length
  s) (max_curtain_length s) (minimum_voltage s) (default_speed s) v (curr_pwm s)
  (endpoint_calibration_started_timestamp s) (calibrating s) (auto_calibration s)
  (hall_sensor_1_idle_time s) (hall_sensor_1_ticks s) (hall_sensor_2_ticks s)
  (hall_sensor_1_interval s) (movement_started_timestamp s) (rotor_position s)
  (min_slowdown_speed s) (slowdown_factor s) (command s) (dir_error s)
  (sensor_ticks_while_stopped s) (sensor_ticks_while_calibrating_endpoint s)
  (saved_hall_sensor_1_ticks s) (saved_hall_sensor_2_ticks s) (TIM1_CCR1 s) (TIM1_CCR4 s)
  (HIGH_1_GATE s) (HIGH_2_GATE s) (LOW1_PWM s) (LOW2_PWM s) (eeprom s).
Definition set_curr_pwm (v : Z) (s : state) : state :=
  Build_state (status s) (direction s) (target_location s) (location s) (full_curtain_length
  s) (max_curtain_length s) (minimum_voltage s) (default_speed s) (target_speed s) v
  (endpoint_calibration_started_timestamp s) (calibrating s) (auto_calibration s)
  (hall_sensor_1_idle_time s) (hall_sensor_1_ticks s) (hall_sensor_2_ticks s)
  (hall_sensor_1_interval s) (movement_started_timestamp s) (rotor_position s)
  (min_slowdown_speed s) (slowdown_factor s) (command s) (dir_error s)
  (sensor_ticks_while_stopped s) (sensor_ticks_while_calibrating_endpoint s)
  (saved_hall_sensor_1_ticks s) (saved_hall_sensor_2_ticks s) (TIM1_CCR1 s) (TIM1_CCR4 s)
  (HIGH_1_GATE s) (HIGH_2_GATE s) (LOW1_PWM s) (LOW2_PWM s) (eeprom s).
Definition set_endpoint_calibration_started_timestamp (v : Z) (s : state) : state :=
  Build_state (status s) (direction s) (target_location s) (location s) (full_curtain_length
  s) (max_curtain_length s) (minimum_voltage s) (default_speed s) (target_speed s) (curr_pwm
  s) v (calibrating s) (auto_calibration s) (hall_sensor_1_idle_time s) (hall_sensor_1_ticks
  s) (hall_sensor_2_ticks s) (hall_sensor_1_interval s) (movement_started_timestamp s)
  (rotor_position s) (min_slowdown_speed s) (slowdown_factor s) (command s) (dir_error s)
  (sensor_ticks_while_stopped s) (sensor_ticks_while_calibrating_endpoint s)
  (saved_hall_sensor_1_ticks s) (saved_hall_sensor_2_ticks s) (TIM1_CCR1 s) (TIM1_CCR4 s)
  (HIGH_1_GATE s) (HIGH_2_GATE s) (LOW1_PWM s) (LOW2_PWM s) (eeprom s).
Definition set_calibrating (v : Z) (s : state) : state :=
  Build_state (status s) (direction s) (target_location s) (location s) (full_curtain_length
  s) (max_curtain_length s) (minimum_voltage s) (default_speed s) (target_speed s) (curr_pwm
  s) (endpoint_calibration_started_timestamp s) v (auto_calibration s)
  (hall_sensor_1_idle_time s) (hall_sensor_1_ticks s) (hall_sensor_2_ticks s)
  (hall_sensor_1_interval s) (movement_started_timestamp s) (rotor_position s)
  (min_slowdown_speed s) (slowdown_factor s) (command s) (dir_error s)
  (sensor_ticks_while_stopped s) (sensor_ticks_while_calibrating_endpoint s)
  (saved_hall_sensor_1_ticks s) (saved_hall_sensor_2_ticks s) (TIM1_CCR1 s) (TIM1_CCR4 s)
  (HIGH_1_GATE s) (HIGH_2_GATE s) (LOW1_PWM s) (LOW2_PWM s) (eeprom s).
Definition set_auto_calibration (v : Z) (s : state) : state :=
  Build_state (status s) (direction s) (target_location s) (location s) (full_curtain_length
  s) (max_curtain_length s) (minimum_voltage s) (default_speed s) (target_speed s) (curr_pwm
  s) (endpoint_calibration_started_timestamp s) (calibrating s) v (hall_sensor_1_idle_time s)
  (hall_sensor_1_ticks s) (hall_sensor_2_ticks s) (hall_sensor_1_interval s)
  (movement_started_timestamp s) (rotor_position s) (min_slowdown_speed s) (slowdown_factor s)
  (command s) (dir_error s) (sensor_ticks_while_stopped s)
  (sensor_ticks_while_calibrating_endpoint s) (saved_hall_sensor_1_ticks s)
  (saved_hall_sensor_2_ticks s) (TIM1_CCR1 s) (TIM1_CCR4 s) (HIGH_1_GATE s) (HIGH_2_GATE s)
  (LOW1_PWM s) (LOW2_PWM s) (eeprom s).
Definition set_hall_sensor_1_idle_time (v : Z) (s : state) : state :=
  Build_state (status s) (direction s) (target_location s) (location s) (full_curtain_length
  s) (max_curtain_length s) (minimum_voltage s) (default_speed s) (target_speed s) (curr_pwm
  s) (endpoint_calibration_started_timestamp s) (calibrating s) (auto_calibration s) v
  (hall_sensor_1_ticks s) (hall_sensor_2_ticks s) (hall_sensor_1_interval s)
  (movement_started_timestamp s) (rotor_position s) (min_slowdown_speed s) (slowdown_factor s)
  (command s) (dir_error s) (sensor_ticks_while_stopped s)
  (sensor_ticks_while_calibrating_endpoint s) (saved_hall_sensor_1_ticks s)
  (saved_hall_sensor_2_ticks s) (TIM1_CCR1 s) (TIM1_CCR4 s) (HIGH_1_GATE s) (HIGH_2_GATE s)
  (LOW1_PWM s) (LOW2_PWM s) (eeprom s).
Definition set_hall_sensor_1_ticks (v : Z) (s : state) : state :=
  Build_state (status s) (direction s) (target_location s) (location s) (full_curtain_length
  s) (max_curtain_length s) (minimum_voltage s) (default_speed s) (target_speed s) (curr_pwm
  s) (endpoint_calibration_started_timestamp s) (calibrating s) (auto_calibration s)
  (hall_sensor_1_idle_time s) v (hall_sensor_2_ticks s) (hall_sensor_1_interval s)
  (movement_started_timestamp s) (rotor_position s) (min_slowdown_speed s) (slowdown_factor s)
  (command s) (dir_error s) (sensor_ticks_while_stopped s)
  (sensor_ticks_while_calibrating_endpoint s) (saved_hall_sensor_1_ticks s)
  (saved_hall_sensor_2_ticks s) (TIM1_CCR1 s) (TIM1_CCR4 s) (HIGH_1_GATE s) (HIGH_2_GATE s)
  (LOW1_PWM s) (LOW2_PWM s) (eeprom s).
Definition set_hall_sensor_2_ticks (v : Z) (s : state) : state :=
  Build_state (status s) (direction s) (target_location s) (location s) (full_curtain_length
  s) (max_curtain_length s) (minimum_voltage s) (default_speed s) (target_speed s) (curr_pwm
  s) (endpoint_calibration_started_timestamp s) (calibrating s) (auto_calibration s)
  (hall_sensor_1_idle_time s) (hall_sensor_1_ticks s) v (hall_sensor_1_interval s)
  (movement_started_timestamp s) (rotor_position s) (min_slowdown_speed s) (slowdown_factor s)
  (command s) (dir_error s) (sensor_ticks_while_stopped s)
  (sensor_ticks_while_calibrating_endpoint s) (saved_hall_sensor_1_ticks s)
  (saved_hall_sensor_2_ticks s) (TIM1_CCR1 s) (TIM1_CCR4 s) (HIGH_1_GATE s) (HIGH_2_GATE s)
  (LOW1_PWM s) (LOW2_PWM s) (eeprom s).
Definition set_hall_sensor_1_interval (v : Z) (s : state) : state :=
  Build_state (status s) (direction s) (target_location s) (location s) (full_curtain_length
  s) (max_curtain_length s) (minimum_voltage s) (default_speed s) (target_speed s) (curr_pwm
  s) (endpoint_calibration_started_timestamp s) (calibrating s) (auto_calibration s)
  (hall_sensor_1_idle_time s) (hall_sensor_1_ticks s) (hall_sensor_2_ticks s) v
  (movement_started_timestamp s) (rotor_position s) (min_slowdown_speed s) (slowdown_factor s)
  (command s) (dir_error s) (sensor_ticks_while_stopped s)
  (sensor_ticks_while_calibrating_endpoint s) (saved_hall_sensor_1_ticks s)
  (saved_hall_sensor_2_ticks s) (TIM1_CCR1 s) (TIM1_CCR4 s) (HIGH_1_GATE s) (HIGH_2_GATE s)
  (LOW1_PWM s) (LOW2_PWM s) (eeprom s).
Definition set_movement_started_timestamp (v : Z) (s : state) : state :=
  Build_state (status s) (direction s) (target_location s) (location s) (full_curtain_length
  s) (max_curtain_length s) (minimum_voltage s) (default_speed s) (target_speed s) (curr_pwm
  s) (endpoint_calibration_started_timestamp s) (calibrating s) (auto_calibration s)
  (hall_sensor_1_idle_time s) (hall_sensor_1_ticks s) (hall_sensor_2_ticks s)
  (hall_sensor_1_interval s) v (rotor_position s) (min_slowdown_speed s) (slowdown_factor s)
  (command s) (dir_error s) (sensor_ticks_while_stopped s)
  (sensor_ticks_while_calibrating_endpoint s) (saved_hall_sensor_1_ticks s)
  (saved_hall_sensor_2_ticks s) (TIM1_CCR1 s) (TIM1_CCR4 s) (HIGH_1_GATE s) (HIGH_2_GATE s)
  (LOW1_PWM s) (LOW2_PWM s) (eeprom s).
Definition set_rotor_position (v : Z) (s : state) : state :=
  Build_state (status s) (direction s) (target_location s) (location s) (full_curtain_length
  s) (max_curtain_length s) (minimum_voltage s) (default_speed s) (target_speed s) (curr_pwm
  s) (endpoint_calibration_started_timestamp s) (calibrating s) (auto_calibration s)
  (hall_sensor_1_idle_time s) (hall_sensor_1_ticks s) (hall_sensor_2_ticks s)
  (hall_sensor_1_interval s) (movement_started_timestamp s) v (min_slowdown_speed s)
  (slowdown_factor s) (command s) (dir_error s) (sensor_ticks_while_stopped s)
  (sensor_ticks_while_calibrating_endpoint s) (saved_hall_sensor_1_ticks s)
  (saved_hall_sensor_2_ticks s) (TIM1_CCR1 s) (TIM1_CCR4 s) (HIGH_1_GATE s) (HIGH_2_GATE s)
  (LOW1_PWM s) (LOW2_PWM s) (eeprom s).
Definition set_min_slowdown_speed (v : Z) (s : state) : state :=
  Build_state (status s) (direction s) (target_location s) (location s) (full_curtain_length
  s) (max_curtain_length s) (minimum_voltage s) (default_speed s) (target_speed s) (curr_pwm
  s) (endpoint_calibration_started_timestamp s) (calibrating s) (auto_calibration s)
  (hall_sensor_1_idle_time s) (hall_sensor_1_ticks s) (hall_sensor_2_ticks s)
  (hall_sensor_1_interval s) (movement_started_timestamp s) (rotor_position s) v
  (slowdown_factor s) (command s) (dir_error s) (sensor_ticks_while_stopped s)
  (sensor_ticks_while_calibrating_endpoint s) (saved_hall_sensor_1_ticks s)
  (saved_hall_sensor_2_ticks s) (TIM1_CCR1 s) (TIM1_CCR4 s) (HIGH_1_GATE s) (HIGH_2_GATE s)
  (LOW1_PWM s) (LOW2_PWM s) (eeprom s).
Definition set_slowdown_factor (v : Z) (s : state) : state :=
  Build_state (status s) (direction s) (target_location s) (location s) (full_curtain_length
  s) (max_curtain_length s) (minimum_voltage s) (default_speed s) (target_speed s) (curr_pwm
  s) (endpoint_calibration_started_timestamp s) (calibrating s) (auto_calibration s)
  (hall_sensor_1_idle_time s) (hall_sensor_1_ticks s) (hall_sensor_2_ticks s)
  (hall_sensor_1_interval s) (movement_started_timestamp s) (rotor_position s)
  (min_slowdown_speed s) v (command s) (dir_error s) (sensor_ticks_while_stopped s)
  (sensor_ticks_while_calibrating_endpoint s) (saved_hall_sensor_1_ticks s)
  (saved_hall_sensor_2_ticks s) (TIM1_CCR1 s) (TIM1_CCR4 s) (HIGH_1_GATE s) (HIGH_2_GATE s)
  (LOW1_PWM s) (LOW2_PWM s) (eeprom s).
Definition set_command (v : motor_command) (s : state) : state :=
  Build_state (status s) (direction s) (target_location s) (location s) (full_curtain_length
  s) (max_curtain_length s) (minimum_voltage s) (default_speed s) (target_speed s) (curr_pwm
  s) (endpoint_calibration_started_timestamp s) (calibrating s) (auto_calibration s)
  (hall_sensor_1_idle_time s) (hall_sensor_1_ticks s) (hall_sensor_2_ticks s)
  (hall_sensor_1_interval s) (movement_started_timestamp s) (rotor_position s)
  (min_slowdown_speed s) (slowdown_factor s) v (dir_error s) (sensor_ticks_while_stopped s)
  (sensor_ticks_while_calibrating_endpoint s) (saved_hall_sensor_1_ticks s)
  (saved_hall_sensor_2_ticks s) (TIM1_CCR1 s) (TIM1_CCR4 s) (HIGH_1_GATE s) (HIGH_2_GATE s)
  (LOW1_PWM s) (LOW2_PWM s) (eeprom s).
Definition set_dir_error (v : Z) (s : state) : state :=
  Build_state (status s) (direction s) (target_location s) (location s) (full_curtain_length
  s) (max_curtain_length s) (minimum_voltage s) (default_speed s) (target_speed s) (curr_pwm
  s) (endpoint_calibration_started_timestamp s) (calibrating s) (auto_calibration s)
  (hall_sensor_1_idle_time s) (hall_sensor_1_ticks s) (hall_sensor_2_ticks s)
  (hall_sensor_1_interval s) (movement_started_timestamp s) (rotor_position s)
  (min_slowdown_speed s) (slowdown_factor s) (command s) v (sensor_ticks_while_stopped s)
  (sensor_ticks_while_calibrating_endpoint s) (saved_hall_sensor_1_ticks s)
  (saved_hall_sensor_2_ticks s) (TIM1_CCR1 s) (TIM1_CCR4 s) (HIGH_1_GATE s) (HIGH_2_GATE s)
  (LOW1_PWM s) (LOW2_PWM s) (eeprom s).
Definition set_sensor_ticks_while_stopped (v : Z) (s : state) : state :=
  Build_state (status s) (direction s) (target_location s) (location s) (full_curtain_length
  s) (max_curtain_length s) (minimum_voltage s) (default_speed s) (target_speed s) (curr_pwm
  s) (endpoint_calibration_started_timestamp s) (calibrating s) (auto_calibration s)
  (hall_sensor_1_idle_time s) (hall_sensor_1_ticks s) (hall_sensor_2_ticks s)
  (hall_sensor_1_interval s) (movement_started_timestamp s) (rotor_position s)
  (min_slowdown_speed s) (slowdown_factor s) (command s) (dir_error s) v
  (sensor_ticks_while_calibrating_endpoint s) (saved_hall_sensor_1_ticks s)
  (saved_hall_sensor_2_ticks s) (TIM1_CCR1 s) (TIM1_CCR4 s) (HIGH_1_GATE s) (HIGH_2_GATE s)
  (LOW1_PWM s) (LOW2_PWM s) (eeprom s).
Definition set_sensor_ticks_while_calibrating_endpoint (v : Z) (s : state) : state :=
  Build_state (status s) (direction s) (target_location s) (location s) (full_curtain_length
  s) (max_curtain_length s) (minimum_voltage s) (default_speed s) (target_speed s) (curr_pwm
  s) (endpoint_calibration_started_timestamp s) (calibrating s) (auto_calibration s)
  (hall_sensor_1_idle_time s) (hall_sensor_1_ticks s) (hall_sensor_2_ticks s)
  (hall_sensor_1_interval s) (movement_started_timestamp s) (rotor_position s)
  (min_slowdown_speed s) (slowdown_factor s) (command s) (dir_error s)
  (sensor_ticks_while_stopped s) v (saved_hall_sensor_1_ticks s) (saved_hall_sensor_2_ticks s)
  (TIM1_CCR1 s) (TIM1_CCR4 s) (HIGH_1_GATE s) (HIGH_2_GATE s) (LOW1_PWM s) (LOW2_PWM s)
  (eeprom s).
Definition set_saved_hall_sensor_1_ticks (v : Z) (s : state) : state :=
  Build_state (status s) (direction s) (target_location s) (location s) (full_curtain_length
  s) (max_curtain_length s) (minimum_voltage s) (default_speed s) (target_speed s) (curr_pwm
  s) (endpoint_calibration_started_timestamp s) (calibrating s) (auto_calibration s)
  (hall_sensor_1_idle_time s) (hall_sensor_1_ticks s) (hall_sensor_2_ticks s)
  (hall_sensor_1_interval s) (movement_started_timestamp s) (rotor_position s)
  (min_slowdown_speed s) (slowdown_factor s) (command s) (dir_error s)
  (sensor_ticks_while_stopped s) (sensor_ticks_while_calibrating_endpoint s) v
  (saved_hall_sensor_2_ticks s) (TIM1_CCR1 s) (TIM1_CCR4 s) (HIGH_1_GATE s) (HIGH_2_GATE s)
  (LOW1_PWM s) (LOW2_PWM s) (eeprom s).
Definition set_saved_hall_sensor_2_ticks (v : Z) (s : state) : state :=
  Build_state (status s) (direction s) (target_location s) (location s) (full_curtain_length
  s) (max_curtain_length s) (minimum_voltage s) (default_speed s) (target_speed s) (curr_pwm
  s) (endpoint_calibration_started_timestamp s) (calibrating s) (auto_calibration s)
  (hall_sensor_1_idle_time s) (hall_sensor_1_ticks s) (hall_sensor_2_ticks s)
  (hall_sensor_1_interval s) (movement_started_timestamp s) (rotor_position s)
  (min_slowdown_speed s) (slowdown_factor s) (command s) (dir_error s)
  (sensor_ticks_while_stopped s) (sensor_ticks_while_calibrating_endpoint s)
  (saved_hall_sensor_1_ticks s) v (TIM1_CCR1 s) (TIM1_CCR4 s) (HIGH_1_GATE s) (HIGH_2_GATE s)
  (LOW1_PWM s) (LOW2_PWM s) (eeprom s).
Definition set_TIM1_CCR1 (v : Z) (s : state) : state :=
  Build_state (status s) (direction s) (target_location s) (location s) (full_curtain_length
  s) (max_curtain_length s) (minimum_voltage s) (default_speed s) (target_speed s) (curr_pwm
  s) (endpoint_calibration_started_timestamp s) (calibrating s) (auto_calibration s)
  (hall_sensor_1_idle_time s) (hall_sensor_1_ticks s) (hall_sensor_2_ticks s)
  (hall_sensor_1_interval s) (movement_started_timestamp s) (rotor_position s)
  (min_slowdown_speed s) (slowdown_factor s) (command s) (dir_error s)
  (sensor_ticks_while_stopped s) (sensor_ticks_while_calibrating_endpoint s)
  (saved_hall_sensor_1_ticks s) (saved_hall_sensor_2_ticks s) v (TIM1_CCR4 s) (HIGH_1_GATE s)
  (HIGH_2_GATE s) (LOW1_PWM s) (LOW2_PWM s) (eeprom s).
Definition set_TIM1_CCR4 (v : Z) (s : state) : state :=
  Build_state (status s) (direction s) (target_location s) (location s) (full_curtain_length
  s) (max_curtain_length s) (minimum_voltage s) (default_speed s) (target_speed s) (curr_pwm
  s) (endpoint_calibration_started_timestamp s) (calibrating s) (auto_calibration s)
  (hall_sensor_1_idle_time s) (hall_sensor_1_ticks s) (hall_sensor_2_ticks s)
  (hall_sensor_1_interval s) (movement_started_timestamp s) (rotor_position s)
  (min_slowdown_speed s) (slowdown_factor s) (command s) (dir_error s)
  (sensor_ticks_while_stopped s) (sensor_ticks_while_calibrating_endpoint s)
  (saved_hall_sensor_1_ticks s) (saved_hall_sensor_2_ticks s) (TIM1_CCR1 s) v (HIGH_1_GATE s)
  (HIGH_2_GATE s) (LOW1_PWM s) (LOW2_PWM s) (eeprom s).
Definition set_HIGH_1_GATE (v : GPIO_PinState) (s : state) : state :=
  Build_state (status s) (direction s) (target_location s) (location s) (full_curtain_length
  s) (max_curtain_length s) (minimum_voltage s) (default_speed s) (target_speed s) (curr_pwm
  s) (endpoint_calibration_started_timestamp s) (calibrating s) (auto_calibration s)
  (hall_sensor_1_idle_time s) (hall_sensor_1_ticks s) (hall_sensor_2_ticks s)
  (hall_sensor_1_interval s) (movement_started_timestamp s) (rotor_position s)
  (min_slowdown_speed s) (slowdown_factor s) (command s) (dir_error s)
  (sensor_ticks_while_stopped s) (sensor_ticks_while_calibrating_endpoint s)
  (saved_hall_sensor_1_ticks s) (saved_hall_sensor_2_ticks s) (TIM1_CCR1 s) (TIM1_CCR4 s) v
  (HIGH_2_GATE s) (LOW1_PWM s) (LOW2_PWM s) (eeprom s).
Definition set_HIGH_2_GATE (v : GPIO_PinState) (s : state) : state :=
  Build_state (status s) (direction s) (target_location s) (location s) (full_curtain_length
  s) (max_curtain_length s) (minimum_voltage s) (default_speed s) (target_speed s) (curr_pwm
  s) (endpoint_calibration_started_timestamp s) (calibrating s) (auto_calibration s)
  (hall_sensor_1_idle_time s) (hall_sensor_1_ticks s) (hall_sensor_2_ticks s)
  (hall_sensor_1_interval s) (movement_started_timestamp s) (rotor_position s)
  (min_slowdown_speed s) (slowdown_factor s) (command s) (dir_error s)
  (sensor_ticks_while_stopped s) (sensor_ticks_while_calibrating_endpoint s)
  (saved_hall_sensor_1_ticks s) (saved_hall_sensor_2_ticks s) (TIM1_CCR1 s) (TIM1_CCR4 s)
  (HIGH_1_GATE s) v (LOW1_PWM s) (LOW2_PWM s) (eeprom s).
Definition set_LOW1_PWM (v : bool) (s : state) : state :=
  Build_state (status s) (direction s) (target_location s) (location s) (full_curtain_length
  s) (max_curtain_length s) (minimum_voltage s) (default_speed s) (target_speed s) (curr_pwm
  s) (endpoint_calibration_started_timestamp s) (calibrating s) (auto_calibration s)
  (hall_sensor_1_idle_time s) (hall_sensor_1_ticks s) (hall_sensor_2_ticks s)
  (hall_sensor_1_interval s) (movement_started_timestamp s) (rotor_position s)
  (min_slowdown_speed s) (slowdown_factor s) (command s) (dir_error s)
  (sensor_ticks_while_stopped s) (sensor_ticks_while_calibrating_endpoint s)
  (saved_hall_sensor_1_ticks s) (saved_hall_sensor_2_ticks s) (TIM1_CCR1 s) (TIM1_CCR4 s)
  (HIGH_1_GATE s) (HIGH_2_GATE s) v (LOW2_PWM s) (eeprom s).
Definition set_LOW2_PWM (v : bool) (s : state) : state :=
  Build_state (status s) (direction s) (target_location s) (location s) (full_curtain_length
  s) (max_curtain_length s) (minimum_voltage s) (default_speed s) (target_speed s) (curr_pwm
  s) (endpoint_calibration_started_timestamp s) (calibrating s) (auto_calibration s)
  (hall_sensor_1_idle_time s) (hall_sensor_1_ticks s) (hall_sensor_2_ticks s)
  (hall_sensor_1_interval s) (movement_started_timestamp s) (rotor_position s)
  (min_slowdown_speed s) (slowdown_factor s) (command s) (dir_error s)
  (sensor_ticks_while_stopped s) (sensor_ticks_while_calibrating_endpoint s)
  (saved_hall_sensor_1_ticks s) (saved_hall_sensor_2_ticks s) (TIM1_CCR1 s) (TIM1_CCR4 s)
  (HIGH_1_GATE s) (HIGH_2_GATE s) (LOW1_PWM s) v (eeprom s).
Definition set_eeprom (v : list (Z * Z)) (s : state) : state :=
  Build_state (status s) (direction s) (target_location s) (location s) (full_curtain_length
  s) (max_curtain_length s) (minimum_voltage s) (default_speed s) (target_speed s) (curr_pwm
  s) (endpoint_calibration_started_timestamp s) (calibrating s) (auto_calibration s)
  (hall_sensor_1_idle_time s) (hall_sensor_1_ticks s) (hall_sensor_2_ticks s)
  (hall_sensor_1_interval s) (movement_started_timestamp s) (rotor_position s)
  (min_slowdown_speed s) (slowdown_factor s) (command s) (dir_error s)
  (sensor_ticks_while_stopped s) (sensor_ticks_while_calibrating_endpoint s)
  (saved_hall_sensor_1_ticks s) (saved_hall_sensor_2_ticks s) (TIM1_CCR1 s) (TIM1_CCR4 s)
  (HIGH_1_GATE s) (HIGH_2_GATE s) (LOW1_PWM s) (LOW2_PWM s) v.

(** ** HAL primitives *)

(** The two low-side PWM channels and the two high-side gate pins. *)
Inductive pwm_channel : Type :=
  | LOW1_PWM_CHANNEL
  | LOW2_PWM_CHANNEL.

Inductive gate_pin : Type :=
  | HIGH_1_GATE_Pin
  | HIGH_2_GATE_Pin.

(** Modelled from the spec: [pwm_start(channel)] starts the PWM output
    of a low-side channel. *)
Definition pwm_start (ch : pwm_channel) (s : state) : state :=
  match ch with
  | LOW1_PWM_CHANNEL => set_LOW1_PWM true s
  | LOW2_PWM_CHANNEL => set_LOW2_PWM true s
  end.

(** Modelled from the spec: [pwm_stop(channel)] stops the PWM output of
    a low-side channel. *)
Definition pwm_stop (ch : pwm_channel) (s : state) : state :=
  match ch with
  | LOW1_PWM_CHANNEL => set_LOW1_PWM false s
  | LOW2_PWM_CHANNEL => set_LOW2_PWM false s
  end.

(** Modelled from the spec: the bridge GPIOs [HIGH_1] and [HIGH_2] are
    binary outputs; [HAL_GPIO_WritePin] sets the level of one. *)
Definition HAL_GPIO_WritePin (p : gate_pin) (v : GPIO_PinState) (s : state) : state :=
  match p with
  | HIGH_1_GATE_Pin => set_HIGH_1_GATE v s
  | HIGH_2_GATE_Pin => set_HIGH_2_GATE v s
  end.

(** Statements of C in sequence: [s |> f |> g] runs [f], then [g]. *)
Notation "s |> f" := (f s) (at level 45, left associativity, only parsing).

(** ** [motor_stop] *)

Definition motor_stop (s : state) : state :=
  s |> pwm_stop LOW1_PWM_CHANNEL
    |> pwm_stop LOW2_PWM_CHANNEL
    |> HAL_GPIO_WritePin HIGH_1_GATE_Pin GPIO_PIN_RESET
    |> HAL_GPIO_WritePin HIGH_2_GATE_Pin GPIO_PIN_RESET
    |> set_TIM1_CCR1 0
    |> set_TIM1_CCR4 0
    |> set_status Stopped
    |> set_direction DirNone
    |> set_curr_pwm 0
    |> set_sensor_ticks_while_stopped 0
    |> (fun s => set_saved_hall_sensor_1_ticks (hall_sensor_1_ticks s) s)
    |> (fun s => set_saved_hall_sensor_2_ticks (hall_sensor_2_ticks s) s)
    |> set_hall_sensor_1_interval 0
    |> set_hall_sensor_1_ticks 0
    |> set_hall_sensor_2_ticks 0
    |> set_hall_sensor_1_idle_time 0
    |> set_target_speed 0.

(** ** [float]: IEEE-754 binary32, round to nearest even *)
Module f32.
Import SpecFloat.

Definition prec : Z := 24.
Definition emax : Z := 128.

(** conversion of an integer to [float] *)
Definition of_Z (z : Z) : spec_float := binary_normalize prec emax z 0 false.

Definition mul : spec_float -> spec_float -> spec_float := SFmul prec emax.
Definition div : spec_float -> spec_float -> spec_float := SFdiv prec emax.
Definition gtb (x y : spec_float) : bool := SFltb y x.

(** the integer part of a finite [float], rounded toward zero *)
Definition trunc (x : spec_float) : option Z :=
  match x with
  | S754_zero _ => Some 0
  | S754_finite sg m e =>
      let n := Z.shiftl (Zpos m) e in Some (if sg then - n else n)
  | S754_infinity _ | S754_nan => None
  end.

Definition clamp (lo hi x : Z) : Z := Z.max lo (Z.min hi x).

(** Conversions to integer types. Where C leaves the conversion
    undefined (NaN, infinities, values out of range) the result is the
    one of the run-time helpers of the ARM EABI: NaN gives 0, the rest
    saturates. *)
Definition to_u32 (x : spec_float) : Z :=
  match x with
  | S754_nan => 0
  | S754_infinity sg => if sg then 0 else 2 ^ 32 - 1
  | _ => clamp 0 (2 ^ 32 - 1) (default 0 (trunc x))
  end.

Definition to_i32 (x : spec_float) : Z :=
  match x with
  | S754_nan => 0
  | S754_infinity sg => if sg then - 2 ^ 31 else 2 ^ 31 - 1
  | _ => clamp (- 2 ^ 31) (2 ^ 31 - 1) (default 0 (trunc x))
  end.
End f32.

Abbreviation float := SpecFloat.spec_float.

(** ** Emulated EEPROM *)

Inductive eeprom_var_t : Type :=
  | MAX_CURTAIN_LEN_EEPROM
  | FULL_CURTAIN_LEN_EEPROM
  | MINIMUM_VOLTAGE_EEPROM
  | DEFAULT_SPEED_EEPROM
  | AUTO_CAL_EEPROM.

Definition VirtAddVarTab (var : eeprom_var_t) : Z :=
  match var with
  | MAX_CURTAIN_LEN_EEPROM => 0x5555
  | FULL_CURTAIN_LEN_EEPROM => 0x6666
  | MINIMUM_VOLTAGE_EEPROM => 0x7777
  | DEFAULT_SPEED_EEPROM => 0x8888
  | AUTO_CAL_EEPROM => 0x9999
  end.

(** Modelled from the spec: [load_var(slot)] gives the last value stored
    in the slot, or fails (a non-zero status, here [None]) when the slot
    was never written. *)
Definition EE_ReadVariable (VirtAddress : Z) (s : state) : option Z :=
  snd <$> List.find (fun entry => fst entry =? VirtAddress) (eeprom s).

(** Modelled from the spec: [store_var(slot, u16)] stores a 16-bit value
    in the slot. *)
Definition EE_WriteVariable (VirtAddress : Z) (Data : Z) (s : state) : state :=
  set_eeprom ((VirtAddress, to_u16 Data) :: eeprom s) s.

(** ** Byte buffers

    A buffer is a list of bytes; an access out of its bounds has no
    defined result. *)
Definition load (i : nat) (buf : list Z) : option Z := buf !! i.

Definition store (i : nat) (v : Z) (buf : list Z) : option (list Z) :=
  if (i <? length buf)%nat then Some (<[i := to_u8 v]> buf) else None.

(** What the analog inputs return during a call, and the indeterminate
    value a local variable holds before it is first assigned. *)
Record inputs : Type := Build_inputs {
  get_voltage : Z;
  get_motor_current : Z;
  indeterminate : Z
}.

(** ** Board constants

    [main.h] is not part of the sources at hand; its macros are the
    variables of this section. The timing macros are non-negative integer
    constants, compared as such with the [uint32_t] differences of tick
    counts. *)
Section Board.

Variable GEAR_RATIO : Z.
Variable HALL_SENSOR_GRACE_PERIOD : Z.
Variable HALL_SENSOR_TIMEOUT : Z.
Variable HALL_SENSOR_TIMEOUT_WHILE_STOPPING : Z.
Variable ENDPOINT_CALIBRATION_PERIOD : Z.

Definition INITIAL_PWM : Z := 60.

(** ** [get_rpm] *)

(** [60*1000/GEAR_RATIO] is an [int] division; dividing by the
    [uint32_t] interval converts to unsigned, and so does the last
    division by 2. *)
Definition get_rpm (s : state) : option Z :=
  if negb (hall_sensor_1_interval s =? 0) then
    a ← div_i32 (60 * 1000) GEAR_RATIO;
    b ← div_u32 (to_u32 a) (hall_sensor_1_interval s);
    c ← div_u32 b 2;
    Some (to_i32 c)
  else Some 0.

(** ** [process_location] *)

(** The result is the new state and the value returned. The inner [sum]
    tells the two ways out of the location update: [inl] after
    [motor_stop(); return 1;], [inr] when control reaches the slowdown
    block. *)
Definition process_location (sensor_direction : motor_direction) (s : state)
  : option (state * Z) :=
  if calibrating s =? 0 then
    let updated : state + state :=
      match sensor_direction with
      | Up =>
          let s := set_location (sub_i32 (location s) 1) s in
          if bool_decide (direction s = Up)
             && negb (target_location s =? -1)
             && (sub_i32 (location s) 1 <=? target_location s)
          then inl (motor_stop s) else inr s
      | Down =>
          let s := set_location (add_i32 (location s) 1) s in
          if bool_decide (direction s = Down)
             && (add_i32 (location s) 1 >=? target_location s)
          then inl (motor_stop s) else inr s
      | DirNone => inr s
      end in
    match updated with
    | inl s => Some (s, 1)
    | inr s =>
        if bool_decide (direction s <> DirNone) then
          let distance_to_target := abs_i32 (sub_i32 (target_location s) (location s)) in
          if distance_to_target <? Z.quot (target_speed s * slowdown_factor s) 8 then
            let s := set_status Stopping s in
            q ← div_i32 (mul_i32 distance_to_target 8) (slowdown_factor s);
            let new_speed := if q <? min_slowdown_speed s then min_slowdown_speed s else q in
            Some (if new_speed <? target_speed s
                  then set_target_speed (to_u8 new_speed) s else s, 0)
          else Some (s, 0)
        else Some (s, 0)
    end
  else Some (s, 0).

(** ** [motor_adjust_rpm], called every 10 ms *)

Definition motor_adjust_rpm (s : state) : option state :=
  if bool_decide (status s = Moving) || bool_decide (status s = Stopping) then
    rpm ← get_rpm s;
    let speed := to_u32 rpm in
    let s :=
      if speed <? target_speed s then
        if curr_pwm s <? 254 then
          let s := set_curr_pwm (to_u8 (curr_pwm s + 1)) s in
          let s := if sub_u32 (target_speed s) speed >? 2
                   then set_curr_pwm (to_u8 (curr_pwm s + 1)) s else s in
          if bool_decide (direction s = Up)
          then set_TIM1_CCR4 (curr_pwm s) s else set_TIM1_CCR1 (curr_pwm s) s
        else s
      else s in
    let s :=
      if speed >? target_speed s then
        if curr_pwm s >? 1 then
          let s := set_curr_pwm (to_u8 (curr_pwm s - 1)) s in
          let s := if sub_u32 speed (target_speed s) >? 2
                   then set_curr_pwm (to_u8 (curr_pwm s - 1)) s else s in
          let s := if sub_u32 speed (target_speed s) >? 4
                   then set_curr_pwm (to_u8 (curr_pwm s - 1)) s else s in
          if bool_decide (direction s = Up)
          then set_TIM1_CCR4 (curr_pwm s) s else set_TIM1_CCR1 (curr_pwm s) s
        else s
      else s in
    Some s
  else Some s.

(** ** [motor_stopped] and [motor_stall_check], called every millisecond

    [now] is the value [HAL_GetTick()] returns during the call. *)
Definition motor_stopped (now : Z) (s : state) : state :=
  if bool_decide (status s <> Stopped) then
    let current_status := status s in
    let current_direction := direction s in
    let s := motor_stop s in
    if bool_decide (current_status = Moving) then
      if bool_decide (current_direction = Up) then
        s |> set_status CalibratingEndPoint
          |> set_sensor_ticks_while_calibrating_endpoint 0
          |> set_endpoint_calibration_started_timestamp now
      else set_status Error s
    else if bool_decide (current_status = Stopping) then set_status Stopped s
    else s
  else s.

Definition motor_stall_check (now : Z) (s : state) : state :=
  if bool_decide (status s = Moving) || bool_decide (status s = Stopping) then
    let s := set_hall_sensor_1_idle_time (add_u32 (hall_sensor_1_idle_time s) 1) s in
    if sub_u32 now (movement_started_timestamp s) >? HALL_SENSOR_GRACE_PERIOD then
      if hall_sensor_1_idle_time s >? HALL_SENSOR_TIMEOUT then
        if bool_decide (status s = Stopping)
           && (hall_sensor_1_idle_time s <? HALL_SENSOR_TIMEOUT_WHILE_STOPPING)
        then s
        else s |> motor_stopped now |> set_hall_sensor_1_idle_time 0
      else s
    else s
  else if bool_decide (status s = CalibratingEndPoint) then
    if sub_u32 now (endpoint_calibration_started_timestamp s) >? ENDPOINT_CALIBRATION_PERIOD
    then s |> set_status Stopped |> set_calibrating 0 |> set_location 0
    else s
  else s.

(** ** Starting the motor

    [now] is the tick count read after the 10 ms settling delay. *)
Definition motor_start_common (motor_speed : Z) (now : Z) (s : state) : state :=
  s |> motor_stop
    |> set_movement_started_timestamp now
    |> set_target_speed motor_speed
    |> set_curr_pwm INITIAL_PWM
    |> set_status Moving.

Definition motor_up (motor_speed : Z) (now : Z) (s : state) : state :=
  s |> motor_start_common motor_speed now
    |> pwm_start LOW2_PWM_CHANNEL
    |> set_TIM1_CCR4 INITIAL_PWM
    |> HAL_GPIO_WritePin HIGH_1_GATE_Pin GPIO_PIN_SET
    |> set_direction Up.

Definition motor_down (motor_speed : Z) (now : Z) (s : state) : state :=
  s |> motor_start_common motor_speed now
    |> pwm_start LOW1_PWM_CHANNEL
    |> set_TIM1_CCR1 INITIAL_PWM
    |> HAL_GPIO_WritePin HIGH_2_GATE_Pin GPIO_PIN_SET
    |> set_direction Down.

Definition motor_process (now : Z) (s : state) : state :=
  if bool_decide (command s = MotorUp) then
    s |> motor_up (default_speed s) now |> set_command NoCommand
  else if bool_decide (command s = MotorDown) then
    s |> motor_down (default_speed s) now |> set_command NoCommand
  else if bool_decide (command s = Stop) then
    s |> motor_stop |> set_command NoCommand
  else s.

(** ** Settings and positions *)

Variable SLIM_BINARY : bool.
Variable VERSION_MAJOR : Z.
Variable VERSION_MINOR : Z.
Variable HALL_1_SENSOR : Z.

(** [tmp] is read before [EE_ReadVariable] assigns it when the read
    fails. *)
Definition motor_write_setting (io : inputs) (var : eeprom_var_t) (value : Z) (s : state)
  : state :=
  if SLIM_BINARY then s
  else if bool_decide (status s = Stopped) then
    let tmp := default (to_u16 (indeterminate io)) (EE_ReadVariable (VirtAddVarTab var) s) in
    if negb (tmp =? to_u16 value) then EE_WriteVariable (VirtAddVarTab var) value s else s
  else s.

Definition position100_to_location (position : float) (s : state) : Z :=
  if f32.gtb position (f32.of_Z 100) then max_curtain_length s
  else f32.to_u32
         (f32.div (f32.mul position (f32.of_Z (max_curtain_length s))) (f32.of_Z 100)).

Definition location_to_position100 (s : state) : float :=
  if negb (calibrating s =? 0) then f32.of_Z 50
  else if location s <? 0 then f32.of_Z 0
  else if to_u32 (location s) >? max_curtain_length s then f32.of_Z 100
  else f32.div (f32.mul (f32.of_Z 100) (f32.of_Z (location s)))
               (f32.of_Z (max_curtain_length s)).

Definition check_voltage (io : inputs) (s : state) : Z :=
  if negb (minimum_voltage s =? 0) then
    let voltage := to_u16 (Z.quot (get_voltage io) 30) in
    if voltage <? minimum_voltage s then 0 else 1
  else 1.

Definition calculate_battery : Z := 0x12.

(** [DEG_TO_LOCATION(x)] is [(GEAR_RATIO * 4 * x / 360)] *)
Definition DEG_TO_LOCATION (x : Z) : Z := Z.quot (GEAR_RATIO * 4 * x) 360.

(** ** [hall_sensor_callback] *)

Definition hall_sensor_callback (sensor value : Z) (s : state) : option state :=
  let new_rotor_position := sensor + (1 - value) * 2 in
  let s :=
    if sensor =? HALL_1_SENSOR then
      let s := set_hall_sensor_1_ticks (add_u32 (hall_sensor_1_ticks s) 1) s in
      let s := if hall_sensor_1_ticks s >? 1
               then set_hall_sensor_1_interval (hall_sensor_1_idle_time s) s else s in
      set_hall_sensor_1_idle_time 0 s
    else set_hall_sensor_2_ticks (add_u32 (hall_sensor_2_ticks s) 1) s in
  let s :=
    if bool_decide (status s = Stopped) then
      set_sensor_ticks_while_stopped (add_i32 (sensor_ticks_while_stopped s) 1) s
    else if bool_decide (status s = CalibratingEndPoint) then
      set_sensor_ticks_while_calibrating_endpoint
        (add_i32 (sensor_ticks_while_calibrating_endpoint s) 1) s
    else s in
  s ← (if negb (rotor_position s =? -1) then
         let diff := Z.land (4 + new_rotor_position - rotor_position s) 0x3 in
         if diff =? 1 then
           if bool_decide (direction s <> Down) then fst <$> process_location Up s
           else Some (set_dir_error (add_i32 (dir_error s) 1) s)
         else if diff =? 3 then
           if bool_decide (direction s <> Up) then fst <$> process_location Down s
           else Some (set_dir_error (add_i32 (dir_error s) 1) s)
         else Some s
       else Some s);
  Some (set_rotor_position new_rotor_position s).

(** ** [handle_command] *)

Definition CMD_GO_TO : Z := 0xdd.
Definition CMD_UP : Z := 0x0add.
Definition CMD_DOWN : Z := 0x0aee.
Definition CMD_UP_17 : Z := 0x0a0d.
Definition CMD_DOWN_17 : Z := 0x0a0e.
Definition CMD_STOP : Z := 0x0acc.
Definition CMD_OVERRIDE_UP_90 : Z := 0xfad1.
Definition CMD_OVERRIDE_DOWN_90 : Z := 0xfad2.
Definition CMD_OVERRIDE_UP_6 : Z := 0xfad3.
Definition CMD_OVERRIDE_DOWN_6 : Z := 0xfad4.
Definition CMD_SET_MAX_CURTAIN_LENGTH : Z := 0xfaee.
Definition CMD_SET_FULL_CURTAIN_LENGTH : Z := 0xfacc.
Definition CMD_RESET_CURTAIN_LENGTH : Z := 0xfa00.
Definition CMD_GET_STATUS : Z := 0xcccc.
Definition CMD_EXT_GO_TO : Z := 0x10.
Definition CMD_EXT_SET_SPEED : Z := 0x20.
Definition CMD_EXT_SET_DEFAULT_SPEED : Z := 0x30.
Definition CMD_EXT_SET_MINIMUM_VOLTAGE : Z := 0x40.
Definition CMD_EXT_SET_LOCATION : Z := 0x50.
Definition CMD_EXT_SET_AUTO_CAL : Z := 0x60.
Definition CMD_EXT_GO_TO_LOCATION : Z := 0x70.
Definition CMD_EXT_SET_SLOWDOWN_FACTOR : Z := 0x80.
Definition CMD_EXT_SET_MIN_SLOWDOWN_SPEED : Z := 0x90.
Definition CMD_EXT_OVERRIDE_DOWN : Z := 0xfada.
Definition CMD_EXT_GET_LOCATION : Z := 0xccd0.
Definition CMD_EXT_GET_VERSION : Z := 0xccdc.
Definition CMD_EXT_GET_STATUS : Z := 0xccde.
Definition CMD_EXT_GET_LIMITS : Z := 0xccdf.
Definition CMD_EXT_DEBUG : Z := 0xccd1.
Definition CMD_EXT_SENSOR_DEBUG : Z := 0xccd2.

(** A call gives the state, the reply buffer, [*tx_bytes] and the value
    returned. *)
Definition handle_command (io : inputs) (rx_buffer tx_buffer : list Z)
    (burstindex : Z) (tx_bytes : Z) (s : state)
  : option (state * list Z * Z * Z) :=
  cmd1 ← load 3 rx_buffer;
  cmd2 ← load 4 rx_buffer;
  let cmd := to_u16 (Z.shiftl cmd1 8 + cmd2) in
  '(s, tx_buffer, tx_bytes, cmd_handled) ←
    (if cmd =? CMD_GET_STATUS then
       tx ← store 2 0xd8 tx_buffer;
       tx ← store 3 (if SLIM_BINARY then 0x12 else calculate_battery) tx;
       tx ← store 4 (Z.quot (get_voltage io) 16) tx;
       rpm ← get_rpm s;
       tx ← store 5 rpm tx;
       tx ← store 6 (f32.to_u32 (location_to_position100 s)) tx;
       b3 ← load 3 tx; b4 ← load 4 tx; b5 ← load 5 tx; b6 ← load 6 tx;
       tx ← store 7 (Z.lxor (Z.lxor (Z.lxor b3 b4) b5) b6) tx;
       Some (s, tx, 8, true)
     else if cmd =? CMD_UP then
       Some (s |> set_target_location (-1) |> set_command MotorUp,
             tx_buffer, tx_bytes, true)
     else if cmd =? CMD_DOWN then
       Some (s |> set_target_location (to_i32 (max_curtain_length s))
               |> set_command MotorDown, tx_buffer, tx_bytes, true)
     else if cmd =? CMD_UP_17 then
       let s := set_target_location (sub_i32 (location s) (DEG_TO_LOCATION 17)) s in
       let s := if target_location s <? 0 then set_target_location 0 s else s in
       Some (set_command MotorUp s, tx_buffer, tx_bytes, true)
     else if cmd =? CMD_DOWN_17 then
       let s := set_target_location (add_i32 (location s) (DEG_TO_LOCATION 17)) s in
       let s := if to_u32 (target_location s) >? max_curtain_length s
                then set_target_location (to_i32 (max_curtain_length s)) s else s in
       Some (set_command MotorDown s, tx_buffer, tx_bytes, true)
     else if cmd =? CMD_STOP then
       Some (set_command Stop s, tx_buffer, tx_bytes, true)
     else if cmd =? CMD_OVERRIDE_UP_90 then
       Some (s |> set_target_location (sub_i32 (location s) (DEG_TO_LOCATION 90))
               |> set_command MotorUp, tx_buffer, tx_bytes, true)
     else if cmd =? CMD_OVERRIDE_DOWN_90 then
       Some (s |> set_target_location (add_i32 (location s) (DEG_TO_LOCATION 90))
               |> set_command MotorDown, tx_buffer, tx_bytes, true)
     else if cmd =? CMD_OVERRIDE_UP_6 then
       Some (s |> set_target_location (sub_i32 (location s) (DEG_TO_LOCATION 6))
               |> set_command MotorUp, tx_buffer, tx_bytes, true)
     else if cmd =? CMD_OVERRIDE_DOWN_6 then
       Some (s |> set_target_location (add_i32 (location s) (DEG_TO_LOCATION 6))
               |> set_command MotorDown, tx_buffer, tx_bytes, true)
     else if (cmd =? CMD_SET_FULL_CURTAIN_LENGTH) || (cmd =? CMD_SET_MAX_CURTAIN_LENGTH) then
       let s :=
         if cmd =? CMD_SET_FULL_CURTAIN_LENGTH then
           s |> motor_write_setting io FULL_CURTAIN_LEN_EEPROM (location s)
             |> set_full_curtain_length (to_u32 (location s))
         else s in
       (* fall-through *)
       Some (s |> motor_write_setting io MAX_CURTAIN_LEN_EEPROM (location s)
               |> set_max_curtain_length (to_u32 (location s)),
             tx_buffer, tx_bytes, true)
     else if cmd =? CMD_RESET_CURTAIN_LENGTH then
       Some (s |> motor_write_setting io MAX_CURTAIN_LEN_EEPROM (full_curtain_length s)
               |> set_max_curtain_length (full_curtain_length s)
               |> set_calibrating 1, tx_buffer, tx_bytes, true)
     else if cmd =? CMD_EXT_OVERRIDE_DOWN then
       Some (s |> set_target_location (add_i32 (location s) (DEG_TO_LOCATION (360 * 5)))
               |> set_command MotorDown, tx_buffer, tx_bytes, true)
     else if cmd =? CMD_EXT_GET_VERSION then
       tx ← store 0 0x00 tx_buffer;
       tx ← store 1 0xff tx;
       tx ← store 2 0xd0 tx;
       tx ← store 3 VERSION_MAJOR tx;
       tx ← store 4 VERSION_MINOR tx;
       tx ← store 5 (minimum_voltage s) tx;
       tx ← store 6 (default_speed s) tx;
       b3 ← load 3 tx; b4 ← load 4 tx; b5 ← load 5 tx; b6 ← load 6 tx;
       tx ← store 7 (Z.lxor (Z.lxor (Z.lxor b3 b4) b5) b6) tx;
       Some (s, tx, 8, true)
     else if cmd =? CMD_EXT_DEBUG then
       tx ← store 0 0x00 tx_buffer;
       tx ← store 1 0xff tx;
       tx ← store 2 0xd2 tx;
       tx ← store 3 0 tx;
       tx ← store 4 (dir_error s) tx;
       tx ← store 5 (sensor_ticks_while_calibrating_endpoint s) tx;
       tx ← store 6 (sensor_ticks_while_stopped s) tx;
       tx ← store 7 0 tx;
       b3 ← load 3 tx; b4 ← load 4 tx; b5 ← load 5 tx; b6 ← load 6 tx; b7 ← load 7 tx;
       tx ← store 8 (Z.lxor (Z.lxor (Z.lxor (Z.lxor b3 b4) b5) b6) b7) tx;
       Some (s, tx, 9, true)
     else if cmd =? CMD_EXT_SENSOR_DEBUG then
       tx ← store 0 0x00 tx_buffer;
       tx ← store 1 0xff tx;
       tx ← store 2 0xd3 tx;
       tx ← store 3 (Z.shiftr (saved_hall_sensor_1_ticks s) 8) tx;
       tx ← store 4 (Z.land (saved_hall_sensor_1_ticks s) 0xff) tx;
       tx ← store 5 (Z.shiftr (saved_hall_sensor_2_ticks s) 8) tx;
       tx ← store 6 (Z.land (saved_hall_sensor_2_ticks s) 0xff) tx;
       tx ← store 7 0 tx;
       b3 ← load 3 tx; b4 ← load 4 tx; b5 ← load 5 tx; b6 ← load 6 tx; b7 ← load 7 tx;
       tx ← store 8 (Z.lxor (Z.lxor (Z.lxor (Z.lxor b3 b4) b5) b6) b7) tx;
       Some (s, tx, 9, true)
     else if cmd =? CMD_EXT_GET_LOCATION then
       tx ← store 2 0xd1 tx_buffer;
       tx ← store 3 (Z.shiftr (location s) 8) tx;
       tx ← store 4 (Z.land (location s) 0xff) tx;
       tx ← store 5 (Z.shiftr (target_location s) 8) tx;
       tx ← store 6 (Z.land (target_location s) 0xff) tx;
       b3 ← load 3 tx; b4 ← load 4 tx; b5 ← load 5 tx; b6 ← load 6 tx;
       tx ← store 7 (Z.lxor (Z.lxor (Z.lxor b3 b4) b5) b6) tx;
       Some (s, tx, 8, true)
     else if cmd =? CMD_EXT_GET_STATUS then
       tx ← store 2 0xda tx_buffer;
       tx ← store 3 (status_code (status s)) tx;
       tx ← store 4 (if SLIM_BINARY then 0 else get_motor_current io) tx;
       rpm ← get_rpm s;
       tx ← store 5 rpm tx;
       let pos2 := f32.mul (location_to_position100 s) (f32.of_Z 256) in
       let pos := f32.to_i32 pos2 in
       tx ← store 6 (Z.shiftr pos 8) tx;
       tx ← store 7 (Z.land pos 0xff) tx;
       b3 ← load 3 tx; b4 ← load 4 tx; b5 ← load 5 tx; b6 ← load 6 tx; b7 ← load 7 tx;
       tx ← store 8 (Z.lxor (Z.lxor (Z.lxor (Z.lxor b3 b4) b5) b6) b7) tx;
       Some (s, tx, 9, true)
     else if cmd =? CMD_EXT_GET_LIMITS then
       tx ← store 0 0x00 tx_buffer;
       tx ← store 1 0xff tx;
       tx ← store 2 0xdb tx;
       tx ← store 3 (calibrating s) tx;
       tx ← store 4 (Z.shiftr (max_curtain_length s) 8) tx;
       tx ← store 5 (Z.land (max_curtain_length s) 0xff) tx;
       tx ← store 6 (Z.shiftr (full_curtain_length s) 8) tx;
       tx ← store 7 (Z.land (full_curtain_length s) 0xff) tx;
       b3 ← load 3 tx; b4 ← load 4 tx; b5 ← load 5 tx; b6 ← load 6 tx; b7 ← load 7 tx;
       tx ← store 8 (Z.lxor (Z.lxor (Z.lxor (Z.lxor b3 b4) b5) b6) b7) tx;
       Some (s, tx, 9, true)
     else Some (s, tx_buffer, tx_bytes, false));
  let s :=
    if negb cmd_handled then
      (* one byte commands with parameter *)
      if cmd1 =? CMD_EXT_SET_SPEED then
        if cmd2 >? 1 then
          let s := set_default_speed cmd2 s in
          if negb (target_speed s =? 0) then set_target_speed cmd2 s else s
        else s
      else if cmd1 =? CMD_EXT_SET_DEFAULT_SPEED then
        if cmd2 >? 0 then
          s |> motor_write_setting io DEFAULT_SPEED_EEPROM cmd2 |> set_default_speed cmd2
        else s
      else if cmd1 =? CMD_GO_TO then
        if calibrating s =? 0 then
          let s := set_target_location (to_i32 (position100_to_location (f32.of_Z cmd2) s)) s in
          if target_location s <? location s
          then set_command MotorUp s else set_command MotorDown s
        else s
      else if Z.land cmd1 0xf0 =? CMD_EXT_GO_TO then
        if calibrating s =? 0 then
          let pos := to_u16 (Z.shiftl (Z.land cmd1 0x0f) 8 + cmd2) in
          let pos2 := f32.div (f32.of_Z pos) (f32.of_Z 16) in
          let s := set_target_location (to_i32 (position100_to_location pos2 s)) s in
          if target_location s <? location s
          then set_command MotorUp s else set_command MotorDown s
        else s
      else if Z.land cmd1 0xf0 =? CMD_EXT_SET_LOCATION then
        let loc := to_u16 (Z.shiftl (Z.shiftl (Z.land cmd1 0x0f) 8 + cmd2) 1) in
        s |> set_location loc |> set_calibrating 0
      else if cmd1 =? CMD_EXT_SET_MINIMUM_VOLTAGE then
        s |> motor_write_setting io MINIMUM_VOLTAGE_EEPROM cmd2 |> set_minimum_voltage cmd2
      else if cmd1 =? CMD_EXT_SET_AUTO_CAL then
        s |> motor_write_setting io AUTO_CAL_EEPROM cmd2 |> set_auto_calibration cmd2
      else if Z.land cmd1 0xf0 =? CMD_EXT_GO_TO_LOCATION then
        let s := set_target_location (Z.shiftl (Z.shiftl (Z.land cmd1 0x0f) 8 + cmd2) 1) s in
        if target_location s <? location s
        then set_command MotorUp s else set_command MotorDown s
      else if cmd1 =? CMD_EXT_SET_SLOWDOWN_FACTOR then set_slowdown_factor cmd2 s
      else if cmd1 =? CMD_EXT_SET_MIN_SLOWDOWN_SPEED then set_min_slowdown_speed cmd2 s
      else s
    else s in
  Some (s, tx_buffer, tx_bytes, 1).

(** ** [motor_init] *)

Definition motor_init (s : state) : state :=
  let s := motor_stop s in
  let s := set_location (to_i32 (max_curtain_length s)) s in
  if negb (auto_calibration s =? 0)
  then s |> set_calibrating 1 |> set_command MotorUp
  else s |> set_calibrating 0 |> set_command NoCommand.

(** ** Well-typed states

    Every integer global holds a value of its C type. *)
Record typed (s : state) : Prop := Build_typed {
  typed_target_location : is_i32 (target_location s);
  typed_location : is_i32 (location s);
  typed_full_curtain_length : is_u32 (full_curtain_length s);
  typed_max_curtain_length : is_u32 (max_curtain_length s);
  typed_minimum_voltage : is_u16 (minimum_voltage s);
  typed_default_speed : is_u8 (default_speed s);
  typed_target_speed : is_u8 (target_speed s);
  typed_curr_pwm : is_u8 (curr_pwm s);
  typed_endpoint_calibration_started_timestamp :
    is_u32 (endpoint_calibration_started_timestamp s);
  typed_calibrating : is_u8 (calibrating s);
  typed_auto_calibration : is_u8 (auto_calibration s);
  typed_hall_sensor_1_idle_time : is_u32 (hall_sensor_1_idle_time s);
  typed_hall_sensor_1_ticks : is_u32 (hall_sensor_1_ticks s);
  typed_hall_sensor_2_ticks : is_u32 (hall_sensor_2_ticks s);
  typed_hall_sensor_1_interval : is_u32 (hall_sensor_1_interval s);
  typed_movement_started_timestamp : is_u32 (movement_started_timestamp s);
  typed_rotor_position : is_i32 (rotor_position s);
  typed_min_slowdown_speed : is_u8 (min_slowdown_speed s);
  typed_slowdown_factor : is_u8 (slowdown_factor s);
  typed_dir_error : is_i32 (dir_error s);
  typed_sensor_ticks_while_stopped : is_i32 (sensor_ticks_while_stopped s);
  typed_sensor_ticks_while_calibrating_endpoint :
    is_i32 (sensor_ticks_while_calibrating_endpoint s);
  typed_saved_hall_sensor_1_ticks : is_u32 (saved_hall_sensor_1_ticks s);
  typed_saved_hall_sensor_2_ticks : is_u32 (saved_hall_sensor_2_ticks s)
}.

(** The locations the arithmetic of [process_location] handles without
    leaving [int]: both the location and the target are far from the ends
    of the type. *)
Definition operating_range (s : state) : Prop :=
  - 2 ^ 30 < location s < 2 ^ 30 /\ - 2 ^ 30 < target_location s < 2 ^ 30.

(** [n] successive edges in one sensor direction: the state after them
    and the values [process_location] returned, the first edge first. *)
Fixpoint feed_edges (sensor_direction : motor_direction) (n : nat) (s : state)
  : option (state * list Z) :=
  match n with
  | O => Some (s, [])
  | S n =>
      '(s, returned) ← feed_edges sensor_direction n s;
      '(s, r) ← process_location sensor_direction s;
      Some (s, returned ++ [r])
  end.

(** The bytes [from .. from + count - 1] of a buffer and the XOR of a
    list of bytes. *)
Definition bytes (from count : nat) (buf : list Z) : list Z := take count (drop from buf).
Definition xor_bytes (l : list Z) : Z := foldl Z.lxor 0 l.

(** ** [process_location] over the integers

    The slowdown step and the whole function as the specification words
    them, with the arithmetic of [Z]; [process_location] is compared with
    them below. *)
Definition slowdown_speed (distance : Z) (s : state) : Z :=
  Z.max (distance * 8 / slowdown_factor s) (min_slowdown_speed s).

Definition slowdown (s : state) : state :=
  if bool_decide (direction s <> DirNone) then
    let distance := Z.abs (target_location s - location s) in
    if distance <? target_speed s * slowdown_factor s / 8 then
      let s' := set_status Stopping s in
      if slowdown_speed distance s <? target_speed s
      then set_target_speed (slowdown_speed distance s) s' else s'
    else s
  else s.

Definition stops_at_target (sensor_direction : motor_direction) (s : state) : bool :=
  match sensor_direction with
  | Up => bool_decide (direction s = Up) && negb (target_location s =? -1)
          && (location s - 1 <=? target_location s)
  | Down => bool_decide (direction s = Down) && (location s + 1 >=? target_location s)
  | DirNone => false
  end.

Definition moved (sensor_direction : motor_direction) (s : state) : state :=
  match sensor_direction with
  | Up => set_location (location s - 1) s
  | Down => set_location (location s + 1) s
  | DirNone => s
  end.

Definition process_location_spec (sensor_direction : motor_direction) (s : state)
  : state * Z :=
  if calibrating s =? 0 then
    let s := moved sensor_direction s in
    if stops_at_target sensor_direction s then (motor_stop s, 1) else (slowdown s, 0)
  else (s, 0).

(** ** States of the scenarios *)

(** Every global 0, the motor stopped, the bridge off, the EEPROM empty. *)
Definition blank : state :=
  Build_state Stopped DirNone 0 0 0 0 0 0 0 0 0 0 0 0 0 0 0 0 0 0 0 NoCommand 0 0 0 0 0
    0 0 GPIO_PIN_RESET GPIO_PIN_RESET false false [].

(** Scenario 1: moving up from 500 to 200 at 18 rpm. *)
Definition moving_up_500_to_200 : state :=
  blank |> set_max_curtain_length 1000 |> set_location 500 |> set_target_location 200
        |> set_direction Up |> set_status Moving
        |> set_default_speed 18 |> set_target_speed 18 |> set_curr_pwm 60
        |> set_slowdown_factor 8 |> set_min_slowdown_speed 5
        |> set_TIM1_CCR4 60 |> set_HIGH_1_GATE GPIO_PIN_SET |> set_LOW2_PWM true.

(** Scenario 3: moving down from 0 to 30 at 20 rpm, slowdown factor 8,
    minimum slowdown speed 5; here at [location] ticks from the top. *)
Definition moving_down_to_30 (location : Z) : state :=
  blank |> set_max_curtain_length 1000 |> set_location location |> set_target_location 30
        |> set_direction Down |> set_status Moving
        |> set_default_speed 20 |> set_target_speed 20 |> set_curr_pwm 60
        |> set_slowdown_factor 8 |> set_min_slowdown_speed 5
        |> set_TIM1_CCR1 60 |> set_HIGH_2_GATE GPIO_PIN_SET |> set_LOW1_PWM true.

(** The same approach during a calibration: [calibrating] is set. *)
Definition calibrating_down_to_30 (location : Z) : state :=
  set_calibrating 1 (moving_down_to_30 location).

(** The invariant of the approach of scenario 1, [n] edges after its
    start. *)
Definition approaching_200 (n : nat) (s : state) : Prop :=
  location s = 500 - Z.of_nat n /\ target_location s = 200 /\ direction s = Up /\
  calibrating s = 0 /\ status s <> Stopped /\
  is_u8 (target_speed s) /\ is_u8 (slowdown_factor s) /\ is_u8 (min_slowdown_speed s).

(** A motor running up at duty [pwm], aiming at 18 rpm, with [interval]
    milliseconds between the last two edges of Hall sensor 1. *)
Definition running_up (pwm interval : Z) : state :=
  blank |> set_max_curtain_length 1000 |> set_location 500 |> set_target_location 200
        |> set_direction Up |> set_status Moving
        |> set_default_speed 18 |> set_target_speed 18 |> set_curr_pwm pwm
        |> set_hall_sensor_1_interval interval
        |> set_slowdown_factor 8 |> set_min_slowdown_speed 5
        |> set_TIM1_CCR4 pwm |> set_HIGH_1_GATE GPIO_PIN_SET |> set_LOW2_PWM true.

(** ** Go-to frames

    The target location a go-to frame computes from its two opcode bytes:
    [0xdd] takes a percentage, the prefix [0x10] a percentage in
    sixteenths, the prefix [0x70] half a location. *)
Definition go_to_target (cmd1 cmd2 : Z) (s : state) : Z :=
  if cmd1 =? CMD_GO_TO then
    to_i32 (position100_to_location (f32.of_Z cmd2) s)
  else if Z.land cmd1 0xf0 =? CMD_EXT_GO_TO then
    to_i32 (position100_to_location
              (f32.div (f32.of_Z (to_u16 (Z.shiftl (Z.land cmd1 0x0f) 8 + cmd2)))
                       (f32.of_Z 16)) s)
  else Z.shiftl (Z.shiftl (Z.land cmd1 0x0f) 8 + cmd2) 1.

(** A go-to frame the dispatcher does not reject: [0xdd] and the prefix
    [0x10] are dropped while calibrating, the prefix [0x70] never. *)
Definition go_to_accepted (cmd1 : Z) (s : state) : Prop :=
  (cmd1 = CMD_GO_TO /\ calibrating s = 0) \/
  (Z.land cmd1 0xf0 = CMD_EXT_GO_TO /\ calibrating s = 0) \/
  Z.land cmd1 0xf0 = CMD_EXT_GO_TO_LOCATION.

(** Setting the target and choosing the command of a go-to frame. *)
Definition go_to (target : Z) (s : state) : state :=
  let s := set_target_location target s in
  if target_location s <? location s
  then set_command MotorUp s else set_command MotorDown s.

(** ** Reply frames *)

(** The opcodes answered with a frame: status, version, debug, sensor
    debug, location, extended status, limits. *)
Definition reply_opcodes : list Z :=
  [CMD_GET_STATUS; CMD_EXT_GET_VERSION; CMD_EXT_DEBUG; CMD_EXT_SENSOR_DEBUG;
   CMD_EXT_GET_LOCATION; CMD_EXT_GET_STATUS; CMD_EXT_GET_LIMITS].

(** ** Runs of the firmware

    The entry points of the module as events: an edge of a Hall sensor,
    the 10 ms and the 1 ms timers, a pass of the main loop, a frame
    received on the UART (answered into a buffer of 16 bytes). In a run
    every entry point runs to its end before the next one starts; the
    main loop interrupted between the statements of [motor_process] is
    the machine of [preempt_run]. *)
Inductive event : Type :=
  | HallEdge (sensor value : Z)
  | Timer10ms
  | SysTick (now : Z)
  | MainLoop (now : Z)
  | Frame (io : inputs) (rx_buffer : list Z).

Definition step (e : event) (s : state) : option state :=
  match e with
  | HallEdge sensor value => hall_sensor_callback sensor value s
  | Timer10ms => motor_adjust_rpm s
  | SysTick now => Some (motor_stall_check now s)
  | MainLoop now => Some (motor_process now s)
  | Frame io rx_buffer =>
      '(s, _, _, _) ← handle_command io rx_buffer (repeat 0 16) 0 0 s;
      Some s
  end.

Fixpoint run (events : list event) (s : state) : option state :=
  match events with
  | [] => Some s
  | e :: events => s ← step e s; run events s
  end.

(** The state [motor_init] leaves at power-on, with settings of 18 rpm,
    a curtain of 1000 ticks, automatic calibration, slowdown factor 8 and
    minimum slowdown speed 5. *)
Definition power_on : state :=
  motor_init
    (blank |> set_full_curtain_length 1000 |> set_max_curtain_length 1000
           |> set_default_speed 18 |> set_auto_calibration 1
           |> set_rotor_position (-1)
           |> set_slowdown_factor 8 |> set_min_slowdown_speed 5).

(** A received frame with the opcode bytes [cmd1] and [cmd2]. *)
Definition frame (cmd1 cmd2 : Z) : list Z := [0; 0; 0; cmd1; cmd2].

Definition no_inputs : inputs := Build_inputs 0 0 0.

(** After power-on the main loop starts the calibration run upwards; the
    speed is set to 2 rpm; the regulator runs 193 times while no Hall
    edge arrives; the speed is set to 18 rpm; the regulator runs once
    more. *)
Definition stalled_start : list event :=
  [MainLoop 10; Frame no_inputs (frame CMD_EXT_SET_SPEED 2)]
  ++ repeat Timer10ms 193
  ++ [Frame no_inputs (frame CMD_EXT_SET_SPEED 18); Timer10ms].

(** After power-on, still calibrating, a go-to-location frame asks for
    location 996, 4 ticks above the curtain at 1000; the main loop starts
    the motor upwards; Hall sensor 1 gives a first edge. *)
Definition calibration_run : list event :=
  [Frame no_inputs (frame 0x71 0xf2); MainLoop 10; HallEdge 0 1].

(** The end-point calibration of scenario 2, 12 ticks below the top,
    started at tick 5000. *)
Definition calibrating_end_point : state :=
  blank |> set_max_curtain_length 1000 |> set_location 12 |> set_target_location (-1)
        |> set_status CalibratingEndPoint |> set_calibrating 1
        |> set_endpoint_calibration_started_timestamp 5000
        |> set_default_speed 18 |> set_slowdown_factor 8 |> set_min_slowdown_speed 5.

(** A stopped motor 64 ticks below the top. *)
Definition stopped_at_64 : state :=
  blank |> set_max_curtain_length 1000 |> set_location 64
        |> set_default_speed 18 |> set_slowdown_factor 8 |> set_min_slowdown_speed 5.

(** ** The two halves of the regulator

    The accelerating [if] and the braking [if] of [motor_adjust_rpm],
    each as a function of the measured speed; [motor_adjust_rpm] runs the
    second on the result of the first. *)
Definition accelerate (speed : Z) (s : state) : state :=
  if speed <? target_speed s then
    if curr_pwm s <? 254 then
      let s := set_curr_pwm (to_u8 (curr_pwm s + 1)) s in
      let s := if sub_u32 (target_speed s) speed >? 2
               then set_curr_pwm (to_u8 (curr_pwm s + 1)) s else s in
      if bool_decide (direction s = Up)
      then set_TIM1_CCR4 (curr_pwm s) s else set_TIM1_CCR1 (curr_pwm s) s
    else s
  else s.

Definition brake (speed : Z) (s : state) : state :=
  if speed >? target_speed s then
    if curr_pwm s >? 1 then
      let s := set_curr_pwm (to_u8 (curr_pwm s - 1)) s in
      let s := if sub_u32 speed (target_speed s) >? 2
               then set_curr_pwm (to_u8 (curr_pwm s - 1)) s else s in
      let s := if sub_u32 speed (target_speed s) >? 4
               then set_curr_pwm (to_u8 (curr_pwm s - 1)) s else s in
      if bool_decide (direction s = Up)
      then set_TIM1_CCR4 (curr_pwm s) s else set_TIM1_CCR1 (curr_pwm s) s
    else s
  else s.

(** ** Settings at power-on

    [DEFAULT_FULL_CURTAIN_LEN], [DEFAULT_MINIMUM_VOLTAGE] and
    [DEFAULT_AUTO_CAL_SETTING] are macros of [main.h], taken as integer
    constants; [DEFAULT_TARGET_SPEED] is the one of [motor.h]. *)
Variable DEFAULT_FULL_CURTAIN_LEN : Z.
Variable DEFAULT_MINIMUM_VOLTAGE : Z.
Variable DEFAULT_AUTO_CAL_SETTING : Z.

Definition DEFAULT_TARGET_SPEED : Z := 18.

Definition motor_set_default_settings (s : state) : state :=
  s |> set_max_curtain_length (to_u32 DEFAULT_FULL_CURTAIN_LEN)
    |> set_full_curtain_length (to_u32 DEFAULT_FULL_CURTAIN_LEN)
    |> set_minimum_voltage (to_u16 DEFAULT_MINIMUM_VOLTAGE)
    |> set_default_speed (to_u8 DEFAULT_TARGET_SPEED)
    |> set_auto_calibration (to_u8 DEFAULT_AUTO_CAL_SETTING).

(** [motor_load_settings] is compiled when [SLIM_BINARY] is not defined.
    Each of its five [if] statements is a function here; the local [tmp]
    is the value read, or the default after the chained assignment. When
    the slot of the maximum length cannot be read, the default is written
    to the slot of the full length, as in the source. *)
Definition load_max_curtain_length (s : state) : state :=
  match EE_ReadVariable (VirtAddVarTab MAX_CURTAIN_LEN_EEPROM) s with
  | None =>
      let s := set_max_curtain_length (to_u32 DEFAULT_FULL_CURTAIN_LEN) s in
      let tmp := to_u16 (max_curtain_length s) in
      EE_WriteVariable (VirtAddVarTab FULL_CURTAIN_LEN_EEPROM) tmp s
  | Some tmp => set_max_curtain_length tmp s
  end.

Definition load_full_curtain_length (s : state) : state :=
  match EE_ReadVariable (VirtAddVarTab FULL_CURTAIN_LEN_EEPROM) s with
  | None =>
      let s := set_full_curtain_length (to_u32 DEFAULT_FULL_CURTAIN_LEN) s in
      let tmp := to_u16 (full_curtain_length s) in
      EE_WriteVariable (VirtAddVarTab FULL_CURTAIN_LEN_EEPROM) tmp s
  | Some tmp => set_full_curtain_length tmp s
  end.

Definition load_minimum_voltage (s : state) : state :=
  match EE_ReadVariable (VirtAddVarTab MINIMUM_VOLTAGE_EEPROM) s with
  | None =>
      let s := set_minimum_voltage (to_u16 DEFAULT_MINIMUM_VOLTAGE) s in
      let tmp := minimum_voltage s in
      EE_WriteVariable (VirtAddVarTab MINIMUM_VOLTAGE_EEPROM) tmp s
  | Some tmp => set_minimum_voltage tmp s
  end.

Definition load_default_speed (s : state) : state :=
  match EE_ReadVariable (VirtAddVarTab DEFAULT_SPEED_EEPROM) s with
  | None =>
      let s := set_default_speed (to_u8 DEFAULT_TARGET_SPEED) s in
      let tmp := to_u16 (default_speed s) in
      EE_WriteVariable (VirtAddVarTab DEFAULT_SPEED_EEPROM) tmp s
  | Some tmp => set_default_speed (to_u8 tmp) s
  end.

Definition load_auto_calibration (s : state) : state :=
  match EE_ReadVariable (VirtAddVarTab AUTO_CAL_EEPROM) s with
  | None =>
      let s := set_auto_calibration (to_u8 DEFAULT_AUTO_CAL_SETTING) s in
      let tmp := auto_calibration s in
      EE_WriteVariable (VirtAddVarTab AUTO_CAL_EEPROM) tmp s
  | Some tmp => set_auto_calibration (to_u8 tmp) s
  end.

Definition motor_load_settings (s : state) : state :=
  s |> load_max_curtain_length
    |> load_full_curtain_length
    |> load_minimum_voltage
    |> load_default_speed
    |> load_auto_calibration.

(** The emulated EEPROM holds 16-bit values. *)
Definition eeprom_typed (s : state) : Prop :=
  Forall (fun entry => is_u16 (snd entry)) (eeprom s).

(** ** The H-bridge

    What the outputs are in each direction: with no direction everything
    is off and the motor is not in a driven status; going up the high
    gate 1 and the low channel 2 are on, going down the high gate 2 and
    the low channel 1, the compare register of the running channel holds
    the duty, and the status is [Moving] or [Stopping]. *)
Definition driven (s : state) : Prop := status s = Moving \/ status s = Stopping.

Definition bridge_consistent (s : state) : Prop :=
  match direction s with
  | DirNone =>
      HIGH_1_GATE s = GPIO_PIN_RESET /\ HIGH_2_GATE s = GPIO_PIN_RESET /\
      LOW1_PWM s = false /\ LOW2_PWM s = false /\
      TIM1_CCR1 s = 0 /\ TIM1_CCR4 s = 0 /\
      curr_pwm s = 0 /\ target_speed s = 0 /\ ~ driven s
  | Up =>
      HIGH_1_GATE s = GPIO_PIN_SET /\ HIGH_2_GATE s = GPIO_PIN_RESET /\
      LOW1_PWM s = false /\ LOW2_PWM s = true /\
      TIM1_CCR1 s = 0 /\ TIM1_CCR4 s = curr_pwm s /\ driven s
  | Down =>
      HIGH_1_GATE s = GPIO_PIN_RESET /\ HIGH_2_GATE s = GPIO_PIN_SET /\
      LOW1_PWM s = true /\ LOW2_PWM s = false /\
      TIM1_CCR1 s = curr_pwm s /\ TIM1_CCR4 s = 0 /\ driven s
  end.

(** ** Hall edges

    The first part of [hall_sensor_callback]: the tick counters, the
    interval and the idle time of sensor 1, the debug counters. *)
Definition hall_counters (sensor : Z) (s : state) : state :=
  let s :=
    if sensor =? HALL_1_SENSOR then
      let s := set_hall_sensor_1_ticks (add_u32 (hall_sensor_1_ticks s) 1) s in
      let s := if hall_sensor_1_ticks s >? 1
               then set_hall_sensor_1_interval (hall_sensor_1_idle_time s) s else s in
      set_hall_sensor_1_idle_time 0 s
    else set_hall_sensor_2_ticks (add_u32 (hall_sensor_2_ticks s) 1) s in
  if bool_decide (status s = Stopped) then
    set_sensor_ticks_while_stopped (add_i32 (sensor_ticks_while_stopped s) 1) s
  else if bool_decide (status s = CalibratingEndPoint) then
    set_sensor_ticks_while_calibrating_endpoint
      (add_i32 (sensor_ticks_while_calibrating_endpoint s) 1) s
  else s.

(** The phase step of an edge: 1 for an upward step of the rotor, 3 for
    a downward one. *)
Definition edge_diff (sensor value : Z) (s : state) : Z :=
  Z.land (4 + (sensor + (1 - value) * 2) - rotor_position s) 0x3.

(** ** Milliseconds without a Hall edge

    [motor_stall_check] at the ticks [t + 1] to [t + n]. *)
Fixpoint stall_checks (t : Z) (n : nat) (s : state) : state :=
  match n with
  | O => s
  | S m => motor_stall_check (t + Z.of_nat (S m)) (stall_checks t m s)
  end.

(** The number of milliseconds without a Hall edge after which the stall
    check gives up on a motor that was just started: the first one past
    both the grace period and the timeout and, for a motor that is
    stopping, not before the longer timeout. *)
Definition stall_deadline (s : state) : Z :=
  let d := Z.max HALL_SENSOR_GRACE_PERIOD HALL_SENSOR_TIMEOUT + 1 in
  if bool_decide (status s = Stopping)
  then Z.max d HALL_SENSOR_TIMEOUT_WHILE_STOPPING else d.

(** A motor started at tick [t0], [n] milliseconds later, no Hall edge
    having arrived and the stall check not having given up. *)
Definition waiting (t0 : Z) (n : nat) (s s' : state) : Prop :=
  status s' = status s /\ direction s' = direction s /\
  movement_started_timestamp s' = t0 /\ hall_sensor_1_idle_time s' = Z.of_nat n /\
  curr_pwm s' = curr_pwm s /\ location s' = location s /\ calibrating s' = calibrating s /\
  command s' = command s.

(** ** The opcodes the dispatcher knows

    The two-byte opcodes of the [switch], the first bytes of the frames
    with a one-byte parameter, and the high nibbles of the frames with a
    12-bit parameter. *)
Definition switch_opcodes : list Z :=
  [CMD_GET_STATUS; CMD_UP; CMD_DOWN; CMD_UP_17; CMD_DOWN_17; CMD_STOP;
   CMD_OVERRIDE_UP_90; CMD_OVERRIDE_DOWN_90; CMD_OVERRIDE_UP_6; CMD_OVERRIDE_DOWN_6;
   CMD_SET_FULL_CURTAIN_LENGTH; CMD_SET_MAX_CURTAIN_LENGTH; CMD_RESET_CURTAIN_LENGTH;
   CMD_EXT_OVERRIDE_DOWN; CMD_EXT_GET_VERSION; CMD_EXT_DEBUG; CMD_EXT_SENSOR_DEBUG;
   CMD_EXT_GET_LOCATION; CMD_EXT_GET_STATUS; CMD_EXT_GET_LIMITS].

Definition parameter_opcodes : list Z :=
  [CMD_EXT_SET_SPEED; CMD_EXT_SET_DEFAULT_SPEED; CMD_GO_TO; CMD_EXT_SET_MINIMUM_VOLTAGE;
   CMD_EXT_SET_AUTO_CAL; CMD_EXT_SET_SLOWDOWN_FACTOR; CMD_EXT_SET_MIN_SLOWDOWN_SPEED].

Definition prefix_opcodes : list Z :=
  [CMD_EXT_GO_TO; CMD_EXT_SET_LOCATION; CMD_EXT_GO_TO_LOCATION].

(** ** An approach in either direction

    The change of the location by an edge in a sensor direction; the
    invariant of a motor driven in direction [d] at location [L] towards
    the target [T]; and the locations at which an edge does not yet stop
    the motor. *)
Definition tick (d : motor_direction) : Z :=
  match d with
  | Up => -1
  | Down => 1
  | DirNone => 0
  end.

Definition approaching (d : motor_direction) (L T : Z) (s : state) : Prop :=
  location s = L /\ target_location s = T /\ direction s = d /\ calibrating s = 0 /\
  is_u8 (target_speed s) /\ is_u8 (slowdown_factor s) /\ is_u8 (min_slowdown_speed s).

Definition continues (d : motor_direction) (L T : Z) : Prop :=
  match d with
  | Up => T = -1 \/ T < L - 2
  | Down => L + 2 < T
  | DirNone => True
  end.

(** ** More states of the scenarios *)

(** Scenario 6: moving up, the rotor at phase 1, so that an edge of
    sensor 0 going high is a step downwards. *)
Definition moving_up_wrong_phase : state := set_rotor_position 1 moving_up_500_to_200.

(** Moving up after the frame [0x0add]: the target is -1. *)
Definition moving_up_to_the_stall : state := set_target_location (-1) moving_up_500_to_200.

(** A stopped motor whose five slots of the EEPROM hold a maximum length
    of 900, a full length of 1200, no minimum voltage, 25 rpm and the
    automatic calibration. *)
Definition stored_settings : state :=
  set_eeprom [(VirtAddVarTab MAX_CURTAIN_LEN_EEPROM, 900);
              (VirtAddVarTab FULL_CURTAIN_LEN_EEPROM, 1200);
              (VirtAddVarTab MINIMUM_VOLTAGE_EEPROM, 0);
              (VirtAddVarTab DEFAULT_SPEED_EEPROM, 25);
              (VirtAddVarTab AUTO_CAL_EEPROM, 1)] stopped_at_64.

(** A stopped motor whose EEPROM holds a full length of 1200 and nothing
    else. *)
Definition full_slot_only : state :=
  set_eeprom [(VirtAddVarTab FULL_CURTAIN_LEN_EEPROM, 1200)] stopped_at_64.


(** A stopped motor with a minimum voltage of 110, and analog inputs
    whose voltage reading is 3000. *)
Definition minimum_voltage_110 : state := set_minimum_voltage 110 stopped_at_64.

Definition voltage_3000 : inputs := Build_inputs 3000 0 0.

(** ** The reply frames, byte by byte

    What [handle_command] stores for each of the seven opcodes it
    answers: the response code at index 2, the payload from index 3 on
    (each value truncated to a byte by the store), and the bytes 0 and 1,
    which the replies to [0xcccc], [0xccd0] and [0xccde] leave as the
    buffer holds them and the other four set to [0x00] and [0xff]. *)
Definition reply_code (cmd : Z) : Z :=
  if cmd =? CMD_GET_STATUS then 0xd8
  else if cmd =? CMD_EXT_GET_VERSION then 0xd0
  else if cmd =? CMD_EXT_DEBUG then 0xd2
  else if cmd =? CMD_EXT_SENSOR_DEBUG then 0xd3
  else if cmd =? CMD_EXT_GET_LOCATION then 0xd1
  else if cmd =? CMD_EXT_GET_STATUS then 0xda
  else 0xdb.

Definition reply_preamble (cmd : Z) (tx_buffer : list Z) : list Z :=
  if (cmd =? CMD_GET_STATUS) || (cmd =? CMD_EXT_GET_LOCATION) || (cmd =? CMD_EXT_GET_STATUS)
  then take 2 tx_buffer
  else [0x00; 0xff].

Definition reply_payload (io : inputs) (cmd : Z) (s : state) : option (list Z) :=
  if cmd =? CMD_GET_STATUS then
    rpm ← get_rpm s;
    Some (map to_u8 [if SLIM_BINARY then 0x12 else calculate_battery;
                     Z.quot (get_voltage io) 16;
                     rpm;
                     f32.to_u32 (location_to_position100 s)])
  else if cmd =? CMD_EXT_GET_VERSION then
    Some (map to_u8 [VERSION_MAJOR; VERSION_MINOR; minimum_voltage s; default_speed s])
  else if cmd =? CMD_EXT_DEBUG then
    Some (map to_u8 [0; dir_error s; sensor_ticks_while_calibrating_endpoint s;
                     sensor_ticks_while_stopped s; 0])
  else if cmd =? CMD_EXT_SENSOR_DEBUG then
    Some (map to_u8 [Z.shiftr (saved_hall_sensor_1_ticks s) 8;
                     Z.land (saved_hall_sensor_1_ticks s) 0xff;
                     Z.shiftr (saved_hall_sensor_2_ticks s) 8;
                     Z.land (saved_hall_sensor_2_ticks s) 0xff; 0])
  else if cmd =? CMD_EXT_GET_LOCATION then
    Some (map to_u8 [Z.shiftr (location s) 8; Z.land (location s) 0xff;
                     Z.shiftr (target_location s) 8; Z.land (target_location s) 0xff])
  else if cmd =? CMD_EXT_GET_STATUS then
    rpm ← get_rpm s;
    let pos := f32.to_i32 (f32.mul (location_to_position100 s) (f32.of_Z 256)) in
    Some (map to_u8 [status_code (status s);
                     if SLIM_BINARY then 0 else get_motor_current io;
                     rpm; Z.shiftr pos 8; Z.land pos 0xff])
  else
    Some (map to_u8 [calibrating s;
                     Z.shiftr (max_curtain_length s) 8; Z.land (max_curtain_length s) 0xff;
                     Z.shiftr (full_curtain_length s) 8;
                     Z.land (full_curtain_length s) 0xff]).

(** ** Milliseconds without a Hall edge, with the regulator running

    What runs in the background of the stall check: the regulator and
    the passes of the main loop. *)
Definition background (e : event) : bool :=
  match e with
  | Timer10ms | MainLoop _ => true
  | _ => false
  end.

(** The events of [n] milliseconds after tick [t] in which no Hall edge
    and no frame occurs: before the millisecond tick [t + i] the events
    [ms i] occur, runs of the regulator and passes of the main loop in
    any number and order. *)
Fixpoint quiet (t : Z) (ms : nat -> list event) (n : nat) : list event :=
  match n with
  | O => []
  | S m => quiet t ms m ++ ms (S m) ++ [SysTick (t + Z.of_nat (S m))]
  end.

(** A pass of the main loop every millisecond and the regulator once
    every tenth. *)
Definition every_10th (i : nat) : list event :=
  if (i mod 10 =? 0)%nat
  then [MainLoop (Z.of_nat i); Timer10ms]
  else [MainLoop (Z.of_nat i)].

(** What a run of the regulator leaves alone: everything but the duty
    and the two compare registers (of the fields read below). *)
Definition same_but_duty (s' s : state) : Prop :=
  status s' = status s /\ direction s' = direction s /\
  movement_started_timestamp s' = movement_started_timestamp s /\
  hall_sensor_1_idle_time s' = hall_sensor_1_idle_time s /\
  hall_sensor_1_interval s' = hall_sensor_1_interval s /\
  target_speed s' = target_speed s /\
  location s' = location s /\ calibrating s' = calibrating s /\
  HIGH_1_GATE s' = HIGH_1_GATE s /\ HIGH_2_GATE s' = HIGH_2_GATE s /\
  LOW1_PWM s' = LOW1_PWM s /\ LOW2_PWM s' = LOW2_PWM s /\
  command s' = command s.

(** What such milliseconds leave of a motor started at tick [t0] before
    the stall check gives up: the idle time is counted, the duty is not
    lowered, and the rest of what the stall check and the regulator read
    and the switches of the bridge are kept. *)
Definition waiting_driven (t0 : Z) (n : nat) (s s' : state) : Prop :=
  status s' = status s /\ direction s' = direction s /\
  movement_started_timestamp s' = t0 /\ hall_sensor_1_idle_time s' = Z.of_nat n /\
  hall_sensor_1_interval s' = 0 /\ target_speed s' = target_speed s /\
  location s' = location s /\ calibrating s' = calibrating s /\
  HIGH_1_GATE s' = HIGH_1_GATE s /\ HIGH_2_GATE s' = HIGH_2_GATE s /\
  LOW1_PWM s' = LOW1_PWM s /\ LOW2_PWM s' = LOW2_PWM s /\
  command s' = NoCommand /\
  curr_pwm s <= curr_pwm s'.

(** ** The main loop under preemption

    [motor_process] runs in the main loop and is interrupted between any
    two of its statements; the handlers of the interrupts run to their
    end, one at a time. The statements of [motor_process] and of the
    functions it calls are the instructions below. [I_motor_speed] is the
    evaluation of the argument [default_speed] at the call of [motor_up]
    or [motor_down], and [I_target_speed_motor_speed] the assignment of
    that parameter; [HAL_Delay(10)] changes nothing of the state and is
    no instruction; [HAL_GetTick()] returns the tick count of the moment
    its statement runs. *)
Inductive instr : Type :=
  | I_pwm_stop (ch : pwm_channel)
  | I_pwm_start (ch : pwm_channel)
  | I_write_pin (p : gate_pin) (v : GPIO_PinState)
  | I_TIM1_CCR1 (v : Z)
  | I_TIM1_CCR4 (v : Z)
  | I_status (v : motor_status)
  | I_direction (v : motor_direction)
  | I_curr_pwm (v : Z)
  | I_sensor_ticks_while_stopped (v : Z)
  | I_saved_hall_sensor_1_ticks
  | I_saved_hall_sensor_2_ticks
  | I_hall_sensor_1_interval (v : Z)
  | I_hall_sensor_1_ticks (v : Z)
  | I_hall_sensor_2_ticks (v : Z)
  | I_hall_sensor_1_idle_time (v : Z)
  | I_target_speed (v : Z)
  | I_motor_speed
  | I_movement_started_timestamp
  | I_target_speed_motor_speed
  | I_command (v : motor_command).

(** One statement, run at tick [now] with the parameter [motor_speed]. *)
Definition exec (now motor_speed : Z) (i : instr) (s : state) : state :=
  match i with
  | I_pwm_stop ch => pwm_stop ch s
  | I_pwm_start ch => pwm_start ch s
  | I_write_pin p v => HAL_GPIO_WritePin p v s
  | I_TIM1_CCR1 v => set_TIM1_CCR1 v s
  | I_TIM1_CCR4 v => set_TIM1_CCR4 v s
  | I_status v => set_status v s
  | I_direction v => set_direction v s
  | I_curr_pwm v => set_curr_pwm v s
  | I_sensor_ticks_while_stopped v => set_sensor_ticks_while_stopped v s
  | I_saved_hall_sensor_1_ticks => set_saved_hall_sensor_1_ticks (hall_sensor_1_ticks s) s
  | I_saved_hall_sensor_2_ticks => set_saved_hall_sensor_2_ticks (hall_sensor_2_ticks s) s
  | I_hall_sensor_1_interval v => set_hall_sensor_1_interval v s
  | I_hall_sensor_1_ticks v => set_hall_sensor_1_ticks v s
  | I_hall_sensor_2_ticks v => set_hall_sensor_2_ticks v s
  | I_hall_sensor_1_idle_time v => set_hall_sensor_1_idle_time v s
  | I_target_speed v => set_target_speed v s
  | I_motor_speed => s
  | I_movement_started_timestamp => set_movement_started_timestamp now s
  | I_target_speed_motor_speed => set_target_speed motor_speed s
  | I_command v => set_command v s
  end.

(** The parameter after the statement. *)
Definition exec_motor_speed (motor_speed : Z) (i : instr) (s : state) : Z :=
  match i with
  | I_motor_speed => default_speed s
  | _ => motor_speed
  end.

Definition motor_stop_code : list instr :=
  [I_pwm_stop LOW1_PWM_CHANNEL;
   I_pwm_stop LOW2_PWM_CHANNEL;
   I_write_pin HIGH_1_GATE_Pin GPIO_PIN_RESET;
   I_write_pin HIGH_2_GATE_Pin GPIO_PIN_RESET;
   I_TIM1_CCR1 0;
   I_TIM1_CCR4 0;
   I_status Stopped;
   I_direction DirNone;
   I_curr_pwm 0;
   I_sensor_ticks_while_stopped 0;
   I_saved_hall_sensor_1_ticks;
   I_saved_hall_sensor_2_ticks;
   I_hall_sensor_1_interval 0;
   I_hall_sensor_1_ticks 0;
   I_hall_sensor_2_ticks 0;
   I_hall_sensor_1_idle_time 0;
   I_target_speed 0].

Definition motor_start_common_code : list instr :=
  motor_stop_code
  ++ [I_movement_started_timestamp;
      I_target_speed_motor_speed;
      I_curr_pwm INITIAL_PWM;
      I_status Moving].

Definition motor_up_code : list instr :=
  motor_start_common_code
  ++ [I_pwm_start LOW2_PWM_CHANNEL;
      I_TIM1_CCR4 INITIAL_PWM;
      I_write_pin HIGH_1_GATE_Pin GPIO_PIN_SET;
      I_direction Up].

Definition motor_down_code : list instr :=
  motor_start_common_code
  ++ [I_pwm_start LOW1_PWM_CHANNEL;
      I_TIM1_CCR1 INITIAL_PWM;
      I_write_pin HIGH_2_GATE_Pin GPIO_PIN_SET;
      I_direction Down].

(** The statements of a pass of [motor_process] after its tests of the
    pending command. *)
Definition motor_process_code (c : motor_command) : list instr :=
  match c with
  | MotorUp => [I_motor_speed] ++ motor_up_code ++ [I_command NoCommand]
  | MotorDown => [I_motor_speed] ++ motor_down_code ++ [I_command NoCommand]
  | Stop => motor_stop_code ++ [I_command NoCommand]
  | NoCommand => []
  end.

(** The statements run one after another at one tick, without an
    interrupt in between. *)
Fixpoint exec_all (now motor_speed : Z) (rest : list instr) (s : state) : state :=
  match rest with
  | [] => s
  | i :: rest =>
      exec_all now (exec_motor_speed motor_speed i s) rest (exec now motor_speed i s)
  end.

(** The interrupts and their handlers. *)
Inductive interrupt : Type :=
  | HallIrq (sensor value : Z)
  | Tim3Irq
  | SysTickIrq (now : Z)
  | UartIrq (io : inputs) (rx_buffer : list Z).

Definition isr (i : interrupt) : event :=
  match i with
  | HallIrq sensor value => HallEdge sensor value
  | Tim3Irq => Timer10ms
  | SysTickIrq now => SysTick now
  | UartIrq io rx_buffer => Frame io rx_buffer
  end.

(** The machine: the globals, the parameter [motor_speed], and the
    statements the main loop has still to run of its pass of
    [motor_process]. *)
Record machine : Type := Build_machine {
  globals : state;
  motor_speed : Z;
  code : list instr
}.

(** An interrupt runs its handler to the end; a step of the main loop at
    tick [now] runs the next statement of the pass, or, when none is
    left, tests the pending command and enters a pass. *)
Inductive slot : Type :=
  | Irq (i : interrupt)
  | Main (now : Z).

Definition preempt_step (sl : slot) (m : machine) : option machine :=
  match sl with
  | Irq i =>
      s ← step (isr i) (globals m);
      Some (Build_machine s (motor_speed m) (code m))
  | Main now =>
      match code m with
      | [] =>
          Some (Build_machine (globals m) (motor_speed m)
                  (motor_process_code (command (globals m))))
      | i :: rest =>
          Some (Build_machine (exec now (motor_speed m) i (globals m))
                  (exec_motor_speed (motor_speed m) i (globals m)) rest)
      end
  end.

Fixpoint preempt_run (slots : list slot) (m : machine) : option machine :=
  match slots with
  | [] => Some m
  | sl :: slots => m ← preempt_step sl m; preempt_run slots m
  end.

(** The machine after [motor_init]. *)
Definition booted (s0 : state) : machine := Build_machine (motor_init s0) 0 [].

(** No current path from the supply to the ground through one side of
    the bridge: a high gate is on neither with the other high gate nor
    with the PWM of its own side. *)
Definition no_shoot_through (s : state) : Prop :=
  (HIGH_1_GATE s = GPIO_PIN_SET -> HIGH_2_GATE s = GPIO_PIN_RESET /\ LOW1_PWM s = false) /\
  (HIGH_2_GATE s = GPIO_PIN_SET -> HIGH_1_GATE s = GPIO_PIN_RESET /\ LOW2_PWM s = false).

(** [s'] has no switch of the bridge on that is off in [s]. *)
Definition switches_below (s' s : state) : Prop :=
  (HIGH_1_GATE s' = GPIO_PIN_SET -> HIGH_1_GATE s = GPIO_PIN_SET) /\
  (HIGH_2_GATE s' = GPIO_PIN_SET -> HIGH_2_GATE s = GPIO_PIN_SET) /\
  (LOW1_PWM s' = true -> LOW1_PWM s = true) /\
  (LOW2_PWM s' = true -> LOW2_PWM s = true).

(** The switches that may be on at a point of the pass, whatever the
    interrupts have switched off before it. *)
Record may_be_on : Type := Build_may_be_on {
  may_HIGH_1 : bool;
  may_HIGH_2 : bool;
  may_LOW1 : bool;
  may_LOW2 : bool
}.

Definition within (s : state) (b : may_be_on) : Prop :=
  (HIGH_1_GATE s = GPIO_PIN_SET -> may_HIGH_1 b = true) /\
  (HIGH_2_GATE s = GPIO_PIN_SET -> may_HIGH_2 b = true) /\
  (LOW1_PWM s = true -> may_LOW1 b = true) /\
  (LOW2_PWM s = true -> may_LOW2 b = true).

Definition any_switch : may_be_on := Build_may_be_on true true true true.

(** The switches that may be on after a statement, and whether a
    statement that switches one on finds the switches it must not meet
    off. *)
Definition after (i : instr) (b : may_be_on) : may_be_on :=
  match i with
  | I_pwm_stop LOW1_PWM_CHANNEL =>
      Build_may_be_on (may_HIGH_1 b) (may_HIGH_2 b) false (may_LOW2 b)
  | I_pwm_stop LOW2_PWM_CHANNEL =>
      Build_may_be_on (may_HIGH_1 b) (may_HIGH_2 b) (may_LOW1 b) false
  | I_pwm_start LOW1_PWM_CHANNEL =>
      Build_may_be_on (may_HIGH_1 b) (may_HIGH_2 b) true (may_LOW2 b)
  | I_pwm_start LOW2_PWM_CHANNEL =>
      Build_may_be_on (may_HIGH_1 b) (may_HIGH_2 b) (may_LOW1 b) true
  | I_write_pin HIGH_1_GATE_Pin v =>
      Build_may_be_on (bool_decide (v = GPIO_PIN_SET)) (may_HIGH_2 b) (may_LOW1 b)
        (may_LOW2 b)
  | I_write_pin HIGH_2_GATE_Pin v =>
      Build_may_be_on (may_HIGH_1 b) (bool_decide (v = GPIO_PIN_SET)) (may_LOW1 b)
        (may_LOW2 b)
  | _ => b
  end.

Definition allowed (i : instr) (b : may_be_on) : bool :=
  match i with
  | I_pwm_start LOW1_PWM_CHANNEL => negb (may_HIGH_1 b)
  | I_pwm_start LOW2_PWM_CHANNEL => negb (may_HIGH_2 b)
  | I_write_pin HIGH_1_GATE_Pin GPIO_PIN_SET => negb (may_HIGH_2 b) && negb (may_LOW1 b)
  | I_write_pin HIGH_2_GATE_Pin GPIO_PIN_SET => negb (may_HIGH_1 b) && negb (may_LOW2 b)
  | _ => true
  end.

Fixpoint switches_checked (rest : list instr) (b : may_be_on) : bool :=
  match rest with
  | [] => true
  | i :: rest => allowed i b && switches_checked rest (after i b)
  end.

(** What holds at every point of a run of the machine. *)
Definition bridge_safe (m : machine) : Prop :=
  no_shoot_through (globals m) /\
  exists b, within (globals m) b /\ switches_checked (code m) b = true.

(** A run of the machine that starts the motor upwards and is interrupted
    by the regulator between [status = Moving] and [direction = Up]: the
    command is tested, the 22 statements through [status = Moving] run,
    the regulator runs, the other 5 statements run. *)
Definition interrupted_start : list slot :=
  [Main 10] ++ repeat (Main 10) 22 ++ [Irq Tim3Irq] ++ repeat (Main 10) 5.

(** A run of the entry points, each to its end, as a run of the machine:
    a pass of [motor_process] is the test of the command and at most 27
    statements; the steps of the main loop that are left over find no
    command pending. *)
Definition slots_of (e : event) : list slot :=
  match e with
  | HallEdge sensor value => [Irq (HallIrq sensor value)]
  | Timer10ms => [Irq Tim3Irq]
  | SysTick now => [Irq (SysTickIrq now)]
  | MainLoop now => repeat (Main now) 28
  | Frame io rx_buffer => [Irq (UartIrq io rx_buffer)]
  end.

(** * Properties *)

(** ** Tactics *)

(** Normalising a state expression: the setters, the projections and the
    HAL primitives are unfolded by value, so that a chain of updates
    becomes one record. *)
Ltac state_norm :=
  cbv [status direction target_location location full_curtain_length max_curtain_length
       minimum_voltage default_speed target_speed curr_pwm
       endpoint_calibration_started_timestamp calibrating auto_calibration
       hall_sensor_1_idle_time hall_sensor_1_ticks hall_sensor_2_ticks hall_sensor_1_interval
       movement_started_timestamp rotor_position min_slowdown_speed slowdown_factor command
       dir_error sensor_ticks_while_stopped sensor_ticks_while_calibrating_endpoint
       saved_hall_sensor_1_ticks saved_hall_sensor_2_ticks TIM1_CCR1 TIM1_CCR4 HIGH_1_GATE
       HIGH_2_GATE LOW1_PWM LOW2_PWM eeprom set_status set_direction set_target_location
       set_location set_full_curtain_length set_max_curtain_length set_minimum_voltage
       set_default_speed set_target_speed set_curr_pwm
       set_endpoint_calibration_started_timestamp set_calibrating set_auto_calibration
       set_hall_sensor_1_idle_time set_hall_sensor_1_ticks set_hall_sensor_2_ticks
       set_hall_sensor_1_interval set_movement_started_timestamp set_rotor_position
       set_min_slowdown_speed set_slowdown_factor set_command set_dir_error
       set_sensor_ticks_while_stopped set_sensor_ticks_while_calibrating_endpoint
       set_saved_hall_sensor_1_ticks set_saved_hall_sensor_2_ticks set_TIM1_CCR1 set_TIM1_CCR4
       set_HIGH_1_GATE set_HIGH_2_GATE set_LOW1_PWM set_LOW2_PWM set_eeprom motor_stop pwm_stop
       pwm_start HAL_GPIO_WritePin].

(** Deciding the comparisons of enumerators that are closed terms. *)
Ltac decide_enum :=
  repeat match goal with
  | |- context [@bool_decide ?P ?d] =>
      let v := eval vm_compute in (@bool_decide P d) in
      match v with
      | true => change (@bool_decide P d) with true
      | false => change (@bool_decide P d) with false
      end
  end.

(** Reading the speed, the duty and the direction back through the
    updates of the regulator. *)
Ltac duty_simpl :=
  repeat first
    [ progress cbv iota
    | progress change (target_speed (set_curr_pwm ?v ?s)) with (target_speed s)
    | progress change (target_speed (set_TIM1_CCR4 ?v ?s)) with (target_speed s)
    | progress change (target_speed (set_TIM1_CCR1 ?v ?s)) with (target_speed s)
    | progress change (direction (set_curr_pwm ?v ?s)) with (direction s)
    | progress change (direction (set_TIM1_CCR4 ?v ?s)) with (direction s)
    | progress change (direction (set_TIM1_CCR1 ?v ?s)) with (direction s)
    | progress change (curr_pwm (set_curr_pwm ?v ?s)) with v
    | progress change (curr_pwm (set_TIM1_CCR4 ?v ?s)) with (curr_pwm s)
    | progress change (curr_pwm (set_TIM1_CCR1 ?v ?s)) with (curr_pwm s) ].

(** ** Machine integers *)

Lemma to_u8_id (x : Z) : is_u8 x -> to_u8 x = x.
Proof. unfold is_u8, to_u8. intros H. apply Z.mod_small. lia. Qed.

Lemma to_u32_id (x : Z) : is_u32 x -> to_u32 x = x.
Proof. unfold is_u32, to_u32. intros H. apply Z.mod_small. lia. Qed.

Lemma to_i32_id (x : Z) : is_i32 x -> to_i32 x = x.
Proof.
  unfold is_i32, to_i32. intros H.
  rewrite Z.mod_small by lia. lia.
Qed.

Lemma to_u8_is_u8 (x : Z) : is_u8 (to_u8 x).
Proof. unfold is_u8, to_u8. apply Z.mod_pos_bound. lia. Qed.

Lemma to_u32_is_u32 (x : Z) : is_u32 (to_u32 x).
Proof. unfold is_u32, to_u32. apply Z.mod_pos_bound. lia. Qed.

Lemma to_i32_is_i32 (x : Z) : is_i32 (to_i32 x).
Proof.
  unfold is_i32, to_i32.
  pose proof (Z.mod_pos_bound (x + 2 ^ 31) (2 ^ 32)). lia.
Qed.

(** The [uint32_t] difference of two tick counts is their difference as
    long as the later one is not the smaller. *)
Lemma sub_u32_plain (a b : Z) : is_u32 a -> is_u32 b -> b <= a -> sub_u32 a b = a - b.
Proof. unfold is_u32, sub_u32. intros. apply to_u32_id. unfold is_u32. lia. Qed.

(** ** [motor_stop] *)

(** C4. After every call to [motor_stop] both compare registers are 0,
    both high-side gates are de-asserted, the motor is [Stopped] with no
    direction, and the duty, the target speed and the Hall-sensor
    interval, tick counters and idle time are 0. *)
Theorem motor_stop_post (s : state) :
  let s' := motor_stop s in
  TIM1_CCR1 s' = 0 /\ TIM1_CCR4 s' = 0 /\
  HIGH_1_GATE s' = GPIO_PIN_RESET /\ HIGH_2_GATE s' = GPIO_PIN_RESET /\
  status s' = Stopped /\ direction s' = DirNone /\
  curr_pwm s' = 0 /\ target_speed s' = 0 /\
  hall_sensor_1_interval s' = 0 /\ hall_sensor_1_ticks s' = 0 /\
  hall_sensor_2_ticks s' = 0 /\ hall_sensor_1_idle_time s' = 0.
Proof. cbv zeta. state_norm. repeat split. Qed.

(** What [motor_stop] leaves alone: the position, the target, the
    calibration flag, the settings and the pending command. *)
Lemma motor_stop_frame (s : state) :
  let s' := motor_stop s in
  location s' = location s /\ target_location s' = target_location s /\
  calibrating s' = calibrating s /\ command s' = command s /\
  default_speed s' = default_speed s /\
  min_slowdown_speed s' = min_slowdown_speed s /\
  slowdown_factor s' = slowdown_factor s /\ eeprom s' = eeprom s.
Proof. cbv zeta. state_norm. repeat split. Qed.

(** ** [motor_stopped] *)

(** An upward stall: [motor_stop], then the end-point calibration
    starts. *)
Lemma motor_stopped_moving_up (now : Z) (s : state) :
  status s = Moving -> direction s = Up ->
  motor_stopped now s =
    (motor_stop s |> set_status CalibratingEndPoint
                  |> set_sensor_ticks_while_calibrating_endpoint 0
                  |> set_endpoint_calibration_started_timestamp now).
Proof.
  intros Hm Hd. unfold motor_stopped. rewrite Hm, Hd. decide_enum. reflexivity.
Qed.

(** A downward stall: [motor_stop], then [Error]. *)
Lemma motor_stopped_moving_down (now : Z) (s : state) :
  status s = Moving -> direction s = Down ->
  motor_stopped now s = set_status Error (motor_stop s).
Proof.
  intros Hm Hd. unfold motor_stopped. rewrite Hm, Hd. decide_enum. reflexivity.
Qed.

(** A stall while slowing down: [motor_stop] and no more. *)
Lemma motor_stopped_stopping (now : Z) (s : state) :
  status s = Stopping -> motor_stopped now s = motor_stop s.
Proof.
  intros Hs. unfold motor_stopped. rewrite Hs. decide_enum.
  state_norm. reflexivity.
Qed.

(** Whatever the status it is called in, other than [Stopped],
    [motor_stopped] runs [motor_stop] and after it writes nothing but the
    status, the tick counter of the calibration and its time stamp. *)
Lemma motor_stopped_after_motor_stop (now : Z) (s : state) :
  status s <> Stopped ->
  exists st n ts,
    motor_stopped now s =
      (motor_stop s |> set_status st
                    |> set_sensor_ticks_while_calibrating_endpoint n
                    |> set_endpoint_calibration_started_timestamp ts).
Proof.
  intros Hst. unfold motor_stopped.
  rewrite bool_decide_true by assumption.
  destruct (bool_decide (status s = Moving)).
  - destruct (bool_decide (direction s = Up)).
    + exists CalibratingEndPoint, 0, now. reflexivity.
    + exists Error, (sensor_ticks_while_calibrating_endpoint s),
        (endpoint_calibration_started_timestamp s).
      state_norm. reflexivity.
  - exists Stopped, (sensor_ticks_while_calibrating_endpoint s),
      (endpoint_calibration_started_timestamp s).
    destruct (bool_decide (status s = Stopping)); state_norm; reflexivity.
Qed.

(** C3. A call to [motor_stopped] with a status other than [Stopped]
    runs [motor_stop] first and then decides on the status and direction
    it saved before: [Moving] and [Up] gives [CalibratingEndPoint] with
    the time stamp of the calibration recorded, [Moving] and [Down] gives
    [Error], [Stopping] leaves the [Stopped] of [motor_stop]. *)
Theorem motor_stopped_transitions (now : Z) (s : state) :
  status s <> Stopped ->
  let s' := motor_stopped now s in
  (exists st n ts,
     s' = (motor_stop s |> set_status st
                        |> set_sensor_ticks_while_calibrating_endpoint n
                        |> set_endpoint_calibration_started_timestamp ts)) /\
  (status s = Moving -> direction s = Up ->
     s' = (motor_stop s |> set_status CalibratingEndPoint
                        |> set_sensor_ticks_while_calibrating_endpoint 0
                        |> set_endpoint_calibration_started_timestamp now) /\
     status s' = CalibratingEndPoint /\
     endpoint_calibration_started_timestamp s' = now) /\
  (status s = Moving -> direction s = Down ->
     s' = set_status Error (motor_stop s) /\ status s' = Error) /\
  (status s = Stopping ->
     s' = motor_stop s /\ status s' = Stopped).
Proof.
  intros Hst s'. subst s'.
  split; [exact (motor_stopped_after_motor_stop now s Hst) |].
  split; [| split].
  - intros Hm Hd. rewrite (motor_stopped_moving_up now s Hm Hd).
    split; [reflexivity | split; reflexivity].
  - intros Hm Hd. rewrite (motor_stopped_moving_down now s Hm Hd).
    split; reflexivity.
  - intros Hs. rewrite (motor_stopped_stopping now s Hs).
    split; reflexivity.
Qed.

(** In every case the bridge is left de-energised: the registers and
    gates are the ones [motor_stop] wrote. *)
Lemma motor_stopped_deenergised (now : Z) (s : state) :
  status s <> Stopped ->
  let s' := motor_stopped now s in
  TIM1_CCR1 s' = 0 /\ TIM1_CCR4 s' = 0 /\
  HIGH_1_GATE s' = GPIO_PIN_RESET /\ HIGH_2_GATE s' = GPIO_PIN_RESET /\
  LOW1_PWM s' = false /\ LOW2_PWM s' = false /\
  direction s' = DirNone /\ curr_pwm s' = 0.
Proof.
  intros Hst s'. subst s'. unfold motor_stopped.
  rewrite bool_decide_true by assumption.
  destruct (bool_decide (status s = Moving)), (bool_decide (direction s = Up)),
    (bool_decide (status s = Stopping)); state_norm; repeat split.
Qed.

(** ** [motor_stall_check] *)

(** The end of the end-point calibration. *)
Lemma motor_stall_check_calibrated (now : Z) (s : state) :
  status s = CalibratingEndPoint ->
  sub_u32 now (endpoint_calibration_started_timestamp s) > ENDPOINT_CALIBRATION_PERIOD ->
  motor_stall_check now s = (s |> set_status Stopped |> set_calibrating 0 |> set_location 0).
Proof.
  intros Hst Hlate. unfold motor_stall_check.
  rewrite Hst. decide_enum. cbn [orb].
  destruct (Z.gtb_spec (sub_u32 now (endpoint_calibration_started_timestamp s))
              ENDPOINT_CALIBRATION_PERIOD) as [_ | Hle]; [reflexivity | lia].
Qed.

(** C2. When the status is [CalibratingEndPoint] and the tick count
    minus the time stamp of the calibration (the [uint32_t] difference the
    code computes) exceeds [ENDPOINT_CALIBRATION_PERIOD], the 1 ms tick
    handler leaves the motor [Stopped], not calibrating, at location 0. *)
Theorem stall_check_ends_calibration (now : Z) (s : state) :
  status s = CalibratingEndPoint ->
  sub_u32 now (endpoint_calibration_started_timestamp s) > ENDPOINT_CALIBRATION_PERIOD ->
  let s' := motor_stall_check now s in
  status s' = Stopped /\ calibrating s' = 0 /\ location s' = 0.
Proof.
  intros Hst Hlate s'. subst s'.
  rewrite (motor_stall_check_calibrated now s Hst Hlate).
  split; [reflexivity | split; reflexivity].
Qed.

(** The same with the difference read over the integers: for tick counts
    that have not wrapped around in between, the two agree. *)
Lemma stall_check_ends_calibration_plain (now : Z) (s : state) :
  is_u32 now -> is_u32 (endpoint_calibration_started_timestamp s) ->
  0 <= ENDPOINT_CALIBRATION_PERIOD ->
  status s = CalibratingEndPoint ->
  now - endpoint_calibration_started_timestamp s > ENDPOINT_CALIBRATION_PERIOD ->
  let s' := motor_stall_check now s in
  status s' = Stopped /\ calibrating s' = 0 /\ location s' = 0.
Proof.
  intros Hnow Hts Hp Hst Hlate s'. subst s'.
  rewrite motor_stall_check_calibrated;
    [split; [reflexivity | split; reflexivity] | assumption |].
  rewrite sub_u32_plain by (assumption || lia). assumption.
Qed.

(** An upward stall ends at the calibrated top position: [motor_stopped]
    on a motor moving up starts the end-point calibration, and the first
    tick later than the calibration period ends it at location 0 with the
    limits enforced again. *)
Lemma upward_stall_calibrates (t0 t : Z) (s : state) :
  status s = Moving -> direction s = Up ->
  sub_u32 t t0 > ENDPOINT_CALIBRATION_PERIOD ->
  let s' := motor_stall_check t (motor_stopped t0 s) in
  status s' = Stopped /\ calibrating s' = 0 /\ location s' = 0.
Proof.
  intros Hst Hdir Hlate s'. subst s'.
  rewrite (motor_stopped_moving_up t0 s Hst Hdir).
  rewrite motor_stall_check_calibrated;
    [split; [reflexivity | split; reflexivity] | reflexivity | exact Hlate].
Qed.

(** ** [get_rpm] *)

Lemma div_i32_Some (a b : Z) :
  0 <= a < 2 ^ 31 -> 0 < b -> div_i32 a b = Some (a / b).
Proof.
  intros Ha Hb. unfold div_i32.
  destruct (Z.eqb_spec b 0) as [-> | _]; [lia |].
  rewrite Z.quot_div_nonneg by lia.
  rewrite to_i32_id; [reflexivity |].
  unfold is_i32. pose proof (Z.div_pos a b). pose proof (Z.div_le_upper_bound a b a).
  assert (a / b <= a) by (apply Z.div_le_upper_bound; nia). lia.
Qed.

Lemma div_u32_Some (a b : Z) : b <> 0 -> div_u32 a b = Some (a / b).
Proof.
  intros Hb. unfold div_u32.
  destruct (Z.eqb_spec b 0); [contradiction | reflexivity].
Qed.

(** The revolutions per minute as a number: 0 for an unknown interval. *)
Lemma get_rpm_Some (s : state) :
  0 < GEAR_RATIO -> 0 <= hall_sensor_1_interval s ->
  get_rpm s =
    Some (if hall_sensor_1_interval s =? 0 then 0
          else 60000 / (GEAR_RATIO * 2 * hall_sensor_1_interval s)).
Proof.
  intros Hg Hi. unfold get_rpm.
  destruct (Z.eqb_spec (hall_sensor_1_interval s) 0) as [_ | Hnz]; [reflexivity |].
  cbn [negb].
  change (60 * 1000) with 60000.
  rewrite div_i32_Some by lia. cbn [mbind option_bind].
  assert (Ha : 0 <= 60000 / GEAR_RATIO <= 60000).
  { split; [apply Z.div_pos; lia | apply Z.div_le_upper_bound; nia]. }
  rewrite to_u32_id by (unfold is_u32; lia).
  rewrite div_u32_Some by assumption. cbn [mbind option_bind].
  rewrite div_u32_Some by discriminate. cbn [mbind option_bind].
  set (I := hall_sensor_1_interval s) in *.
  assert (Hb : 0 <= 60000 / GEAR_RATIO / I <= 60000).
  { split; [apply Z.div_pos; lia | apply Z.div_le_upper_bound; nia]. }
  assert (Hc : 0 <= 60000 / GEAR_RATIO / I / 2 <= 60000).
  { split; [apply Z.div_pos; lia | apply Z.div_le_upper_bound; lia]. }
  rewrite to_i32_id by (unfold is_i32; lia).
  f_equal.
  rewrite !Z.div_div by lia.
  f_equal. ring.
Qed.

(** C8. [get_rpm] returns 60000 divided by
    [GEAR_RATIO * 2 * hall_sensor_1_interval] when the interval is
    positive and 0 when it is 0; being [Some], the result was computed
    without a division by zero. *)
Theorem get_rpm_value (s : state) :
  0 < GEAR_RATIO ->
  (hall_sensor_1_interval s > 0 ->
     get_rpm s = Some (60000 / (GEAR_RATIO * 2 * hall_sensor_1_interval s))) /\
  (hall_sensor_1_interval s = 0 -> get_rpm s = Some 0).
Proof.
  intros Hg. split; intros Hi.
  - rewrite get_rpm_Some by lia.
    destruct (Z.eqb_spec (hall_sensor_1_interval s) 0); [lia | reflexivity].
  - rewrite get_rpm_Some by lia. rewrite Hi. reflexivity.
Qed.

Lemma get_rpm_bounds (s : state) (rpm : Z) :
  0 < GEAR_RATIO -> 0 <= hall_sensor_1_interval s ->
  get_rpm s = Some rpm -> 0 <= rpm <= 30000.
Proof.
  intros Hg Hi. rewrite get_rpm_Some by assumption.
  intros [= <-].
  destruct (Z.eqb_spec (hall_sensor_1_interval s) 0); [lia |].
  split; [apply Z.div_pos; nia | apply Z.div_le_upper_bound; nia].
Qed.

(** ** [process_location] *)

Lemma slowdown_step (s : state) :
  is_u8 (target_speed s) -> is_u8 (slowdown_factor s) -> is_u8 (min_slowdown_speed s) ->
  - 2 ^ 31 < target_location s - location s < 2 ^ 31 ->
  (if bool_decide (direction s <> DirNone) then
     let distance_to_target := abs_i32 (sub_i32 (target_location s) (location s)) in
     if distance_to_target <? Z.quot (target_speed s * slowdown_factor s) 8 then
       let s := set_status Stopping s in
       q ← div_i32 (mul_i32 distance_to_target 8) (slowdown_factor s);
       let new_speed := if q <? min_slowdown_speed s then min_slowdown_speed s else q in
       Some (if new_speed <? target_speed s
             then set_target_speed (to_u8 new_speed) s else s, 0)
     else Some (s, 0)
   else Some (s, 0)) = Some (slowdown s, 0).
Proof.
  intros Hts Hsf Hms Hd. unfold slowdown, slowdown_speed.
  destruct (bool_decide (direction s <> DirNone)); [| reflexivity].
  cbv zeta.
  unfold abs_i32, sub_i32.
  rewrite (to_i32_id (target_location s - location s)) by (unfold is_i32; lia).
  rewrite to_i32_id by (unfold is_i32; lia).
  set (d := Z.abs (target_location s - location s)).
  assert (Hd0 : 0 <= d) by (subst d; lia).
  unfold is_u8 in *.
  rewrite Z.quot_div_nonneg by nia.
  destruct (Z.ltb_spec d (target_speed s * slowdown_factor s / 8)) as [Hnear | Hfar];
    [| reflexivity].
  assert (Hsf0 : 0 < slowdown_factor s).
  { destruct (Z.eq_dec (slowdown_factor s) 0) as [E | E]; [| lia].
    rewrite E, Z.mul_0_r in Hnear. change (0 / 8) with 0 in Hnear. lia. }
  assert (Hq : target_speed s * slowdown_factor s / 8 <= 8129).
  { apply Z.div_le_upper_bound; nia. }
  change (slowdown_factor (set_status Stopping s)) with (slowdown_factor s).
  change (min_slowdown_speed (set_status Stopping s)) with (min_slowdown_speed s).
  change (target_speed (set_status Stopping s)) with (target_speed s).
  unfold mul_i32. rewrite to_i32_id by (unfold is_i32; lia).
  rewrite div_i32_Some by lia. cbn [mbind option_bind].
  assert (Hmax : (if d * 8 / slowdown_factor s <? min_slowdown_speed s
                  then min_slowdown_speed s else d * 8 / slowdown_factor s)
                 = Z.max (d * 8 / slowdown_factor s) (min_slowdown_speed s)).
  { destruct (Z.ltb_spec (d * 8 / slowdown_factor s) (min_slowdown_speed s)); lia. }
  rewrite Hmax.
  assert (0 <= d * 8 / slowdown_factor s) by (apply Z.div_pos; lia).
  destruct (Z.ltb_spec (Z.max (d * 8 / slowdown_factor s) (min_slowdown_speed s))
              (target_speed s)); [| reflexivity].
  rewrite to_u8_id by (unfold is_u8; lia). reflexivity.
Qed.

(** On well-typed states within the operating range, [process_location]
    returns, without a division by zero, what the specification says. *)
Lemma process_location_refines (sensor_direction : motor_direction) (s : state) :
  is_u8 (target_speed s) -> is_u8 (slowdown_factor s) -> is_u8 (min_slowdown_speed s) ->
  operating_range s ->
  process_location sensor_direction s = Some (process_location_spec sensor_direction s).
Proof.
  intros Hts Hsf Hms [Hl Ht].
  unfold process_location, process_location_spec.
  destruct (calibrating s =? 0); [| reflexivity].
  destruct sensor_direction; cbv zeta; unfold moved, stops_at_target.
  - apply slowdown_step; assumption || lia.
  - unfold sub_i32.
    rewrite (to_i32_id (location s - 1)) by (unfold is_i32; lia).
    change (location (set_location (location s - 1) s)) with (location s - 1).
    rewrite (to_i32_id (location s - 1 - 1)) by (unfold is_i32; lia).
    match goal with |- context [if ?c then inl _ else _] => destruct c end.
    + reflexivity.
    + apply slowdown_step; try assumption.
      change (target_location (set_location (location s - 1) s)) with (target_location s).
      change (location (set_location (location s - 1) s)) with (location s - 1). lia.
  - unfold add_i32.
    rewrite (to_i32_id (location s + 1)) by (unfold is_i32; lia).
    change (location (set_location (location s + 1) s)) with (location s + 1).
    rewrite (to_i32_id (location s + 1 + 1)) by (unfold is_i32; lia).
    match goal with |- context [if ?c then inl _ else _] => destruct c end.
    + reflexivity.
    + apply slowdown_step; try assumption.
      change (target_location (set_location (location s + 1) s)) with (target_location s).
      change (location (set_location (location s + 1) s)) with (location s + 1). lia.
Qed.

(** The slowdown step moves nothing but the status and the target
    speed. *)
Lemma slowdown_frame (s : state) :
  location (slowdown s) = location s /\
  target_location (slowdown s) = target_location s /\
  direction (slowdown s) = direction s /\
  calibrating (slowdown s) = calibrating s /\
  slowdown_factor (slowdown s) = slowdown_factor s /\
  min_slowdown_speed (slowdown s) = min_slowdown_speed s.
Proof.
  unfold slowdown.
  destruct (bool_decide (direction s <> DirNone)); [| repeat split].
  cbv zeta.
  destruct (Z.abs (target_location s - location s) <? target_speed s * slowdown_factor s / 8);
    [| repeat split].
  destruct (slowdown_speed (Z.abs (target_location s - location s)) s <? target_speed s);
    repeat split.
Qed.

Lemma slowdown_status (s : state) :
  status (slowdown s) = Stopping \/ status (slowdown s) = status s.
Proof.
  unfold slowdown.
  destruct (bool_decide (direction s <> DirNone)); [| right; reflexivity].
  cbv zeta.
  destruct (Z.abs (target_location s - location s) <? target_speed s * slowdown_factor s / 8);
    [| right; reflexivity].
  destruct (slowdown_speed (Z.abs (target_location s - location s)) s <? target_speed s);
    left; reflexivity.
Qed.

(** The slowdown step never raises the target speed, and keeps it a
    byte. *)
Lemma slowdown_target_speed (s : state) :
  is_u8 (target_speed s) -> is_u8 (slowdown_factor s) -> is_u8 (min_slowdown_speed s) ->
  0 <= target_speed (slowdown s) <= target_speed s.
Proof.
  unfold is_u8. intros Hts Hsf Hms. unfold slowdown.
  destruct (bool_decide (direction s <> DirNone)); [| lia].
  cbv zeta.
  destruct (Z.abs (target_location s - location s) <? target_speed s * slowdown_factor s / 8);
    [| lia].
  destruct (Z.ltb_spec (slowdown_speed (Z.abs (target_location s - location s)) s)
              (target_speed s)) as [Hlt | Hge].
  - change (target_speed (set_target_speed ?v _)) with v.
    unfold slowdown_speed in *. lia.
  - change (target_speed (set_status Stopping s)) with (target_speed s). lia.
Qed.

Lemma approaching_200_step (n : nat) (s : state) :
  (n < 298)%nat -> approaching_200 n s ->
  exists s', process_location Up s = Some (s', 0) /\ approaching_200 (S n) s'.
Proof.
  intros Hn (Hl & Ht & Hd & Hc & Hst & Hts & Hsf & Hms).
  rewrite process_location_refines
    by (assumption || (unfold operating_range; rewrite Hl, Ht; lia)).
  unfold process_location_spec. rewrite Hc. cbn [Z.eqb].
  cbv zeta. unfold moved, stops_at_target.
  change (location (set_location ?v _)) with v.
  change (target_location (set_location _ s)) with (target_location s).
  destruct (Z.leb_spec (location s - 1 - 1) (target_location s)) as [Hle | Hgt]; [lia |].
  rewrite andb_false_r.
  set (s1 := set_location (location s - 1) s).
  exists (slowdown s1). split; [reflexivity |].
  destruct (slowdown_frame s1) as (El & Et & Ed & Ec & Esf & Ems).
  unfold approaching_200.
  rewrite El, Et, Ed, Ec, Esf, Ems.
  subst s1.
  change (location (set_location ?v _)) with v.
  change (target_location (set_location _ s)) with (target_location s).
  change (direction (set_location _ s)) with (direction s).
  change (calibrating (set_location _ s)) with (calibrating s).
  change (slowdown_factor (set_location _ s)) with (slowdown_factor s).
  change (min_slowdown_speed (set_location _ s)) with (min_slowdown_speed s).
  split_and!; try assumption; try lia.
  - destruct (slowdown_status (set_location (location s - 1) s)) as [E | E];
      rewrite E; [discriminate | exact Hst].
  - pose proof (slowdown_target_speed (set_location (location s - 1) s) Hts Hsf Hms) as H.
    change (target_speed (set_location (location s - 1) s)) with (target_speed s) in H.
    unfold is_u8 in *. lia.
Qed.

Lemma feed_edges_S (sensor_direction : motor_direction) (n : nat) (s : state) :
  feed_edges sensor_direction (S n) s =
    '(s, returned) ← feed_edges sensor_direction n s;
    '(s, r) ← process_location sensor_direction s;
    Some (s, returned ++ [r]).
Proof. reflexivity. Qed.

Lemma approaching_200_edges (s : state) (n : nat) :
  (n <= 298)%nat -> approaching_200 0 s ->
  exists s', feed_edges Up n s = Some (s', repeat 0 n) /\ approaching_200 n s'.
Proof.
  intros Hn H0. induction n as [| n IH].
  - exists s. split; [reflexivity | assumption].
  - destruct IH as (s1 & Hrun & Hinv); [lia |].
    destruct (approaching_200_step n s1) as (s2 & Hstep & Hinv2); [lia | assumption |].
    exists s2. split; [| assumption].
    rewrite feed_edges_S, Hrun. cbn [mbind option_bind].
    rewrite Hstep. cbn [mbind option_bind].
    rewrite <- repeat_cons. reflexivity.
Qed.

(** C1. A call of [process_location(Up)] with [calibrating] false
    decrements the location by 1 and, when the direction is [Up], the
    target is not -1 and the decremented location minus 1 is at most the
    target, calls [motor_stop] and returns 1. From location 500 with
    target 200, moving up, the edges before the 299th return 0 and leave
    the motor running; the 299th is the first to call [motor_stop], at
    location 201, which leaves the status [Stopped]. *)
Theorem process_location_up_stops_before_target (s : state) :
  calibrating s = 0 -> typed s -> operating_range s ->
  (exists s' r,
     process_location Up s = Some (s', r) /\
     location s' = location s - 1 /\
     (direction s = Up -> target_location s <> -1 ->
      location s - 1 - 1 <= target_location s ->
      s' = motor_stop (set_location (location s - 1) s) /\ r = 1)) /\
  (location s = 500 -> target_location s = 200 ->
   direction s = Up -> status s = Moving ->
   (forall n : nat, (n < 299)%nat ->
      exists s', feed_edges Up n s = Some (s', repeat 0 n) /\
                 location s' = 500 - Z.of_nat n /\ status s' <> Stopped) /\
   (exists s', feed_edges Up 299 s = Some (s', repeat 0 298 ++ [1]) /\
               location s' = 201 /\ status s' = Stopped)).
Proof.
  intros Hc Hty Hrange. split.
  - rewrite process_location_refines by (assumption || apply Hty).
    unfold process_location_spec. rewrite Hc. cbn [Z.eqb]. cbv zeta.
    unfold moved, stops_at_target.
    change (location (set_location ?v _)) with v.
    change (target_location (set_location _ s)) with (target_location s).
    change (direction (set_location _ s)) with (direction s).
    match goal with |- context [if ?c then _ else _] => destruct c eqn:Hcond end.
    + eexists _, _. split; [reflexivity |].
      split; [reflexivity |]. intros _ _ _. split; reflexivity.
    + eexists _, _. split; [reflexivity |].
      split.
      * destruct (slowdown_frame (set_location (location s - 1) s)) as (El & _).
        rewrite El. reflexivity.
      * intros Hd Ht Hle. exfalso.
        rewrite bool_decide_true in Hcond by assumption.
        destruct (Z.eqb_spec (target_location s) (-1)); [contradiction |].
        destruct (Z.leb_spec (location s - 1 - 1) (target_location s)); [| lia].
        discriminate Hcond.
  - intros Hl Ht Hd Hst.
    assert (H0 : approaching_200 0 s).
    { unfold approaching_200. rewrite Hl, Ht, Hd, Hc, Hst.
      split_and!; try apply Hty; try reflexivity; discriminate. }
    split.
    + intros n Hn.
      destruct (approaching_200_edges s n) as (s' & Hrun & Hinv); [lia | assumption |].
      exists s'. split; [assumption |].
      destruct Hinv as (El & _ & _ & _ & Est & _). split; assumption.
    + destruct (approaching_200_edges s 298) as (s1 & Hrun & Hinv); [lia | assumption |].
      destruct Hinv as (El & Et & Ed & Ec & Est & Hts & Hsf & Hms).
      exists (motor_stop (set_location 201 s1)).
      split; [| split; reflexivity].
      rewrite (feed_edges_S Up 298 s), Hrun. cbn [mbind option_bind].
      rewrite process_location_refines
        by (assumption || (unfold operating_range; rewrite El, Et; lia)).
      unfold process_location_spec. rewrite Ec. cbn [Z.eqb]. cbv zeta.
      unfold moved, stops_at_target.
      change (location (set_location ?v _)) with v.
      change (target_location (set_location _ s1)) with (target_location s1).
      change (direction (set_location _ s1)) with (direction s1).
      rewrite El, Et, Ed. decide_enum.
      change (500 - Z.of_nat 298 - 1) with 201.
      cbn [negb Z.eqb andb Z.leb Z.sub Z.compare Z.opp Z.pos_sub Pos.compare
           Pos.compare_cont Z.add Pos.pred_double Z.succ_double Z.pred_double Z.double].
      reflexivity.
Qed.

(** [process_location] never raises the target speed: [motor_stop]
    clears it, the slowdown step lowers it or leaves it. *)
Lemma process_location_spec_target_speed (sensor_direction : motor_direction) (s : state) :
  is_u8 (target_speed s) -> is_u8 (slowdown_factor s) -> is_u8 (min_slowdown_speed s) ->
  0 <= target_speed (fst (process_location_spec sensor_direction s)) <= target_speed s.
Proof.
  intros Hts Hsf Hms. pose proof Hts as Hts'. unfold is_u8 in Hts'.
  unfold process_location_spec.
  destruct (calibrating s =? 0); [| cbn [fst]; lia].
  cbv zeta.
  destruct (stops_at_target sensor_direction (moved sensor_direction s)); cbn [fst].
  - change (target_speed (motor_stop ?x)) with 0. lia.
  - assert (E : target_speed (moved sensor_direction s) = target_speed s)
      by (destruct sensor_direction; reflexivity).
    assert (Esf : slowdown_factor (moved sensor_direction s) = slowdown_factor s)
      by (destruct sensor_direction; reflexivity).
    assert (Ems : min_slowdown_speed (moved sensor_direction s) = min_slowdown_speed s)
      by (destruct sensor_direction; reflexivity).
    rewrite <- E.
    apply slowdown_target_speed; rewrite ?E, ?Esf, ?Ems; assumption.
Qed.

(** C7, as amended. Every call of [process_location] leaves the target
    speed at most what it was. When a call made with [calibrating] false
    does not stop the motor at the target (it returns 0), the direction is
    not [None] and the distance from the updated location to the target is
    below [target_speed * slowdown_factor / 8], the status is set to
    [Stopping] and the target speed becomes
    [max (distance * 8 / slowdown_factor) min_slowdown_speed] when that is
    below the current target speed, and stays otherwise. With target speed
    20, slowdown factor 8 and minimum slowdown speed 5, distance 15 gives
    target speed 15 and distance 4 gives 5. *)
Theorem process_location_slows_down (sensor_direction : motor_direction) (s : state) :
  typed s -> operating_range s ->
  (exists s' r,
     process_location sensor_direction s = Some (s', r) /\
     target_speed s' <= target_speed s /\
     (calibrating s = 0 -> r = 0 -> direction s <> DirNone ->
      let distance := Z.abs (target_location s' - location s') in
      distance < target_speed s * slowdown_factor s / 8 ->
      status s' = Stopping /\
      (slowdown_speed distance s < target_speed s ->
         target_speed s' = slowdown_speed distance s) /\
      (target_speed s <= slowdown_speed distance s ->
         target_speed s' = target_speed s))) /\
  (exists s', process_location Down (moving_down_to_30 14) = Some (s', 0) /\
              Z.abs (target_location s' - location s') = 15 /\
              status s' = Stopping /\ target_speed s' = 15) /\
  (exists s', process_location Down (moving_down_to_30 25) = Some (s', 0) /\
              Z.abs (target_location s' - location s') = 4 /\
              status s' = Stopping /\ target_speed s' = 5).
Proof.
  intros Hty Hrange. split; [| split].
  - pose proof (typed_target_speed s Hty) as Hts.
    pose proof (typed_slowdown_factor s Hty) as Hsf.
    pose proof (typed_min_slowdown_speed s Hty) as Hms.
    rewrite process_location_refines by assumption.
    exists (fst (process_location_spec sensor_direction s)),
           (snd (process_location_spec sensor_direction s)).
    split; [destruct (process_location_spec sensor_direction s); reflexivity |].
    split; [apply process_location_spec_target_speed; assumption |].
    intros Hc. unfold process_location_spec. rewrite Hc. cbn [Z.eqb]. cbv zeta.
    destruct (stops_at_target sensor_direction (moved sensor_direction s));
      cbn [fst snd]; [discriminate |].
    intros _ Hd.
    set (s1 := moved sensor_direction s).
    assert (Ed : direction s1 = direction s) by (destruct sensor_direction; reflexivity).
    assert (Ets : target_speed s1 = target_speed s)
      by (destruct sensor_direction; reflexivity).
    assert (Esf : slowdown_factor s1 = slowdown_factor s)
      by (destruct sensor_direction; reflexivity).
    assert (Ems : min_slowdown_speed s1 = min_slowdown_speed s)
      by (destruct sensor_direction; reflexivity).
    destruct (slowdown_frame s1) as (El & Et & _).
    rewrite El, Et. clearbody s1. cbv zeta.
    intros Hnear. unfold slowdown.
    rewrite bool_decide_true by (rewrite Ed; assumption). cbv zeta.
    rewrite Ets, Esf.
    destruct (Z.ltb_spec (Z.abs (target_location s1 - location s1))
                (target_speed s * slowdown_factor s / 8)) as [_ | Hfar]; [| lia].
    assert (Ess : slowdown_speed (Z.abs (target_location s1 - location s1)) s1
                  = slowdown_speed (Z.abs (target_location s1 - location s1)) s)
      by (unfold slowdown_speed; rewrite Esf, Ems; reflexivity).
    rewrite Ess.
    destruct (Z.ltb_spec (slowdown_speed (Z.abs (target_location s1 - location s1)) s)
                (target_speed s)) as [Hlt | Hge].
    + split; [reflexivity |]. split; [intros _; reflexivity | intros H; lia].
    + split; [reflexivity |]. split; [intros H; lia | intros _; exact Ets].
  - eexists. split; [vm_compute; reflexivity |]. vm_compute. repeat split.
  - eexists. split; [vm_compute; reflexivity |]. vm_compute. repeat split.
Qed.

(** ** [motor_adjust_rpm] *)

(** One execution of the regulator: below the target speed the duty is
    raised by at most 2, and only from below 254; above the target speed
    it is lowered by at most 3; at the target speed, and when the motor is
    not powered, it stays. The braking step taken at duty 2 with more than
    4 rpm of overshoot is left out. *)
Lemma motor_adjust_rpm_step (s : state) (rpm : Z) :
  0 < GEAR_RATIO -> typed s -> get_rpm s = Some rpm ->
  ~ (curr_pwm s = 2 /\ rpm - target_speed s > 4) ->
  exists s',
    motor_adjust_rpm s = Some s' /\
    0 <= curr_pwm s' <= 255 /\
    (rpm < target_speed s -> curr_pwm s <= curr_pwm s' <= curr_pwm s + 2) /\
    (rpm > target_speed s -> curr_pwm s - 3 <= curr_pwm s' <= curr_pwm s) /\
    (rpm = target_speed s -> curr_pwm s' = curr_pwm s).
Proof.
  intros Hg Hty Hrpm Hslip.
  pose proof (typed_curr_pwm s Hty) as Hpwm.
  pose proof (typed_target_speed s Hty) as Hts.
  pose proof (typed_hall_sensor_1_interval s Hty) as Hint.
  unfold is_u8, is_u32 in *.
  assert (Hb : 0 <= rpm <= 30000) by (apply (get_rpm_bounds s); [assumption | lia | assumption]).
  unfold motor_adjust_rpm.
  destruct (bool_decide (status s = Moving) || bool_decide (status s = Stopping));
    [| exists s; split; [reflexivity | lia]].
  rewrite Hrpm. cbn [mbind option_bind]. cbv zeta.
  rewrite (to_u32_id rpm) by (unfold is_u32; lia).
  eexists. split; [reflexivity |].
  unfold sub_u32.
  destruct (Z.ltb_spec rpm (target_speed s)) as [Hlow | Hnotlow].
  - (* below the target speed *)
    destruct (Z.ltb_spec (curr_pwm s) 254) as [Hroom | Hfull].
    + duty_simpl.
      rewrite (to_u32_id (target_speed s - rpm)) by (unfold is_u32; lia).
      rewrite (to_u8_id (curr_pwm s + 1)) by (unfold is_u8; lia).
      destruct (target_speed s - rpm >? 2); duty_simpl.
      * rewrite (to_u8_id (curr_pwm s + 1 + 1)) by (unfold is_u8; lia).
        destruct (bool_decide (direction s = Up)); duty_simpl;
          (destruct (Z.gtb_spec rpm (target_speed s)); [lia |]); duty_simpl; lia.
      * destruct (bool_decide (direction s = Up)); duty_simpl;
          (destruct (Z.gtb_spec rpm (target_speed s)); [lia |]); duty_simpl; lia.
    + destruct (Z.gtb_spec rpm (target_speed s)); [lia |]. duty_simpl. lia.
  - duty_simpl.
    destruct (Z.gtb_spec rpm (target_speed s)) as [Habove | Hnotabove];
      [| duty_simpl; lia].
    (* above the target speed *)
    destruct (Z.gtb_spec (curr_pwm s) 1) as [Hroom | Hempty]; [| duty_simpl; lia].
    duty_simpl.
    rewrite (to_u32_id (rpm - target_speed s)) by (unfold is_u32; lia).
    rewrite (to_u8_id (curr_pwm s - 1)) by (unfold is_u8; lia).
    destruct (Z.gtb_spec (rpm - target_speed s) 2) as [H2 | H2]; duty_simpl.
    + rewrite (to_u8_id (curr_pwm s - 1 - 1)) by (unfold is_u8; lia).
      rewrite ?(to_u32_id (rpm - target_speed s)) by (unfold is_u32; lia).
      destruct (Z.gtb_spec (rpm - target_speed s) 4) as [H4 | H4]; duty_simpl.
      * assert (Hnot2 : curr_pwm s <> 2)
          by (intros E; apply Hslip; split; [exact E | lia]).
        rewrite (to_u8_id (curr_pwm s - 1 - 1 - 1)) by (unfold is_u8; lia).
        destruct (bool_decide (direction s = Up)); duty_simpl; lia.
      * destruct (bool_decide (direction s = Up)); duty_simpl; lia.
    + rewrite ?(to_u32_id (rpm - target_speed s)) by (unfold is_u32; lia).
      destruct (Z.gtb_spec (rpm - target_speed s) 4) as [H4 | H4]; [lia |]; duty_simpl.
      destruct (bool_decide (direction s = Up)); duty_simpl; lia.
Qed.

(** ** [handle_command] *)

(** The 16-bit opcode of a frame. *)
Lemma cmd_value (cmd1 cmd2 : Z) :
  is_u8 cmd1 -> is_u8 cmd2 -> to_u16 (Z.shiftl cmd1 8 + cmd2) = cmd1 * 256 + cmd2.
Proof.
  unfold is_u8, to_u16. intros H1 H2.
  rewrite Z.shiftl_mul_pow2 by lia. change (2 ^ 8) with 256 in *.
  apply Z.mod_small. lia.
Qed.

(** Leaving the [switch] through its [default] label: every [case] is
    refuted by [lia] from what is known of the opcode [cmd]. *)
Ltac skip_switch cmd :=
  unfold CMD_GET_STATUS, CMD_UP, CMD_DOWN, CMD_UP_17, CMD_DOWN_17, CMD_STOP,
    CMD_OVERRIDE_UP_90, CMD_OVERRIDE_DOWN_90, CMD_OVERRIDE_UP_6, CMD_OVERRIDE_DOWN_6,
    CMD_SET_FULL_CURTAIN_LENGTH, CMD_SET_MAX_CURTAIN_LENGTH, CMD_RESET_CURTAIN_LENGTH,
    CMD_EXT_OVERRIDE_DOWN, CMD_EXT_GET_VERSION, CMD_EXT_DEBUG, CMD_EXT_SENSOR_DEBUG,
    CMD_EXT_GET_LOCATION, CMD_EXT_GET_STATUS, CMD_EXT_GET_LIMITS;
  repeat match goal with
  | |- context [cmd =? ?k] => rewrite (proj2 (Z.eqb_neq cmd k)) by lia
  end;
  cbn [orb]; cbv iota; cbn [mbind option_bind negb]; cbv iota.



(** A property of every byte, checked on the 256 of them. *)
Lemma u8_all (P : Z -> bool) :
  forallb P (map Z.of_nat (seq 0 256)) = true -> forall c, is_u8 c -> P c = true.
Proof.
  intros H c Hc. unfold is_u8 in Hc.
  rewrite forallb_forall in H. apply H.
  apply in_map_iff. exists (Z.to_nat c). split; [lia |].
  apply in_seq. lia.
Qed.

Lemma high_nibble (c : Z) : is_u8 c -> Z.land c 0xf0 = 16 * (c / 16).
Proof.
  intros Hc. apply Z.eqb_eq.
  apply (u8_all (fun c => Z.land c 0xf0 =? 16 * (c / 16))); [| assumption].
  vm_compute. reflexivity.
Qed.

Ltac skip_cases cmd1 :=
  unfold CMD_EXT_SET_SPEED, CMD_EXT_SET_DEFAULT_SPEED, CMD_GO_TO, CMD_EXT_GO_TO,
    CMD_EXT_SET_LOCATION, CMD_EXT_SET_MINIMUM_VOLTAGE, CMD_EXT_SET_AUTO_CAL,
    CMD_EXT_GO_TO_LOCATION;
  repeat match goal with
  | |- context [cmd1 =? ?k] => rewrite (proj2 (Z.eqb_neq cmd1 k)) by lia
  end;
  cbv iota.

(** What the three go-to frames do when they are accepted. *)
Lemma handle_command_go_to (io : inputs) (rx_buffer tx_buffer : list Z)
    (burstindex tx_bytes : Z) (s : state) (cmd1 cmd2 : Z) :
  load 3 rx_buffer = Some cmd1 -> load 4 rx_buffer = Some cmd2 ->
  is_u8 cmd1 -> is_u8 cmd2 -> go_to_accepted cmd1 s ->
  handle_command io rx_buffer tx_buffer burstindex tx_bytes s =
    Some (go_to (go_to_target cmd1 cmd2 s) s, tx_buffer, tx_bytes, 1).
Proof.
  intros H3 H4 Hc1 Hc2 Hacc.
  unfold handle_command. rewrite H3, H4. cbn [mbind option_bind].
  rewrite (cmd_value cmd1 cmd2) by assumption.
  pose proof (high_nibble cmd1 Hc1) as Hn.
  pose proof (Z.div_mod cmd1 16 ltac:(lia)) as Hdm.
  pose proof (Z.mod_pos_bound cmd1 16 ltac:(lia)) as Hmb.
  unfold is_u8 in Hc1, Hc2. unfold go_to, go_to_target.
  unfold go_to_accepted, CMD_GO_TO, CMD_EXT_GO_TO, CMD_EXT_GO_TO_LOCATION in Hacc.
  destruct Hacc as [[E Hcal] | [[E Hcal] | E]].
  - (* 0xdd *)
    subst cmd1.
    skip_switch (0xdd * 256 + cmd2).
    unfold CMD_EXT_SET_SPEED, CMD_EXT_SET_DEFAULT_SPEED, CMD_GO_TO.
    cbn [Z.eqb Pos.eqb]. rewrite Hcal. reflexivity.
  - (* prefix 0x10 *)
    assert (Hr : 16 <= cmd1 < 32) by lia.
    skip_switch (cmd1 * 256 + cmd2).
    skip_cases cmd1.
    rewrite E. cbn [Z.eqb Pos.eqb]. rewrite Hcal. reflexivity.
  - (* prefix 0x70 *)
    assert (Hr : 112 <= cmd1 < 128) by lia.
    skip_switch (cmd1 * 256 + cmd2).
    skip_cases cmd1.
    rewrite E. cbn [Z.eqb Pos.eqb]. reflexivity.
Qed.

Lemma go_to_command (target : Z) (s : state) :
  let s' := go_to target s in
  target_location s' = target /\ location s' = location s /\
  (command s' = MotorUp <-> target < location s) /\
  (command s' = MotorDown <-> location s <= target).
Proof.
  cbv zeta. unfold go_to. cbv zeta.
  change (target_location (set_target_location ?v _)) with v.
  change (location (set_target_location _ s)) with (location s).
  destruct (Z.ltb_spec target (location s)) as [Hlt | Hge].
  - split; [reflexivity |]. split; [reflexivity |].
    change (command (set_command ?c _)) with c.
    split; split; intros H; try reflexivity; try assumption; try discriminate; lia.
  - split; [reflexivity |]. split; [reflexivity |].
    change (command (set_command ?c _)) with c.
    split; split; intros H; try reflexivity; try assumption; try discriminate; lia.
Qed.

(** A pending [MotorDown] makes [motor_process] start the motor
    downwards. *)
Lemma motor_process_down (now : Z) (s : state) :
  command s = MotorDown ->
  let s' := motor_process now s in
  status s' = Moving /\ direction s' = Down /\ curr_pwm s' = INITIAL_PWM /\
  HIGH_2_GATE s' = GPIO_PIN_SET /\ LOW1_PWM s' = true /\ command s' = NoCommand.
Proof.
  intros Hc. cbv zeta. unfold motor_process. rewrite Hc. decide_enum. cbv iota.
  unfold motor_down, motor_start_common. state_norm. repeat split.
Qed.

(** C10. For every go-to frame the dispatcher accepts ([0xdd] and the
    prefix [0x10] while not calibrating, the prefix [0x70] always),
    [MotorUp] is enqueued exactly when the computed target is below the
    current location and [MotorDown] otherwise. When the target equals the
    location, [MotorDown] is enqueued, and [motor_process] then starts the
    motor downwards. *)
Theorem go_to_direction (io : inputs) (rx_buffer tx_buffer : list Z)
    (burstindex tx_bytes : Z) (s : state) (cmd1 cmd2 : Z) :
  load 3 rx_buffer = Some cmd1 -> load 4 rx_buffer = Some cmd2 ->
  is_u8 cmd1 -> is_u8 cmd2 -> go_to_accepted cmd1 s ->
  exists s',
    handle_command io rx_buffer tx_buffer burstindex tx_bytes s =
      Some (s', tx_buffer, tx_bytes, 1) /\
    target_location s' = go_to_target cmd1 cmd2 s /\
    location s' = location s /\
    (command s' = MotorUp <-> target_location s' < location s) /\
    (command s' = MotorDown <-> location s <= target_location s') /\
    (target_location s' = location s ->
       command s' = MotorDown /\
       forall now, status (motor_process now s') = Moving /\
                   direction (motor_process now s') = Down).
Proof.
  intros H3 H4 Hc1 Hc2 Hacc.
  rewrite (handle_command_go_to io rx_buffer tx_buffer burstindex tx_bytes s cmd1 cmd2)
    by assumption.
  eexists. split; [reflexivity |].
  destruct (go_to_command (go_to_target cmd1 cmd2 s) s) as (Et & El & Hup & Hdown).
  rewrite Et.
  split; [reflexivity |]. split; [exact El |]. split; [exact Hup |]. split; [exact Hdown |].
  intros Heq.
  assert (Hcmd : command (go_to (go_to_target cmd1 cmd2 s) s) = MotorDown)
    by (apply Hdown; lia).
  split; [exact Hcmd |].
  intros now. destruct (motor_process_down now _ Hcmd) as (Hs & Hd & _).
  split; assumption.
Qed.

(** Truncation to a byte commutes with XOR, so the XOR of bytes is a
    byte. *)
Lemma to_u8_lxor (a b : Z) : to_u8 (Z.lxor a b) = Z.lxor (to_u8 a) (to_u8 b).
Proof.
  unfold to_u8. rewrite <- !Z.land_ones by lia.
  apply Z.bits_inj'. intros n Hn.
  rewrite Z.land_spec, !Z.lxor_spec, !Z.land_spec.
  destruct (Z.testbit a n), (Z.testbit b n), (Z.testbit (Z.ones 8) n); reflexivity.
Qed.

Lemma to_u8_idem (a : Z) : to_u8 (to_u8 a) = to_u8 a.
Proof. apply to_u8_id, to_u8_is_u8. Qed.

(** Comparisons of closed numbers, evaluated. *)
Ltac eval_eqb :=
  repeat match goal with
  | |- context [Z.eqb ?a ?b] =>
      let v := eval vm_compute in (Z.eqb a b) in
      match v with
      | true => change (Z.eqb a b) with true
      | false => change (Z.eqb a b) with false
      end
  end.

Ltac run_reply :=
  cbn [store load length Nat.ltb Nat.leb insert list_insert lookup list_lookup
       mbind option_bind negb];
  cbv iota.

Ltac reply_frame N :=
  eexists _, _, N;
  split; [reflexivity |];
  split; [reflexivity |];
  split; [first [left; reflexivity | right; reflexivity] |];
  split; [reflexivity |];
  cbn [reply_preamble reply_code orb take drop app length Nat.add map lookup list_lookup
       bytes xor_bytes foldl Nat.sub];
  rewrite ?to_u8_lxor, ?to_u8_idem;
  repeat split; reflexivity.

(** C6. Every reply frame of [handle_command] (to the opcodes [0xcccc],
    [0xccdc], [0xccd1], [0xccd2], [0xccd0], [0xccde], [0xccdf]) is the
    response code of the opcode at index 2, the payload of the opcode
    from index 3 on and, at index [N] (7 for a payload of four bytes, 8
    for one of five), the XOR of the bytes 3 to [N - 1]; [*tx_bytes] is
    set to [N + 1], the state is left as it is and the rest of the buffer
    too. *)
Theorem reply_frame_checksum (io : inputs) (rx_buffer tx_buffer : list Z)
    (burstindex tx_bytes : Z) (s : state) (cmd1 cmd2 : Z) :
  0 < GEAR_RATIO -> typed s ->
  load 3 rx_buffer = Some cmd1 -> load 4 rx_buffer = Some cmd2 ->
  In (to_u16 (Z.shiftl cmd1 8 + cmd2)) reply_opcodes ->
  (9 <= length tx_buffer)%nat ->
  let cmd := to_u16 (Z.shiftl cmd1 8 + cmd2) in
  exists (payload tx' : list Z) (N : nat),
    reply_payload io cmd s = Some payload /\
    N = (3 + length payload)%nat /\
    (N = 7 \/ N = 8)%nat /\
    handle_command io rx_buffer tx_buffer burstindex tx_bytes s =
      Some (s, tx', Z.of_nat N + 1, 1) /\
    tx' = reply_preamble cmd tx_buffer ++ [reply_code cmd] ++ payload
            ++ [xor_bytes payload] ++ drop (N + 1) tx_buffer /\
    tx' !! 2%nat = Some (reply_code cmd) /\
    bytes 3 (N - 3) tx' = payload /\
    tx' !! N = Some (xor_bytes (bytes 3 (N - 3) tx')) /\
    length tx' = length tx_buffer.
Proof.
  intros Hg Hty H3 H4 Hin Hlen cmd. subst cmd.
  pose proof (typed_hall_sensor_1_interval s Hty) as Hint. unfold is_u32 in Hint.
  unfold handle_command, reply_payload. rewrite H3, H4. cbn [mbind option_bind].
  rewrite (get_rpm_Some s) by lia.
  do 9 (destruct tx_buffer as [| ? tx_buffer]; [cbn [length] in Hlen; lia |]).
  clear Hlen.
  unfold reply_opcodes in Hin. cbn [In] in Hin.
  unfold reply_preamble, reply_code.
  unfold CMD_GET_STATUS, CMD_UP, CMD_DOWN, CMD_UP_17, CMD_DOWN_17, CMD_STOP,
    CMD_OVERRIDE_UP_90, CMD_OVERRIDE_DOWN_90, CMD_OVERRIDE_UP_6, CMD_OVERRIDE_DOWN_6,
    CMD_SET_FULL_CURTAIN_LENGTH, CMD_SET_MAX_CURTAIN_LENGTH, CMD_RESET_CURTAIN_LENGTH,
    CMD_EXT_OVERRIDE_DOWN, CMD_EXT_GET_VERSION, CMD_EXT_DEBUG, CMD_EXT_SENSOR_DEBUG,
    CMD_EXT_GET_LOCATION, CMD_EXT_GET_STATUS, CMD_EXT_GET_LIMITS in *.
  destruct Hin as [E | [E | [E | [E | [E | [E | [E | []]]]]]]]; rewrite <- E;
    eval_eqb; cbn [orb]; cbv iota; run_reply.
  - reply_frame 7%nat.
  - reply_frame 7%nat.
  - reply_frame 8%nat.
  - reply_frame 8%nat.
  - reply_frame 7%nat.
  - reply_frame 8%nat.
  - reply_frame 8%nat.
Qed.

(** ** The duty in every reachable state

    [curr_pwm] is written by [motor_stop] (0), by [motor_start_common]
    ([INITIAL_PWM]) and by the regulator (a byte); every other entry point
    leaves it. *)

Ltac duty_through :=
  repeat first
    [ match goal with
      | |- context [curr_pwm (motor_write_setting ?io ?var ?v ?s)] =>
          replace (curr_pwm (motor_write_setting io var v s)) with (curr_pwm s)
            by (unfold motor_write_setting;
                repeat match goal with
                | |- context [if ?c then _ else _] => destruct c
                end; reflexivity)
      | |- context [curr_pwm (?f ?v ?s)] =>
          progress change (curr_pwm (f v s)) with (curr_pwm s)
      end ].

(** Case analysis on the tests and the fallible steps of a computation
    that is known to have returned. *)
Ltac crunch H :=
  repeat first
    [ discriminate H
    | progress cbn [mbind option_bind negb] in H
    | match type of H with
      | context [if ?c then _ else _] => destruct c
      | context [@mbind _ _ _ _ _ ?o] => destruct o
      end ].

Lemma handle_command_duty (io : inputs) (rx_buffer tx_buffer : list Z)
    (burstindex tx_bytes : Z) (s s' : state) (tx' : list Z) (n r : Z) :
  handle_command io rx_buffer tx_buffer burstindex tx_bytes s = Some (s', tx', n, r) ->
  curr_pwm s' = curr_pwm s.
Proof.
  unfold handle_command. intros H.
  destruct (load 3 rx_buffer) as [cmd1 |]; [| discriminate H].
  destruct (load 4 rx_buffer) as [cmd2 |]; [| discriminate H].
  cbn [mbind option_bind] in H.
  match type of H with
  | @mbind _ _ _ _ _ ?first = _ =>
      remember first as p eqn:E; symmetry in E;
      destruct p as [ [ [ [s1 tx1] n1] handled] | ]; [| discriminate H]
  end.
  assert (E1 : curr_pwm s1 = curr_pwm s).
  { clear H. crunch E; injection E as <- _ _ _; duty_through; reflexivity. }
  cbn [mbind option_bind] in H. injection H as <- _ _ _.
  rewrite <- E1. clear E E1.
  repeat match goal with
  | |- context [if ?c then _ else _] => destruct c
  end; duty_through; reflexivity.
Qed.

Lemma process_location_duty (sensor_direction : motor_direction) (s s' : state) (r : Z) :
  process_location sensor_direction s = Some (s', r) ->
  curr_pwm s' = curr_pwm s \/ curr_pwm s' = 0.
Proof.
  unfold process_location. intros H.
  destruct sensor_direction; crunch H; injection H as <- _;
    first [left; reflexivity | right; reflexivity].
Qed.

Lemma hall_sensor_callback_duty (sensor value : Z) (s s' : state) :
  hall_sensor_callback sensor value s = Some s' ->
  curr_pwm s' = curr_pwm s \/ curr_pwm s' = 0.
Proof.
  unfold hall_sensor_callback. intros H. cbv zeta in H.
  match type of H with
  | @mbind _ _ _ _ _ ?edge = _ =>
      remember edge as p eqn:E; symmetry in E;
      destruct p as [s1 |]; [| discriminate H]
  end.
  cbn [mbind option_bind] in H. injection H as <-.
  change (curr_pwm (set_rotor_position ?v s1)) with (curr_pwm s1).
  repeat match type of E with
  | context [if ?c then _ else _] => destruct c
  end;
  try (injection E as <-; left; reflexivity);
  match type of E with
  | fst <$> ?o = _ =>
      destruct o as [[s2 r] |] eqn:Ep; [| discriminate E];
      injection E as <-; apply process_location_duty in Ep;
      destruct Ep as [Ep | Ep]; rewrite Ep; [left; reflexivity | right; reflexivity]
  end.
Qed.

Lemma motor_stall_check_duty (now : Z) (s : state) :
  curr_pwm (motor_stall_check now s) = curr_pwm s \/ curr_pwm (motor_stall_check now s) = 0.
Proof.
  unfold motor_stall_check, motor_stopped. cbv zeta.
  repeat match goal with
  | |- context [if ?c then _ else _] => destruct c
  end; first [left; reflexivity | right; reflexivity].
Qed.

Lemma motor_process_duty (now : Z) (s : state) :
  is_u8 (curr_pwm s) -> is_u8 (curr_pwm (motor_process now s)).
Proof.
  intros H. unfold motor_process.
  repeat match goal with
  | |- context [if ?c then _ else _] => destruct c
  end; try exact H;
    unfold is_u8, motor_up, motor_down, motor_start_common; state_norm;
    unfold INITIAL_PWM; lia.
Qed.

Lemma motor_adjust_rpm_halves (s : state) :
  motor_adjust_rpm s =
    if bool_decide (status s = Moving) || bool_decide (status s = Stopping) then
      rpm ← get_rpm s; Some (brake (to_u32 rpm) (accelerate (to_u32 rpm) s))
    else Some s.
Proof. reflexivity. Qed.

Lemma accelerate_byte (speed : Z) (s : state) :
  is_u8 (curr_pwm s) -> is_u8 (curr_pwm (accelerate speed s)).
Proof.
  intros Hs. unfold accelerate. cbv zeta.
  repeat match goal with
  | |- context [if ?c then _ else _] => destruct c
  end; duty_simpl; first [exact Hs | apply to_u8_is_u8].
Qed.

Lemma brake_byte (speed : Z) (s : state) :
  is_u8 (curr_pwm s) -> is_u8 (curr_pwm (brake speed s)).
Proof.
  intros Hs. unfold brake. cbv zeta.
  repeat match goal with
  | |- context [if ?c then _ else _] => destruct c
  end; duty_simpl; first [exact Hs | apply to_u8_is_u8].
Qed.

Lemma motor_adjust_rpm_byte (s s' : state) :
  is_u8 (curr_pwm s) -> motor_adjust_rpm s = Some s' -> is_u8 (curr_pwm s').
Proof.
  intros Hs H. rewrite motor_adjust_rpm_halves in H.
  destruct (bool_decide (status s = Moving) || bool_decide (status s = Stopping));
    [| injection H as <-; exact Hs].
  destruct (get_rpm s) as [rpm |]; [| discriminate H].
  apply (inj Some) in H. subst s'.
  apply brake_byte, accelerate_byte, Hs.
Qed.

Lemma step_duty (e : event) (s s' : state) :
  is_u8 (curr_pwm s) -> step e s = Some s' -> is_u8 (curr_pwm s').
Proof.
  intros Hs H. destruct e as [sensor value | | now | now | io rx_buffer]; cbn [step] in H.
  - apply hall_sensor_callback_duty in H.
    destruct H as [E | E]; rewrite E; [exact Hs | unfold is_u8; lia].
  - exact (motor_adjust_rpm_byte s s' Hs H).
  - injection H as <-.
    destruct (motor_stall_check_duty now s) as [E | E]; rewrite E;
      [exact Hs | unfold is_u8; lia].
  - injection H as <-. apply motor_process_duty. exact Hs.
  - destruct (handle_command io rx_buffer (repeat 0 16) 0 0 s)
      as [[[[s1 tx1] n1] r1] |] eqn:E; [| discriminate H].
    cbn [mbind option_bind] in H. injection H as <-.
    apply handle_command_duty in E. rewrite E. exact Hs.
Qed.

(** A run that starts with a byte for the duty ends with one. *)
Lemma run_duty (events : list event) (s s' : state) :
  is_u8 (curr_pwm s) -> run events s = Some s' -> is_u8 (curr_pwm s').
Proof.
  revert s. induction events as [| e events IH]; intros s Hs H; cbn [run] in H.
  - injection H as <-. exact Hs.
  - destruct (step e s) as [s1 |] eqn:E; [| discriminate H].
    cbn [mbind option_bind] in H.
    apply (IH s1); [exact (step_duty e s s1 Hs E) | exact H].
Qed.

(** C5, as amended. In every state a run of the firmware reaches from
    power-on, [curr_pwm] lies in the range 0 to 255 of the 8-bit duty. An
    execution of [motor_adjust_rpm] leaves it in that range: below the
    target speed the duty is raised by at most 2, and only from below 254,
    so that it can reach 255; above the target speed it is lowered by at
    most 3; at the target speed it stays. The braking step taken at duty 2
    with more than 4 rpm of overshoot is left out. *)
Theorem motor_adjust_rpm_duty (s0 : state) (events : list event) (s : state) (rpm : Z) :
  0 < GEAR_RATIO -> typed s -> get_rpm s = Some rpm ->
  ~ (curr_pwm s = 2 /\ rpm - target_speed s > 4) ->
  (forall s', run events (motor_init s0) = Some s' -> 0 <= curr_pwm s' <= 255) /\
  (exists s',
     motor_adjust_rpm s = Some s' /\
     0 <= curr_pwm s' <= 255 /\
     (rpm < target_speed s -> curr_pwm s <= curr_pwm s' <= curr_pwm s + 2) /\
     (rpm > target_speed s -> curr_pwm s - 3 <= curr_pwm s' <= curr_pwm s) /\
     (rpm = target_speed s -> curr_pwm s' = curr_pwm s)).
Proof.
  intros Hg Hty Hrpm Hslip. split.
  - intros s' Hrun.
    assert (Hinit : is_u8 (curr_pwm (motor_init s0))).
    { unfold motor_init. cbv zeta.
      destruct (negb (auto_calibration (set_location _ (motor_stop s0)) =? 0));
        unfold is_u8; state_norm; lia. }
    pose proof (run_duty events (motor_init s0) s' Hinit Hrun) as H.
    unfold is_u8 in H. lia.
  - exact (motor_adjust_rpm_step s rpm Hg Hty Hrpm Hslip).
Qed.

(** ** Reading a field through updates *)

(** The projections and the setters, unfolded where a projection meets
    an update. *)
Ltac rd :=
  cbn [status direction target_location location full_curtain_length max_curtain_length
       minimum_voltage default_speed target_speed curr_pwm
       endpoint_calibration_started_timestamp calibrating auto_calibration
       hall_sensor_1_idle_time hall_sensor_1_ticks hall_sensor_2_ticks hall_sensor_1_interval
       movement_started_timestamp rotor_position min_slowdown_speed slowdown_factor command
       dir_error sensor_ticks_while_stopped sensor_ticks_while_calibrating_endpoint
       saved_hall_sensor_1_ticks saved_hall_sensor_2_ticks TIM1_CCR1 TIM1_CCR4 HIGH_1_GATE
       HIGH_2_GATE LOW1_PWM LOW2_PWM eeprom set_status set_direction set_target_location
       set_location set_full_curtain_length set_max_curtain_length set_minimum_voltage
       set_default_speed set_target_speed set_curr_pwm
       set_endpoint_calibration_started_timestamp set_calibrating set_auto_calibration
       set_hall_sensor_1_idle_time set_hall_sensor_1_ticks set_hall_sensor_2_ticks
       set_hall_sensor_1_interval set_movement_started_timestamp set_rotor_position
       set_min_slowdown_speed set_slowdown_factor set_command set_dir_error
       set_sensor_ticks_while_stopped set_sensor_ticks_while_calibrating_endpoint
       set_saved_hall_sensor_1_ticks set_saved_hall_sensor_2_ticks set_TIM1_CCR1 set_TIM1_CCR4
       set_HIGH_1_GATE set_HIGH_2_GATE set_LOW1_PWM set_LOW2_PWM set_eeprom motor_stop pwm_stop
       pwm_start HAL_GPIO_WritePin EE_WriteVariable].

Ltac rd_in H :=
  cbn [status direction target_location location full_curtain_length max_curtain_length
       minimum_voltage default_speed target_speed curr_pwm
       endpoint_calibration_started_timestamp calibrating auto_calibration
       hall_sensor_1_idle_time hall_sensor_1_ticks hall_sensor_2_ticks hall_sensor_1_interval
       movement_started_timestamp rotor_position min_slowdown_speed slowdown_factor command
       dir_error sensor_ticks_while_stopped sensor_ticks_while_calibrating_endpoint
       saved_hall_sensor_1_ticks saved_hall_sensor_2_ticks TIM1_CCR1 TIM1_CCR4 HIGH_1_GATE
       HIGH_2_GATE LOW1_PWM LOW2_PWM eeprom set_status set_direction set_target_location
       set_location set_full_curtain_length set_max_curtain_length set_minimum_voltage
       set_default_speed set_target_speed set_curr_pwm
       set_endpoint_calibration_started_timestamp set_calibrating set_auto_calibration
       set_hall_sensor_1_idle_time set_hall_sensor_1_ticks set_hall_sensor_2_ticks
       set_hall_sensor_1_interval set_movement_started_timestamp set_rotor_position
       set_min_slowdown_speed set_slowdown_factor set_command set_dir_error
       set_sensor_ticks_while_stopped set_sensor_ticks_while_calibrating_endpoint
       set_saved_hall_sensor_1_ticks set_saved_hall_sensor_2_ticks set_TIM1_CCR1 set_TIM1_CCR4
       set_HIGH_1_GATE set_HIGH_2_GATE set_LOW1_PWM set_LOW2_PWM set_eeprom motor_stop pwm_stop
       pwm_start HAL_GPIO_WritePin EE_WriteVariable] in H.

Ltac rd_in_all :=
  repeat match goal with
  | H : _ |- _ => progress rd_in H
  end.

(** ** [hall_sensor_callback] *)

Lemma hall_sensor_callback_parts (sensor value : Z) (s : state) :
  hall_sensor_callback sensor value s =
    let s1 := hall_counters sensor s in
    s2 ← (if negb (rotor_position s1 =? -1) then
            let diff := Z.land (4 + (sensor + (1 - value) * 2) - rotor_position s1) 0x3 in
            if diff =? 1 then
              if bool_decide (direction s1 <> Down) then fst <$> process_location Up s1
              else Some (set_dir_error (add_i32 (dir_error s1) 1) s1)
            else if diff =? 3 then
              if bool_decide (direction s1 <> Up) then fst <$> process_location Down s1
              else Some (set_dir_error (add_i32 (dir_error s1) 1) s1)
            else Some s1
          else Some s1);
    Some (set_rotor_position (sensor + (1 - value) * 2) s2).
Proof. reflexivity. Qed.

(** The counters of an edge leave the motion, the position and the
    settings of the approach alone. *)
Lemma hall_counters_frame (sensor : Z) (s : state) :
  let s' := hall_counters sensor s in
  location s' = location s /\ target_location s' = target_location s /\
  status s' = status s /\ direction s' = direction s /\
  calibrating s' = calibrating s /\ target_speed s' = target_speed s /\
  curr_pwm s' = curr_pwm s /\ rotor_position s' = rotor_position s /\
  slowdown_factor s' = slowdown_factor s /\
  min_slowdown_speed s' = min_slowdown_speed s /\ dir_error s' = dir_error s.
Proof.
  cbv zeta. unfold hall_counters. cbv zeta.
  repeat match goal with
  | |- context [if ?c then _ else _] => destruct c
  end; repeat split.
Qed.

(** X1. An edge whose phase step contradicts the direction the motor is
    driven in (a downward step while going up, an upward step while going
    down) is counted in [dir_error] and moves neither the location nor
    the motion state; the rotor position is recorded all the same. *)
Theorem hall_sensor_callback_direction_mismatch (sensor value : Z) (s : state) :
  rotor_position s <> -1 ->
  (edge_diff sensor value s = 3 /\ direction s = Up) \/
  (edge_diff sensor value s = 1 /\ direction s = Down) ->
  exists s',
    hall_sensor_callback sensor value s = Some s' /\
    dir_error s' = add_i32 (dir_error s) 1 /\
    location s' = location s /\ target_location s' = target_location s /\
    status s' = status s /\ direction s' = direction s /\
    target_speed s' = target_speed s /\ curr_pwm s' = curr_pwm s /\
    rotor_position s' = sensor + (1 - value) * 2.
Proof.
  intros Hrot Hcase. rewrite hall_sensor_callback_parts. cbv zeta.
  destruct (hall_counters_frame sensor s)
    as (El & Et & Est & Ed & Ec & Ets & Ep & Er & _ & _ & Ee).
  cbv zeta in *.
  set (s1 := hall_counters sensor s) in *.
  rewrite Er. rewrite (proj2 (Z.eqb_neq _ _) Hrot). cbn [negb].
  unfold edge_diff in Hcase.
  destruct Hcase as [[Hdiff Hdir] | [Hdiff Hdir]]; rewrite Hdiff, Ed, Hdir;
    cbn [Z.eqb Pos.eqb]; decide_enum; cbv iota; cbn [mbind option_bind];
    eexists; (split; [reflexivity |]); rd;
    rewrite El, Et, Est, Ed, Ets, Ep, Ee; repeat split; assumption.
Qed.
Lemma process_location_calibrating (sensor_direction : motor_direction) (s : state) :
  calibrating s <> 0 -> process_location sensor_direction s = Some (s, 0).
Proof.
  intros Hc. unfold process_location.
  rewrite (proj2 (Z.eqb_neq _ _) Hc). reflexivity.
Qed.

(** X2. While [calibrating] is set no Hall edge, whatever its sensor,
    level and phase, moves the location, the target, the status, the
    direction, the target speed or the duty: the callback returns and only
    counts. *)
Theorem hall_sensor_callback_while_calibrating (sensor value : Z) (s : state) :
  calibrating s <> 0 ->
  exists s',
    hall_sensor_callback sensor value s = Some s' /\
    location s' = location s /\ target_location s' = target_location s /\
    status s' = status s /\ direction s' = direction s /\
    target_speed s' = target_speed s /\ curr_pwm s' = curr_pwm s /\
    calibrating s' = calibrating s /\
    rotor_position s' = sensor + (1 - value) * 2.
Proof.
  intros Hcal. rewrite hall_sensor_callback_parts. cbv zeta.
  destruct (hall_counters_frame sensor s)
    as (El & Et & Est & Ed & Ec & Ets & Ep & Er & _ & _ & Ee).
  cbv zeta in *.
  set (s1 := hall_counters sensor s) in *.
  assert (Hcal1 : calibrating s1 <> 0) by (rewrite Ec; exact Hcal).
  rewrite !(process_location_calibrating _ s1 Hcal1). cbn [fmap option_fmap option_map fst].
  repeat match goal with
  | |- context [if ?c then _ else _] => destruct c
  end; cbn [mbind option_bind]; eexists; (split; [reflexivity |]); rd;
    rewrite El, Et, Est, Ed, Ets, Ep, Ec; repeat split.
Qed.

(** Where [process_location] leaves the location. *)
Lemma process_location_spec_location (sensor_direction : motor_direction) (s : state) :
  location (fst (process_location_spec sensor_direction s)) =
    if calibrating s =? 0 then location (moved sensor_direction s) else location s.
Proof.
  unfold process_location_spec.
  destruct (calibrating s =? 0); [| reflexivity].
  cbv zeta.
  destruct (stops_at_target sensor_direction (moved sensor_direction s)); cbn [fst].
  - reflexivity.
  - apply (slowdown_frame (moved sensor_direction s)).
Qed.

Lemma moved_frame (sensor_direction : motor_direction) (s : state) :
  target_speed (moved sensor_direction s) = target_speed s /\
  slowdown_factor (moved sensor_direction s) = slowdown_factor s /\
  min_slowdown_speed (moved sensor_direction s) = min_slowdown_speed s /\
  target_location (moved sensor_direction s) = target_location s /\
  direction (moved sensor_direction s) = direction s /\
  calibrating (moved sensor_direction s) = calibrating s /\
  status (moved sensor_direction s) = status s.
Proof. destruct sensor_direction; repeat split. Qed.

Lemma moved_location (sensor_direction : motor_direction) (s : state) :
  location (moved sensor_direction s) =
    match sensor_direction with
    | Up => location s - 1
    | Down => location s + 1
    | DirNone => location s
    end.
Proof. destruct sensor_direction; reflexivity. Qed.

(** X3. On a well-typed state within the operating range every Hall edge
    is processed without a division by zero, records the rotor position
    the edge encodes, and moves the location by at most one tick; the
    first edge after power-on ([rotor_position] -1) and an edge whose
    phase step is neither up nor down leave the location. *)
Theorem hall_sensor_callback_one_tick (sensor value : Z) (s : state) :
  typed s -> operating_range s ->
  exists s',
    hall_sensor_callback sensor value s = Some s' /\
    rotor_position s' = sensor + (1 - value) * 2 /\
    location s - 1 <= location s' <= location s + 1 /\
    (rotor_position s = -1 \/
     (edge_diff sensor value s <> 1 /\ edge_diff sensor value s <> 3) ->
     location s' = location s).
Proof.
  intros Hty [Hl Ht]. rewrite hall_sensor_callback_parts. cbv zeta.
  destruct (hall_counters_frame sensor s)
    as (El & Et & Est & Ed & Ec & Ets & Ep & Er & Esf & Ems & Ee).
  cbv zeta in *.
  set (s1 := hall_counters sensor s) in *.
  assert (Hrun : forall d, process_location d s1 = Some (process_location_spec d s1)).
  { intros d. apply process_location_refines.
    - rewrite Ets. apply Hty.
    - rewrite Esf. apply Hty.
    - rewrite Ems. apply Hty.
    - unfold operating_range. rewrite El, Et. split; assumption. }
  assert (Hloc : forall d,
            location s - 1 <= location (fst (process_location_spec d s1)) <= location s + 1).
  { intros d. rewrite process_location_spec_location.
    destruct (calibrating s1 =? 0); [rewrite moved_location; destruct d |]; lia. }
  rewrite !Hrun. cbn [fmap option_fmap option_map]. rewrite Er.
  unfold edge_diff.
  set (diff := Z.land (4 + (sensor + (1 - value) * 2) - rotor_position s) 3).
  destruct (Z.eqb_spec (rotor_position s) (-1)) as [Hr | Hr]; cbn [negb].
  { cbn [mbind option_bind]. eexists. split; [reflexivity |]. rd.
    split; [reflexivity |]. split; [lia |]. intros _. exact El. }
  destruct (Z.eqb_spec diff 1) as [H1 | H1].
  { destruct (bool_decide (direction s1 <> Down)); cbn [mbind option_bind];
      eexists; (split; [reflexivity |]); rd; (split; [reflexivity |]).
    - split; [apply Hloc |]. intros [? | [? ?]]; contradiction.
    - split; [lia |]. intros _. exact El. }
  destruct (Z.eqb_spec diff 3) as [H3 | H3].
  { destruct (bool_decide (direction s1 <> Up)); cbn [mbind option_bind];
      eexists; (split; [reflexivity |]); rd; (split; [reflexivity |]).
    - split; [apply Hloc |]. intros [? | [? ?]]; contradiction.
    - split; [lia |]. intros _. exact El. }
  cbn [mbind option_bind]. eexists. split; [reflexivity |]. rd.
  split; [reflexivity |]. split; [lia |]. intros _. exact El.
Qed.

(** What the counters of an edge leave of the bridge. *)
Lemma hall_counters_bridge (sensor : Z) (s : state) :
  let s' := hall_counters sensor s in
  HIGH_1_GATE s' = HIGH_1_GATE s /\ HIGH_2_GATE s' = HIGH_2_GATE s /\
  LOW1_PWM s' = LOW1_PWM s /\ LOW2_PWM s' = LOW2_PWM s /\
  TIM1_CCR1 s' = TIM1_CCR1 s /\ TIM1_CCR4 s' = TIM1_CCR4 s.
Proof.
  cbv zeta. unfold hall_counters. cbv zeta.
  repeat match goal with
  | |- context [if ?c then _ else _] => destruct c
  end; repeat split.
Qed.

(** With no direction, [process_location] only moves the location. *)
Lemma process_location_passive (sensor_direction : motor_direction) (s : state) :
  direction s = DirNone -> calibrating s = 0 ->
  process_location sensor_direction s =
    Some (match sensor_direction with
          | Up => set_location (sub_i32 (location s) 1) s
          | Down => set_location (add_i32 (location s) 1) s
          | DirNone => s
          end, 0).
Proof.
  intros Hd Hc. unfold process_location. rewrite Hc. cbn [Z.eqb]. cbv zeta.
  destruct sensor_direction; rd; rewrite ?Hd; decide_enum; cbn [andb]; cbv iota;
    rd; rewrite ?Hd; decide_enum; reflexivity.
Qed.

(** X4. With the motor off (no direction) and the position calibrated, a
    movement of the curtain by hand is tracked: an upward phase step
    lowers the location by one, a downward one raises it by one, and the
    edge leaves the status, the direction, the duty, the target speed and
    the outputs of the bridge as they are. *)
Theorem hall_sensor_callback_passive (sensor value : Z) (s : state) :
  direction s = DirNone -> calibrating s = 0 -> rotor_position s <> -1 ->
  exists s',
    hall_sensor_callback sensor value s = Some s' /\
    (edge_diff sensor value s = 1 -> location s' = sub_i32 (location s) 1) /\
    (edge_diff sensor value s = 3 -> location s' = add_i32 (location s) 1) /\
    status s' = status s /\ direction s' = DirNone /\
    curr_pwm s' = curr_pwm s /\ target_speed s' = target_speed s /\
    HIGH_1_GATE s' = HIGH_1_GATE s /\ HIGH_2_GATE s' = HIGH_2_GATE s /\
    LOW1_PWM s' = LOW1_PWM s /\ LOW2_PWM s' = LOW2_PWM s.
Proof.
  intros Hd Hc Hr. rewrite hall_sensor_callback_parts. cbv zeta.
  destruct (hall_counters_frame sensor s)
    as (El & Et & Est & Ed & Ec & Ets & Ep & Er & Esf & Ems & Ee).
  destruct (hall_counters_bridge sensor s) as (B1 & B2 & B3 & B4 & _ & _).
  cbv zeta in *.
  set (s1 := hall_counters sensor s) in *.
  assert (Hd1 : direction s1 = DirNone) by (rewrite Ed; exact Hd).
  assert (Hc1 : calibrating s1 = 0) by (rewrite Ec; exact Hc).
  rewrite !(process_location_passive _ s1 Hd1 Hc1).
  cbn [fmap option_fmap option_map fst].
  rewrite Er, (proj2 (Z.eqb_neq _ _) Hr). cbn [negb].
  rewrite Hd1. decide_enum. cbv iota.
  unfold edge_diff.
  set (diff := Z.land (4 + (sensor + (1 - value) * 2) - rotor_position s) 3).
  destruct (Z.eqb_spec diff 1) as [H1 | H1];
    [| destruct (Z.eqb_spec diff 3) as [H3 | H3]];
    cbn [mbind option_bind]; eexists; (split; [reflexivity |]); rd;
    rewrite ?El, Est, Hd1, Ep, Ets, B1, B2, B3, B4;
    split_and!; try reflexivity; intros; try reflexivity; lia.
Qed.
(** The counters of an edge of Hall sensor 1. *)
Lemma hall_counters_sensor_1 (s : state) :
  let s' := hall_counters HALL_1_SENSOR s in
  hall_sensor_1_idle_time s' = 0 /\
  hall_sensor_1_ticks s' = add_u32 (hall_sensor_1_ticks s) 1 /\
  hall_sensor_1_interval s' =
    if add_u32 (hall_sensor_1_ticks s) 1 >? 1
    then hall_sensor_1_idle_time s else hall_sensor_1_interval s.
Proof.
  cbv zeta. unfold hall_counters. rewrite Z.eqb_refl. cbv zeta. rd.
  destruct (add_u32 (hall_sensor_1_ticks s) 1 >? 1);
    repeat match goal with
    | |- context [if ?c then _ else _] => destruct c
    end; repeat split.
Qed.

(** The slowdown step leaves the measurements of Hall sensor 1. *)
Lemma slowdown_hall (s : state) :
  hall_sensor_1_idle_time (slowdown s) = hall_sensor_1_idle_time s /\
  hall_sensor_1_ticks (slowdown s) = hall_sensor_1_ticks s /\
  hall_sensor_1_interval (slowdown s) = hall_sensor_1_interval s.
Proof.
  unfold slowdown.
  repeat match goal with
  | |- context [if ?c then _ else _] => destruct c
  | _ => progress cbv zeta
  end; repeat split.
Qed.

Lemma moved_hall (sensor_direction : motor_direction) (s : state) :
  hall_sensor_1_idle_time (moved sensor_direction s) = hall_sensor_1_idle_time s /\
  hall_sensor_1_ticks (moved sensor_direction s) = hall_sensor_1_ticks s /\
  hall_sensor_1_interval (moved sensor_direction s) = hall_sensor_1_interval s.
Proof. destruct sensor_direction; repeat split. Qed.

(** [process_location] either stops the motor, which clears the
    measurements of Hall sensor 1, or leaves them. *)
Lemma process_location_spec_hall (sensor_direction : motor_direction) (s : state) :
  let s' := fst (process_location_spec sensor_direction s) in
  (status s' = Stopped /\ hall_sensor_1_idle_time s' = 0 /\
   hall_sensor_1_ticks s' = 0 /\ hall_sensor_1_interval s' = 0) \/
  (hall_sensor_1_idle_time s' = hall_sensor_1_idle_time s /\
   hall_sensor_1_ticks s' = hall_sensor_1_ticks s /\
   hall_sensor_1_interval s' = hall_sensor_1_interval s).
Proof.
  cbv zeta. unfold process_location_spec.
  destruct (calibrating s =? 0); [| right; repeat split].
  cbv zeta.
  destruct (stops_at_target sensor_direction (moved sensor_direction s)); cbn [fst].
  - left. repeat split.
  - right.
    destruct (slowdown_hall (moved sensor_direction s)) as (E1 & E2 & E3).
    destruct (moved_hall sensor_direction s) as (M1 & M2 & M3).
    rewrite E1, E2, E3, M1, M2, M3. repeat split.
Qed.

(** X5. An edge of Hall sensor 1 clears the idle time. Unless the edge
    stops the motor at its target (which clears the measurements), it
    counts one tick and copies the idle time into the interval only from
    the second tick on: with no tick counted and no interval yet, as after
    a start, the measured speed is still 0 after the edge. *)
Theorem hall_sensor_callback_interval (value : Z) (s : state) :
  typed s -> operating_range s ->
  exists s',
    hall_sensor_callback HALL_1_SENSOR value s = Some s' /\
    hall_sensor_1_idle_time s' = 0 /\
    ((status s' = Stopped /\ hall_sensor_1_ticks s' = 0 /\ hall_sensor_1_interval s' = 0) \/
     (hall_sensor_1_ticks s' = add_u32 (hall_sensor_1_ticks s) 1 /\
      hall_sensor_1_interval s' =
        if add_u32 (hall_sensor_1_ticks s) 1 >? 1
        then hall_sensor_1_idle_time s else hall_sensor_1_interval s)) /\
    (hall_sensor_1_ticks s = 0 -> hall_sensor_1_interval s = 0 -> get_rpm s' = Some 0).
Proof.
  intros Hty [Hl Ht].
  assert (Hgoal : exists s',
    hall_sensor_callback HALL_1_SENSOR value s = Some s' /\
    hall_sensor_1_idle_time s' = 0 /\
    ((status s' = Stopped /\ hall_sensor_1_ticks s' = 0 /\ hall_sensor_1_interval s' = 0) \/
     (hall_sensor_1_ticks s' = add_u32 (hall_sensor_1_ticks s) 1 /\
      hall_sensor_1_interval s' =
        if add_u32 (hall_sensor_1_ticks s) 1 >? 1
        then hall_sensor_1_idle_time s else hall_sensor_1_interval s))).
  { rewrite hall_sensor_callback_parts. cbv zeta.
    destruct (hall_counters_frame HALL_1_SENSOR s)
      as (El & Et & Est & Ed & Ec & Ets & Ep & Er & Esf & Ems & Ee).
    destruct (hall_counters_sensor_1 s) as (Ei & Etk & Eiv).
    cbv zeta in *.
    set (s1 := hall_counters HALL_1_SENSOR s) in *.
    assert (Hrun : forall d, process_location d s1 = Some (process_location_spec d s1)).
    { intros d. apply process_location_refines.
      - rewrite Ets. apply Hty.
      - rewrite Esf. apply Hty.
      - rewrite Ems. apply Hty.
      - unfold operating_range. rewrite El, Et. split; assumption. }
    assert (Hhall : forall d,
      let s' := fst (process_location_spec d s1) in
      hall_sensor_1_idle_time s' = 0 /\
      ((status s' = Stopped /\ hall_sensor_1_ticks s' = 0 /\ hall_sensor_1_interval s' = 0) \/
       (hall_sensor_1_ticks s' = add_u32 (hall_sensor_1_ticks s) 1 /\
        hall_sensor_1_interval s' =
          if add_u32 (hall_sensor_1_ticks s) 1 >? 1
          then hall_sensor_1_idle_time s else hall_sensor_1_interval s))).
    { intros d. cbv zeta.
      destruct (process_location_spec_hall d s1) as [(P0 & P1 & P2 & P3) | (P1 & P2 & P3)];
        cbv zeta in *.
      - split; [exact P1 |]. left. repeat split; assumption.
      - rewrite P1, P2, P3, Ei, Etk, Eiv. split; [reflexivity |]. right. split; reflexivity. }
    rewrite !Hrun. cbn [fmap option_fmap option_map].
    repeat match goal with
    | |- context [if ?c then _ else _] => destruct c
    end; cbn [mbind option_bind]; eexists; (split; [reflexivity |]); rd;
      first [ apply Hhall
            | rewrite Ei, Etk, Eiv; split; [reflexivity |]; right; split; reflexivity ]. }
  destruct Hgoal as (s' & Hrun & Hidle & Hcases).
  exists s'. split; [exact Hrun |]. split; [exact Hidle |]. split; [exact Hcases |].
  intros Htk Hiv.
  assert (E : hall_sensor_1_interval s' = 0).
  { destruct Hcases as [(_ & _ & E) | (_ & E)]; [exact E |].
    rewrite E, Htk, Hiv. reflexivity. }
  unfold get_rpm. rewrite E. reflexivity.
Qed.

(** ** [motor_stall_check] over the milliseconds *)

Lemma stall_checks_S (t : Z) (n : nat) (s : state) :
  stall_checks t (S n) s = motor_stall_check (t + Z.of_nat (S n)) (stall_checks t n s).
Proof. reflexivity. Qed.

Lemma stall_checks_add (t : Z) (n m : nat) (s : state) :
  stall_checks t (n + m) s = stall_checks (t + Z.of_nat n) m (stall_checks t n s).
Proof.
  induction m as [| m IH].
  - rewrite Nat.add_0_r. reflexivity.
  - rewrite Nat.add_succ_r, !stall_checks_S, IH.
    f_equal. lia.
Qed.
(** One call on a driven motor: the idle time is counted, and the motor
    is declared stalled when the call is past the grace period, the idle
    time past the timeout and, while stopping, not below the longer
    timeout. *)
Lemma motor_stall_check_driven (now : Z) (s : state) :
  driven s ->
  motor_stall_check now s =
    let s1 := set_hall_sensor_1_idle_time (add_u32 (hall_sensor_1_idle_time s) 1) s in
    if (sub_u32 now (movement_started_timestamp s) >? HALL_SENSOR_GRACE_PERIOD)
       && (add_u32 (hall_sensor_1_idle_time s) 1 >? HALL_SENSOR_TIMEOUT)
       && negb (bool_decide (status s = Stopping)
                && (add_u32 (hall_sensor_1_idle_time s) 1
                    <? HALL_SENSOR_TIMEOUT_WHILE_STOPPING))
    then s1 |> motor_stopped now |> set_hall_sensor_1_idle_time 0
    else s1.
Proof.
  intros Hd. unfold motor_stall_check. cbv zeta.
  replace (bool_decide (status s = Moving) || bool_decide (status s = Stopping)) with true
    by (destruct Hd as [E | E]; rewrite E; reflexivity).
  cbv iota. rd.
  destruct (sub_u32 now (movement_started_timestamp s) >? HALL_SENSOR_GRACE_PERIOD);
    [| reflexivity].
  destruct (add_u32 (hall_sensor_1_idle_time s) 1 >? HALL_SENSOR_TIMEOUT); [| reflexivity].
  destruct (bool_decide (status s = Stopping)
            && (add_u32 (hall_sensor_1_idle_time s) 1 <? HALL_SENSOR_TIMEOUT_WHILE_STOPPING));
    reflexivity.
Qed.

Lemma stall_deadline_bounds (s : state) :
  0 <= HALL_SENSOR_GRACE_PERIOD -> 0 <= HALL_SENSOR_TIMEOUT ->
  HALL_SENSOR_GRACE_PERIOD < stall_deadline s /\ HALL_SENSOR_TIMEOUT < stall_deadline s /\
  (status s = Stopping -> HALL_SENSOR_TIMEOUT_WHILE_STOPPING <= stall_deadline s) /\
  (stall_deadline s = Z.max HALL_SENSOR_GRACE_PERIOD HALL_SENSOR_TIMEOUT + 1 \/
   (status s = Stopping /\ stall_deadline s = HALL_SENSOR_TIMEOUT_WHILE_STOPPING)).
Proof.
  intros Hg Ht. unfold stall_deadline. cbv zeta.
  destruct (bool_decide_reflect (status s = Stopping)) as [E | E].
  - split; [lia |]. split; [lia |]. split; [intros _; lia |].
    destruct (Z.max_spec (Z.max HALL_SENSOR_GRACE_PERIOD HALL_SENSOR_TIMEOUT + 1)
                HALL_SENSOR_TIMEOUT_WHILE_STOPPING) as [[_ Hm] | [_ Hm]]; rewrite Hm.
    + right. split; [exact E | reflexivity].
    + left. reflexivity.
  - split; [lia |]. split; [lia |]. split; [intros; contradiction |].
    left. reflexivity.
Qed.

(** Before the deadline the stall check only counts the idle time. *)
Lemma stall_checks_wait (t0 : Z) (n : nat) (s : state) :
  driven s -> movement_started_timestamp s = t0 -> hall_sensor_1_idle_time s = 0 ->
  0 <= t0 -> 0 <= HALL_SENSOR_GRACE_PERIOD -> 0 <= HALL_SENSOR_TIMEOUT ->
  t0 + stall_deadline s < 2 ^ 32 ->
  Z.of_nat n < stall_deadline s ->
  waiting t0 n s (stall_checks t0 n s).
Proof.
  intros Hd Hst Hidle Ht0 Hg Ht Hwrap Hn.
  induction n as [| n IH].
  - cbn [stall_checks]. unfold waiting. split_and!; try reflexivity; assumption.
  - rewrite stall_checks_S.
    destruct IH as (Es & Ed & Et & Ei & Ep & El & Ec & Em); [lia |].
    set (s' := stall_checks t0 n s) in *.
    assert (Hd' : driven s') by (unfold driven; rewrite Es; exact Hd).
    rewrite (motor_stall_check_driven _ s' Hd'). cbv zeta.
    rewrite Et, Ei, Es.
    assert (Hsub : sub_u32 (t0 + Z.of_nat (S n)) t0 = Z.of_nat (S n)).
    { rewrite sub_u32_plain by (unfold is_u32; lia). lia. }
    assert (Hadd : add_u32 (Z.of_nat n) 1 = Z.of_nat (S n)).
    { unfold add_u32. rewrite to_u32_id by (unfold is_u32; lia). lia. }
    rewrite Hsub, Hadd.
    destruct (stall_deadline_bounds s Hg Ht) as (_ & _ & _ & Hcase).
    assert (Hno : (Z.of_nat (S n) >? HALL_SENSOR_GRACE_PERIOD)
                  && (Z.of_nat (S n) >? HALL_SENSOR_TIMEOUT)
                  && negb (bool_decide (status s = Stopping)
                           && (Z.of_nat (S n) <? HALL_SENSOR_TIMEOUT_WHILE_STOPPING))
                  = false).
    { destruct Hcase as [E | [E1 E2]].
      - destruct (Z.gtb_spec (Z.of_nat (S n)) HALL_SENSOR_GRACE_PERIOD); [| reflexivity].
        destruct (Z.gtb_spec (Z.of_nat (S n)) HALL_SENSOR_TIMEOUT); [| reflexivity].
        lia.
      - rewrite E1. decide_enum.
        destruct (Z.ltb_spec (Z.of_nat (S n)) HALL_SENSOR_TIMEOUT_WHILE_STOPPING); [| lia].
        cbn [andb negb]. rewrite andb_false_r. reflexivity. }
    rewrite Hno. unfold waiting. rd.
    split_and!; assumption || reflexivity.
Qed.

(** The call at the deadline declares the stall. *)
Lemma stall_checks_fire (t0 : Z) (s : state) :
  driven s -> movement_started_timestamp s = t0 -> hall_sensor_1_idle_time s = 0 ->
  0 <= t0 -> 0 <= HALL_SENSOR_GRACE_PERIOD -> 0 <= HALL_SENSOR_TIMEOUT ->
  t0 + stall_deadline s < 2 ^ 32 ->
  exists s1,
    status s1 = status s /\ direction s1 = direction s /\ location s1 = location s /\
    calibrating s1 = calibrating s /\ command s1 = command s /\
    stall_checks t0 (Z.to_nat (stall_deadline s)) s =
      (s1 |> motor_stopped (t0 + stall_deadline s) |> set_hall_sensor_1_idle_time 0).
Proof.
  intros Hd Hst Hidle Ht0 Hg Ht Hwrap.
  destruct (stall_deadline_bounds s Hg Ht) as (Hdg & Hdt & Hds & _).
  set (d := stall_deadline s) in *.
  assert (En : Z.to_nat d = S (Z.to_nat (d - 1))) by lia.
  rewrite En, stall_checks_S.
  destruct (stall_checks_wait t0 (Z.to_nat (d - 1)) s)
    as (Es & Ed & Et & Ei & Ep & El & Ec & Em);
    try assumption; [fold d; lia |].
  set (s' := stall_checks t0 (Z.to_nat (d - 1)) s) in *.
  assert (Hd' : driven s') by (unfold driven; rewrite Es; exact Hd).
  rewrite (motor_stall_check_driven _ s' Hd'). cbv zeta.
  rewrite Et, Ei, Es.
  replace (t0 + Z.of_nat (S (Z.to_nat (d - 1)))) with (t0 + d) by lia.
  assert (Hsub : sub_u32 (t0 + d) t0 = d).
  { rewrite sub_u32_plain by (unfold is_u32; lia). lia. }
  assert (Hadd : add_u32 (Z.of_nat (Z.to_nat (d - 1))) 1 = d).
  { unfold add_u32. rewrite to_u32_id by (unfold is_u32; lia). lia. }
  rewrite Hsub, Hadd.
  assert (Hyes : (d >? HALL_SENSOR_GRACE_PERIOD) && (d >? HALL_SENSOR_TIMEOUT)
                 && negb (bool_decide (status s = Stopping)
                          && (d <? HALL_SENSOR_TIMEOUT_WHILE_STOPPING)) = true).
  { destruct (Z.gtb_spec d HALL_SENSOR_GRACE_PERIOD); [| lia].
    destruct (Z.gtb_spec d HALL_SENSOR_TIMEOUT); [| lia].
    cbn [andb].
    destruct (bool_decide_reflect (status s = Stopping)) as [E | E]; [| reflexivity].
    specialize (Hds E).
    destruct (Z.ltb_spec d HALL_SENSOR_TIMEOUT_WHILE_STOPPING); [lia | reflexivity]. }
  rewrite Hyes.
  exists (set_hall_sensor_1_idle_time d s').
  rd. split_and!; assumption || reflexivity.
Qed.

(** ** The stall check with the regulator running *)

Lemma run_app (l1 l2 : list event) (s : state) :
  run (l1 ++ l2) s = (s1 ← run l1 s; run l2 s1).
Proof.
  revert s. induction l1 as [| e l1 IH]; intros s; [reflexivity |].
  cbn [app run]. destruct (step e s) as [s1 |]; [| reflexivity].
  cbn [mbind option_bind]. apply IH.
Qed.

Lemma same_but_duty_refl (s : state) : same_but_duty s s.
Proof. unfold same_but_duty. split_and!; reflexivity. Qed.

Lemma same_but_duty_trans (s1 s2 s3 : state) :
  same_but_duty s3 s2 -> same_but_duty s2 s1 -> same_but_duty s3 s1.
Proof.
  unfold same_but_duty. intros H32 H21.
  destruct H32 as (A1 & A2 & A3 & A4 & A5 & A6 & A7 & A8 & A9 & A10 & A11 & A12 & A13).
  destruct H21 as (B1 & B2 & B3 & B4 & B5 & B6 & B7 & B8 & B9 & B10 & B11 & B12 & B13).
  split_and!; congruence.
Qed.

Lemma accelerate_same_but_duty (speed : Z) (s : state) :
  same_but_duty (accelerate speed s) s.
Proof.
  unfold accelerate. cbv zeta.
  repeat match goal with
  | |- context [if ?c then _ else _] => destruct c
  end; unfold same_but_duty; rd; split_and!; reflexivity.
Qed.

Lemma brake_same_but_duty (speed : Z) (s : state) :
  same_but_duty (brake speed s) s.
Proof.
  unfold brake. cbv zeta.
  repeat match goal with
  | |- context [if ?c then _ else _] => destruct c
  end; unfold same_but_duty; rd; split_and!; reflexivity.
Qed.

(** The regulator writes the duty and the compare registers only. *)
Lemma motor_adjust_rpm_same_but_duty (s s' : state) :
  motor_adjust_rpm s = Some s' -> same_but_duty s' s.
Proof.
  intros H. rewrite motor_adjust_rpm_halves in H.
  destruct (bool_decide (status s = Moving) || bool_decide (status s = Stopping));
    [| injection H as <-; apply same_but_duty_refl].
  destruct (get_rpm s) as [rpm |]; [| discriminate H].
  apply (inj Some) in H. subst s'.
  eapply same_but_duty_trans; [apply brake_same_but_duty | apply accelerate_same_but_duty].
Qed.

(** Without a measured speed the regulator returns, and with a target
    speed that is not negative it does not lower the duty. *)
Lemma motor_adjust_rpm_standing (s : state) :
  hall_sensor_1_interval s = 0 -> 0 <= curr_pwm s -> 0 <= target_speed s ->
  exists s', motor_adjust_rpm s = Some s' /\ same_but_duty s' s /\
             curr_pwm s <= curr_pwm s'.
Proof.
  intros Hi Hp Ht.
  assert (Hrpm : get_rpm s = Some 0).
  { unfold get_rpm. rewrite Hi. reflexivity. }
  assert (Hrun : motor_adjust_rpm s =
                 Some (if bool_decide (status s = Moving) || bool_decide (status s = Stopping)
                       then brake 0 (accelerate 0 s) else s)).
  { rewrite motor_adjust_rpm_halves, Hrpm.
    destruct (bool_decide (status s = Moving) || bool_decide (status s = Stopping));
      reflexivity. }
  eexists. split; [exact Hrun |].
  split; [apply motor_adjust_rpm_same_but_duty; exact Hrun |].
  destruct (bool_decide (status s = Moving) || bool_decide (status s = Stopping)); [| lia].
  assert (Hb : brake 0 (accelerate 0 s) = accelerate 0 s).
  { unfold brake.
    destruct (accelerate_same_but_duty 0 s) as (_ & _ & _ & _ & _ & E & _).
    rewrite E.
    destruct (Z.gtb_spec 0 (target_speed s)); [lia | reflexivity]. }
  rewrite Hb. unfold accelerate. cbv zeta.
  destruct (0 <? target_speed s); [| lia].
  destruct (Z.ltb_spec (curr_pwm s) 254) as [H254 | _]; [| lia].
  rd.
  assert (E1 : to_u8 (curr_pwm s + 1) = curr_pwm s + 1)
    by (apply to_u8_id; unfold is_u8; lia).
  destruct (sub_u32 (target_speed s) 0 >? 2); rd;
    destruct (bool_decide (direction s = Up)); rd; rewrite ?E1;
    rewrite ?to_u8_id by (unfold is_u8; lia); lia.
Qed.

(** A pass of the main loop that finds no command pending changes
    nothing. *)
Lemma motor_process_idle (now : Z) (s : state) :
  command s = NoCommand -> motor_process now s = s.
Proof. intros E. unfold motor_process. rewrite E. decide_enum. reflexivity. Qed.

Lemma run_background_standing (l : list event) (s : state) :
  forallb background l = true ->
  hall_sensor_1_interval s = 0 -> 0 <= curr_pwm s -> 0 <= target_speed s ->
  command s = NoCommand ->
  exists s', run l s = Some s' /\ same_but_duty s' s /\ curr_pwm s <= curr_pwm s'.
Proof.
  revert s. induction l as [| e l IH]; intros s Hl Hi Hp Ht Hc.
  - exists s. split; [reflexivity |]. split; [apply same_but_duty_refl | lia].
  - cbn [forallb] in Hl. apply andb_true_iff in Hl. destruct Hl as [He Hl].
    assert (H1 : exists s1, step e s = Some s1 /\ same_but_duty s1 s /\
                            curr_pwm s <= curr_pwm s1).
    { destruct e as [sensor value | | now | now | io rx_buffer]; try discriminate He.
      - exact (motor_adjust_rpm_standing s Hi Hp Ht).
      - exists s. cbn [step]. rewrite motor_process_idle by exact Hc.
        split; [reflexivity |]. split; [apply same_but_duty_refl | lia]. }
    destruct H1 as (s1 & Hrun & Hsame & Hle).
    pose proof Hsame as (_ & _ & _ & _ & Ei & Et & _ & _ & _ & _ & _ & _ & Ec).
    destruct (IH s1 Hl) as (s2 & Hrun2 & Hsame2 & Hle2); [congruence | lia | lia | congruence |].
    exists s2. split.
    + cbn [run]. rewrite Hrun. exact Hrun2.
    + split; [eapply same_but_duty_trans; eassumption | lia].
Qed.

(** The test of [motor_stall_check] before and at the deadline. *)
Lemma stall_test_before (s : state) (k : Z) :
  0 <= HALL_SENSOR_GRACE_PERIOD -> 0 <= HALL_SENSOR_TIMEOUT ->
  k < stall_deadline s ->
  (k >? HALL_SENSOR_GRACE_PERIOD) && (k >? HALL_SENSOR_TIMEOUT)
  && negb (bool_decide (status s = Stopping) && (k <? HALL_SENSOR_TIMEOUT_WHILE_STOPPING))
  = false.
Proof.
  intros Hg Ht Hk.
  destruct (stall_deadline_bounds s Hg Ht) as (_ & _ & _ & [E | [E1 E2]]).
  - destruct (Z.gtb_spec k HALL_SENSOR_GRACE_PERIOD); [| reflexivity].
    destruct (Z.gtb_spec k HALL_SENSOR_TIMEOUT); [| reflexivity].
    lia.
  - rewrite E1. decide_enum.
    destruct (Z.ltb_spec k HALL_SENSOR_TIMEOUT_WHILE_STOPPING); [| lia].
    cbn [andb negb]. rewrite andb_false_r. reflexivity.
Qed.

Lemma stall_test_at (s : state) :
  0 <= HALL_SENSOR_GRACE_PERIOD -> 0 <= HALL_SENSOR_TIMEOUT ->
  (stall_deadline s >? HALL_SENSOR_GRACE_PERIOD) && (stall_deadline s >? HALL_SENSOR_TIMEOUT)
  && negb (bool_decide (status s = Stopping)
           && (stall_deadline s <? HALL_SENSOR_TIMEOUT_WHILE_STOPPING))
  = true.
Proof.
  intros Hg Ht.
  destruct (stall_deadline_bounds s Hg Ht) as (Hdg & Hdt & Hds & _).
  destruct (Z.gtb_spec (stall_deadline s) HALL_SENSOR_GRACE_PERIOD); [| lia].
  destruct (Z.gtb_spec (stall_deadline s) HALL_SENSOR_TIMEOUT); [| lia].
  cbn [andb].
  destruct (bool_decide_reflect (status s = Stopping)) as [E | E]; [| reflexivity].
  specialize (Hds E).
  destruct (Z.ltb_spec (stall_deadline s) HALL_SENSOR_TIMEOUT_WHILE_STOPPING);
    [lia | reflexivity].
Qed.

(** The milliseconds before the deadline. *)
Lemma quiet_wait (t0 : Z) (ms : nat -> list event) (n : nat) (s : state) :
  (forall i, forallb background (ms i) = true) ->
  driven s -> movement_started_timestamp s = t0 -> hall_sensor_1_idle_time s = 0 ->
  hall_sensor_1_interval s = 0 -> 0 <= curr_pwm s -> 0 <= target_speed s ->
  command s = NoCommand ->
  0 <= t0 -> 0 <= HALL_SENSOR_GRACE_PERIOD -> 0 <= HALL_SENSOR_TIMEOUT ->
  t0 + stall_deadline s < 2 ^ 32 ->
  Z.of_nat n < stall_deadline s ->
  exists s', run (quiet t0 ms n) s = Some s' /\ waiting_driven t0 n s s'.
Proof.
  intros Hms Hd Hst Hidle Hiv Hp Hts Hcmd Ht0 Hg Ht Hwrap Hn.
  induction n as [| n IH].
  - exists s. split; [reflexivity |]. unfold waiting_driven.
    split_and!; try reflexivity; assumption.
  - destruct IH as (s1 & Hrun1 & W); [lia |].
    destruct W as (Es & Ed & Et & Ei & Ev & Ets & El & Ec & G1 & G2 & P1 & P2 & Em & Hle).
    destruct (run_background_standing (ms (S n)) s1) as (s2 & Hrun2 & Hsame & Hle2);
      [apply Hms | exact Ev | lia | lia | exact Em |].
    destruct Hsame as (Fs & Fd & Ft & Fi & Fv & Fts & Fl & Fc & F1 & F2 & Q1 & Q2 & Fm).
    assert (Hd2 : driven s2) by (unfold driven; rewrite Fs, Es; exact Hd).
    exists (set_hall_sensor_1_idle_time (Z.of_nat (S n)) s2). split.
    + cbn [quiet]. rewrite run_app, Hrun1. cbn [mbind option_bind].
      rewrite run_app, Hrun2. cbn [mbind option_bind run step].
      rewrite (motor_stall_check_driven _ s2 Hd2). cbv zeta.
      rewrite Ft, Et, Fi, Ei, Fs, Es.
      assert (Hsub : sub_u32 (t0 + Z.of_nat (S n)) t0 = Z.of_nat (S n)).
      { rewrite sub_u32_plain by (unfold is_u32; lia). lia. }
      assert (Hadd : add_u32 (Z.of_nat n) 1 = Z.of_nat (S n)).
      { unfold add_u32. rewrite to_u32_id by (unfold is_u32; lia). lia. }
      rewrite Hsub, Hadd, stall_test_before by assumption.
      reflexivity.
    + unfold waiting_driven. rd.
      split_and!; try congruence. lia.
Qed.

(** The millisecond of the deadline. *)
Lemma quiet_fire (t0 : Z) (ms : nat -> list event) (s : state) :
  (forall i, forallb background (ms i) = true) ->
  driven s -> movement_started_timestamp s = t0 -> hall_sensor_1_idle_time s = 0 ->
  hall_sensor_1_interval s = 0 -> 0 <= curr_pwm s -> 0 <= target_speed s ->
  command s = NoCommand ->
  0 <= t0 -> 0 <= HALL_SENSOR_GRACE_PERIOD -> 0 <= HALL_SENSOR_TIMEOUT ->
  t0 + stall_deadline s < 2 ^ 32 ->
  exists s1,
    status s1 = status s /\ direction s1 = direction s /\ location s1 = location s /\
    run (quiet t0 ms (Z.to_nat (stall_deadline s))) s =
      Some (s1 |> motor_stopped (t0 + stall_deadline s) |> set_hall_sensor_1_idle_time 0).
Proof.
  intros Hms Hd Hst Hidle Hiv Hp Hts Hcmd Ht0 Hg Ht Hwrap.
  destruct (stall_deadline_bounds s Hg Ht) as (Hdg & Hdt & Hds & _).
  pose proof (stall_test_at s Hg Ht) as Hyes.
  set (d := stall_deadline s) in *.
  assert (En : Z.to_nat d = S (Z.to_nat (d - 1))) by lia.
  destruct (quiet_wait t0 ms (Z.to_nat (d - 1)) s) as (s1 & Hrun1 & W);
    try assumption; [fold d; lia |].
  destruct W as (Es & Ed & Et & Ei & Ev & Ets & El & Ec & G1 & G2 & P1 & P2 & Em & Hle).
  destruct (run_background_standing (ms (S (Z.to_nat (d - 1)))) s1)
    as (s2 & Hrun2 & Hsame & Hle2); [apply Hms | exact Ev | lia | lia | exact Em |].
  destruct Hsame as (Fs & Fd & Ft & Fi & Fv & Fts & Fl & Fc & F1 & F2 & Q1 & Q2 & Fm).
  assert (Hd2 : driven s2) by (unfold driven; rewrite Fs, Es; exact Hd).
  exists (set_hall_sensor_1_idle_time d s2). rd.
  split; [congruence |]. split; [congruence |]. split; [congruence |].
  rewrite En. cbn [quiet]. rewrite run_app, Hrun1. cbn [mbind option_bind].
  rewrite run_app, Hrun2. cbn [mbind option_bind run step].
  rewrite (motor_stall_check_driven _ s2 Hd2). cbv zeta.
  rewrite Ft, Et, Fi, Ei, Fs, Es.
  replace (t0 + Z.of_nat (S (Z.to_nat (d - 1)))) with (t0 + d) by lia.
  assert (Hsub : sub_u32 (t0 + d) t0 = d).
  { rewrite sub_u32_plain by (unfold is_u32; lia). lia. }
  assert (Hadd : add_u32 (Z.of_nat (Z.to_nat (d - 1))) 1 = d).
  { unfold add_u32. rewrite to_u32_id by (unfold is_u32; lia). lia. }
  rewrite Hsub, Hadd, Hyes. reflexivity.
Qed.

(** X6. A motor just started (its time stamp at [t0], no idle time and
    no measured interval yet, no command pending) that receives no Hall
    edge and no frame, while the regulator and the main loop run any
    number of times, in any order, before each millisecond tick (each
    handler and each pass of the main loop run to its end): through
    every millisecond before the deadline it keeps its status, its
    direction, its location and the switches of the bridge, and the
    regulator does not lower its duty; the call of [motor_stall_check] at
    the deadline declares it stalled: the bridge is switched off, the
    duty set to 0 and the location kept; a motor that was [Moving] up
    enters the end-point calibration with the time stamp of that call,
    one [Moving] down ends in [Error], one that was [Stopping] in
    [Stopped]. The deadline is the first millisecond after both the grace
    period and the timeout, and for a [Stopping] motor not before the
    longer timeout. *)
Theorem stall_detection_latency (t0 : Z) (ms : nat -> list event) (s : state) :
  (forall i, forallb background (ms i) = true) ->
  driven s -> movement_started_timestamp s = t0 -> hall_sensor_1_idle_time s = 0 ->
  hall_sensor_1_interval s = 0 -> 0 <= curr_pwm s -> 0 <= target_speed s ->
  command s = NoCommand ->
  0 <= t0 -> 0 <= HALL_SENSOR_GRACE_PERIOD -> 0 <= HALL_SENSOR_TIMEOUT ->
  t0 + stall_deadline s < 2 ^ 32 ->
  (forall n, Z.of_nat n < stall_deadline s ->
     exists s', run (quiet t0 ms n) s = Some s' /\
       status s' = status s /\ direction s' = direction s /\
       location s' = location s /\ hall_sensor_1_idle_time s' = Z.of_nat n /\
       HIGH_1_GATE s' = HIGH_1_GATE s /\ HIGH_2_GATE s' = HIGH_2_GATE s /\
       LOW1_PWM s' = LOW1_PWM s /\ LOW2_PWM s' = LOW2_PWM s /\
       curr_pwm s <= curr_pwm s') /\
  (exists s', run (quiet t0 ms (Z.to_nat (stall_deadline s))) s = Some s' /\
     direction s' = DirNone /\ curr_pwm s' = 0 /\
     TIM1_CCR1 s' = 0 /\ TIM1_CCR4 s' = 0 /\
     HIGH_1_GATE s' = GPIO_PIN_RESET /\ HIGH_2_GATE s' = GPIO_PIN_RESET /\
     LOW1_PWM s' = false /\ LOW2_PWM s' = false /\
     location s' = location s /\ hall_sensor_1_idle_time s' = 0 /\
     (status s = Moving -> direction s = Up ->
        status s' = CalibratingEndPoint /\
        endpoint_calibration_started_timestamp s' = t0 + stall_deadline s) /\
     (status s = Moving -> direction s = Down -> status s' = Error) /\
     (status s = Stopping -> status s' = Stopped)).
Proof.
  intros Hms Hd Hst Hidle Hiv Hp Hts Hcmd Ht0 Hg Ht Hwrap. split.
  - intros n Hn.
    destruct (quiet_wait t0 ms n s) as (s' & Hrun & W); try assumption.
    destruct W as (Es & Ed & Et & Ei & Ev & Ets & El & Ec & G1 & G2 & P1 & P2 & Em & Hle).
    exists s'. split_and!; assumption.
  - destruct (quiet_fire t0 ms s) as (s1 & Es & Ed & El & Erun); try assumption.
    eexists. split; [exact Erun |].
    assert (Hns : status s1 <> Stopped).
    { rewrite Es. destruct Hd as [E | E]; rewrite E; discriminate. }
    destruct (motor_stopped_deenergised (t0 + stall_deadline s) s1 Hns)
      as (C1 & C4 & G1 & G2 & P1 & P2 & Dn & Pw).
    cbv zeta in *. rd.
    split; [exact Dn |]. split; [exact Pw |]. split; [exact C1 |]. split; [exact C4 |].
    split; [exact G1 |]. split; [exact G2 |]. split; [exact P1 |]. split; [exact P2 |].
    split.
    { destruct (motor_stopped_after_motor_stop (t0 + stall_deadline s) s1 Hns)
        as (st & k & ts & E).
      rewrite E. rd. exact El. }
    split; [reflexivity |].
    split_and!.
    + intros Hm Hu. rewrite motor_stopped_moving_up by congruence.
      rd. split; reflexivity.
    + intros Hm Hu. rewrite motor_stopped_moving_down by congruence. reflexivity.
    + intros Hs. rewrite motor_stopped_stopping by congruence. reflexivity.
Qed.

(** While the end-point calibration waits, the stall check changes
    nothing; the first call later than the calibration period ends it. *)
Lemma stall_checks_calibrating (t : Z) (n : nat) (s : state) :
  status s = CalibratingEndPoint -> endpoint_calibration_started_timestamp s = t ->
  0 <= t -> t + Z.of_nat n < 2 ^ 32 ->
  Z.of_nat n <= ENDPOINT_CALIBRATION_PERIOD ->
  stall_checks t n s = s.
Proof.
  intros Hst Hts Ht Hwrap Hn. induction n as [| n IH]; [reflexivity |].
  rewrite stall_checks_S, IH by lia.
  unfold motor_stall_check. rewrite Hst. decide_enum. cbn [orb]. cbv iota.
  rewrite Hts, sub_u32_plain by (unfold is_u32; lia).
  destruct (Z.gtb_spec (t + Z.of_nat (S n) - t) ENDPOINT_CALIBRATION_PERIOD); [lia |].
  reflexivity.
Qed.

Lemma stall_checks_calibrated (t : Z) (s : state) :
  status s = CalibratingEndPoint -> endpoint_calibration_started_timestamp s = t ->
  0 <= t -> 0 <= ENDPOINT_CALIBRATION_PERIOD ->
  t + ENDPOINT_CALIBRATION_PERIOD + 1 < 2 ^ 32 ->
  stall_checks t (Z.to_nat (ENDPOINT_CALIBRATION_PERIOD + 1)) s =
    (s |> set_status Stopped |> set_calibrating 0 |> set_location 0).
Proof.
  intros Hst Hts Ht Hp Hwrap.
  assert (En : Z.to_nat (ENDPOINT_CALIBRATION_PERIOD + 1)
               = S (Z.to_nat ENDPOINT_CALIBRATION_PERIOD)) by lia.
  rewrite En, stall_checks_S, stall_checks_calibrating by (assumption || lia).
  apply motor_stall_check_calibrated; [exact Hst |].
  rewrite Hts, sub_u32_plain by (unfold is_u32; lia). lia.
Qed.

(** What [motor_init] leaves when automatic calibration is enabled, and
    what the main loop makes of it. *)
Lemma motor_init_auto_calibration (s0 : state) :
  auto_calibration s0 <> 0 ->
  motor_init s0 =
    (motor_stop s0 |> set_location (to_i32 (max_curtain_length s0))
                   |> set_calibrating 1 |> set_command MotorUp).
Proof.
  intros Ha. unfold motor_init. cbv zeta. rd.
  rewrite (proj2 (Z.eqb_neq _ _) Ha). reflexivity.
Qed.

Lemma motor_process_up (now : Z) (s : state) :
  command s = MotorUp ->
  let s' := motor_process now s in
  status s' = Moving /\ direction s' = Up /\ curr_pwm s' = INITIAL_PWM /\
  target_speed s' = default_speed s /\
  movement_started_timestamp s' = now /\ hall_sensor_1_idle_time s' = 0 /\
  calibrating s' = calibrating s /\ location s' = location s /\
  command s' = NoCommand.
Proof.
  intros Hc. cbv zeta. unfold motor_process. rewrite Hc. decide_enum. cbv iota.
  unfold motor_up, motor_start_common. rd. repeat split.
Qed.

(** X7. Power-on with automatic calibration enabled, the rotor never
    turning (the curtain already at the top): [motor_init] and the first
    pass of the main loop at tick [t0] start the motor upwards with
    [calibrating] set; the stall check gives up one millisecond after the
    later of the grace period and the timeout and starts the end-point
    calibration; one millisecond after the calibration period the motor is
    [Stopped] at location 0, no longer calibrating, the bridge off. *)
Theorem auto_calibration_completes (t0 : Z) (s0 : state) :
  auto_calibration s0 <> 0 ->
  0 <= t0 -> 0 <= HALL_SENSOR_GRACE_PERIOD -> 0 <= HALL_SENSOR_TIMEOUT ->
  0 <= ENDPOINT_CALIBRATION_PERIOD ->
  t0 + Z.max HALL_SENSOR_GRACE_PERIOD HALL_SENSOR_TIMEOUT
     + ENDPOINT_CALIBRATION_PERIOD + 2 < 2 ^ 32 ->
  let d := Z.max HALL_SENSOR_GRACE_PERIOD HALL_SENSOR_TIMEOUT + 1 in
  let s1 := motor_process t0 (motor_init s0) in
  let s2 := stall_checks t0 (Z.to_nat d) s1 in
  let s3 := stall_checks (t0 + d) (Z.to_nat (ENDPOINT_CALIBRATION_PERIOD + 1)) s2 in
  (status s1 = Moving /\ direction s1 = Up /\ calibrating s1 = 1 /\
   target_speed s1 = default_speed s0 /\
   location s1 = to_i32 (max_curtain_length s0)) /\
  (status s2 = CalibratingEndPoint /\ direction s2 = DirNone /\ curr_pwm s2 = 0 /\
   calibrating s2 = 1) /\
  (status s3 = Stopped /\ location s3 = 0 /\ calibrating s3 = 0 /\
   direction s3 = DirNone /\ curr_pwm s3 = 0 /\ command s3 = NoCommand).
Proof.
  intros Ha Ht0 Hg Ht Hp Hwrap d s1 s2 s3.
  assert (Hinit : command (motor_init s0) = MotorUp /\ calibrating (motor_init s0) = 1 /\
                  location (motor_init s0) = to_i32 (max_curtain_length s0) /\
                  default_speed (motor_init s0) = default_speed s0).
  { rewrite (motor_init_auto_calibration s0 Ha). repeat split. }
  destruct Hinit as (Ic & Ical & Il & Ids).
  destruct (motor_process_up t0 (motor_init s0) Ic)
    as (Ps & Pd & Pp & Pts & Pm & Pi & Pc & Pl & Pcmd).
  cbv zeta in *. fold s1 in Ps, Pd, Pp, Pts, Pm, Pi, Pc, Pl, Pcmd.
  assert (Hdl : stall_deadline s1 = d).
  { unfold stall_deadline. rewrite Ps. decide_enum. reflexivity. }
  split.
  { split_and!; congruence. }
  assert (Hdr : driven s1) by (left; exact Ps).
  destruct (stall_checks_fire t0 s1) as (s1' & Es & Ed & El & Ec & Em & Erun);
    try assumption; [rewrite Hdl; subst d; lia |].
  rewrite Hdl in Erun. fold s2 in Erun.
  rewrite motor_stopped_moving_up in Erun by congruence.
  assert (H2 : status s2 = CalibratingEndPoint /\ direction s2 = DirNone /\
               curr_pwm s2 = 0 /\ calibrating s2 = 1 /\
               endpoint_calibration_started_timestamp s2 = t0 + d /\
               command s2 = command s1').
  { rewrite Erun. rd. split_and!; try reflexivity. congruence. }
  destruct H2 as (S2 & D2 & P2 & C2 & T2 & M2).
  split.
  { split_and!; assumption. }
  subst s3.
  rewrite stall_checks_calibrated by (assumption || (subst d; lia)).
  rd. split_and!; try reflexivity; try assumption.
  congruence.
Qed.
(** ** [motor_write_setting] and the frames *)

(** A call either changes nothing or appends one write to the log of
    the EEPROM, and that only in the full build with the motor
    [Stopped]. *)
Lemma motor_write_setting_cases (io : inputs) (var : eeprom_var_t) (value : Z) (s : state) :
  motor_write_setting io var value s = s \/
  (SLIM_BINARY = false /\ status s = Stopped /\
   motor_write_setting io var value s = EE_WriteVariable (VirtAddVarTab var) value s).
Proof.
  unfold motor_write_setting.
  destruct SLIM_BINARY; [left; reflexivity |].
  destruct (bool_decide_reflect (status s = Stopped)) as [E | E]; [| left; reflexivity].
  cbv zeta.
  match goal with |- context [if ?c then _ else _] => destruct c end;
    [right; repeat split; assumption | left; reflexivity].
Qed.

Ltac write_setting_cases :=
  repeat match goal with
  | |- context [motor_write_setting ?io ?var ?v ?s] =>
      let E := fresh "E" in
      destruct (motor_write_setting_cases io var v s) as [E | (_ & _ & E)];
      rewrite E; clear E
  end.

(** What no frame touches: the status, the direction, the duty and the
    outputs of the bridge; the target speed is written only when it is
    not 0. *)
Lemma handle_command_motion (io : inputs) (rx_buffer tx_buffer : list Z)
    (burstindex tx_bytes : Z) (s s' : state) (tx' : list Z) (n r : Z) :
  handle_command io rx_buffer tx_buffer burstindex tx_bytes s = Some (s', tx', n, r) ->
  status s' = status s /\ direction s' = direction s /\ curr_pwm s' = curr_pwm s /\
  TIM1_CCR1 s' = TIM1_CCR1 s /\ TIM1_CCR4 s' = TIM1_CCR4 s /\
  HIGH_1_GATE s' = HIGH_1_GATE s /\ HIGH_2_GATE s' = HIGH_2_GATE s /\
  LOW1_PWM s' = LOW1_PWM s /\ LOW2_PWM s' = LOW2_PWM s /\
  (target_speed s' = target_speed s \/ target_speed s <> 0) /\ r = 1.
Proof.
  unfold handle_command. intros H.
  destruct (load 3 rx_buffer) as [cmd1 |]; [| discriminate H].
  destruct (load 4 rx_buffer) as [cmd2 |]; [| discriminate H].
  cbn [mbind option_bind] in H.
  match type of H with
  | @mbind _ _ _ _ _ ?first = _ =>
      remember first as p eqn:E; symmetry in E;
      destruct p as [ [ [ [s1 tx1] n1] handled] | ]; [| discriminate H]
  end.
  assert (E1 : status s1 = status s /\ direction s1 = direction s /\
               curr_pwm s1 = curr_pwm s /\
               TIM1_CCR1 s1 = TIM1_CCR1 s /\ TIM1_CCR4 s1 = TIM1_CCR4 s /\
               HIGH_1_GATE s1 = HIGH_1_GATE s /\ HIGH_2_GATE s1 = HIGH_2_GATE s /\
               LOW1_PWM s1 = LOW1_PWM s /\ LOW2_PWM s1 = LOW2_PWM s /\
               target_speed s1 = target_speed s).
  { clear H. crunch E; injection E as <- _ _ _; write_setting_cases; rd; repeat split. }
  cbn [mbind option_bind] in H. injection H as <- _ _ <-.
  destruct E1 as (F1 & F2 & F3 & F4 & F5 & F6 & F7 & F8 & F9 & F10).
  rewrite <- F1, <- F2, <- F3, <- F4, <- F5, <- F6, <- F7, <- F8, <- F9, <- F10.
  clear.
  repeat match goal with
  | |- context [if ?c then _ else _] => destruct c eqn:?
  end; write_setting_cases; rd;
    split_and!; try reflexivity; try (left; reflexivity).
  right. rd_in_all.
  match goal with
  | H : negb (_ =? 0) = true |- _ =>
      apply negb_true_iff, Z.eqb_neq in H; exact H
  end.
Qed.

(** ** The H-bridge with the main loop preempted *)

(** The statements of a pass, run without an interrupt at one tick, are
    [motor_process]. *)
Lemma exec_all_motor_process (now motor_speed : Z) (s : state) :
  exec_all now motor_speed (motor_process_code (command s)) s = motor_process now s.
Proof.
  unfold motor_process.
  destruct (command s); decide_enum; cbv iota; reflexivity.
Qed.

Lemma switches_below_refl (s : state) : switches_below s s.
Proof. unfold switches_below. tauto. Qed.

Lemma switches_below_off (s' s : state) :
  HIGH_1_GATE s' = GPIO_PIN_RESET -> HIGH_2_GATE s' = GPIO_PIN_RESET ->
  LOW1_PWM s' = false -> LOW2_PWM s' = false ->
  switches_below s' s.
Proof.
  intros G1 G2 P1 P2. unfold switches_below. rewrite G1, G2, P1, P2.
  split_and!; discriminate.
Qed.

Lemma switches_below_same (s' s : state) :
  HIGH_1_GATE s' = HIGH_1_GATE s -> HIGH_2_GATE s' = HIGH_2_GATE s ->
  LOW1_PWM s' = LOW1_PWM s -> LOW2_PWM s' = LOW2_PWM s ->
  switches_below s' s.
Proof.
  intros G1 G2 P1 P2. unfold switches_below. rewrite G1, G2, P1, P2. tauto.
Qed.

Lemma switches_below_trans (s1 s2 s3 : state) :
  switches_below s3 s2 -> switches_below s2 s1 -> switches_below s3 s1.
Proof. unfold switches_below. tauto. Qed.

(** Switching off keeps the bridge free of a shoot-through, and within
    the switches that may be on. *)
Lemma no_shoot_through_below (s' s : state) :
  no_shoot_through s -> switches_below s' s -> no_shoot_through s'.
Proof.
  unfold no_shoot_through, switches_below.
  intros [H1 H2] (B1 & B2 & B3 & B4).
  destruct (HIGH_1_GATE s'), (HIGH_2_GATE s'), (LOW1_PWM s'), (LOW2_PWM s');
    intuition (congruence || discriminate).
Qed.

Lemma within_below (s' s : state) (b : may_be_on) :
  within s b -> switches_below s' s -> within s' b.
Proof. unfold within, switches_below. tauto. Qed.

Lemma within_any_switch (s : state) : within s any_switch.
Proof. unfold within, any_switch. cbn. tauto. Qed.

(** A statement that passes the check keeps both. *)
Lemma exec_checked (now motor_speed : Z) (i : instr) (s : state) (b : may_be_on) :
  no_shoot_through s -> within s b -> allowed i b = true ->
  no_shoot_through (exec now motor_speed i s) /\ within (exec now motor_speed i s) (after i b).
Proof.
  unfold no_shoot_through, within. destruct b as [b1 b2 b3 b4].
  cbn [may_HIGH_1 may_HIGH_2 may_LOW1 may_LOW2].
  intros [H1 H2] (W1 & W2 & W3 & W4) Ha.
  destruct i as [ch | ch | p v | | | | | | | | | | | | | | | | |];
    try destruct ch; try destruct p; try destruct v;
    cbn [exec after allowed may_HIGH_1 may_HIGH_2 may_LOW1 may_LOW2] in *; rd;
    first
      [ solve [split; [split; assumption | split_and!; assumption]]
      | decide_enum;
        repeat match goal with
        | H : _ && _ = true |- _ => apply andb_true_iff in H; destruct H
        | H : negb _ = true |- _ => apply negb_true_iff in H
        end;
        subst;
        destruct (HIGH_1_GATE s), (HIGH_2_GATE s), (LOW1_PWM s), (LOW2_PWM s);
        intuition (congruence || discriminate) ].
Qed.

Lemma motor_process_code_checked (c : motor_command) :
  switches_checked (motor_process_code c) any_switch = true.
Proof. destruct c; reflexivity. Qed.

(** No handler of an interrupt switches a switch of the bridge on. *)
Lemma hall_counters_switches (sensor : Z) (s : state) :
  switches_below (hall_counters sensor s) s.
Proof.
  unfold hall_counters. cbv zeta.
  repeat match goal with
  | |- context [if ?c then _ else _] => destruct c
  end; apply switches_below_same; reflexivity.
Qed.

Lemma process_location_switches (sensor_direction : motor_direction) (s s' : state) (r : Z) :
  process_location sensor_direction s = Some (s', r) -> switches_below s' s.
Proof.
  intros H. unfold process_location in H.
  destruct (calibrating s =? 0); [| injection H as <- _; apply switches_below_refl].
  cbv zeta in H.
  destruct sensor_direction;
    repeat first
      [ discriminate H
      | progress cbn [mbind option_bind negb] in H
      | match type of H with
        | context [if ?c then _ else _] => destruct c
        | context [@mbind _ _ _ _ _ ?o] => destruct o
        end ];
    injection H as <- _;
    first [ apply switches_below_off; reflexivity
          | apply switches_below_same; reflexivity ].
Qed.

Lemma hall_sensor_callback_switches (sensor value : Z) (s s' : state) :
  hall_sensor_callback sensor value s = Some s' -> switches_below s' s.
Proof.
  intros H. rewrite hall_sensor_callback_parts in H. cbv zeta in H.
  pose proof (hall_counters_switches sensor s) as Hb.
  set (s1 := hall_counters sensor s) in *.
  match type of H with
  | @mbind _ _ _ _ _ ?edge = _ =>
      destruct edge as [s2 |] eqn:E; [| discriminate H]
  end.
  cbn [mbind option_bind] in H. injection H as <-.
  assert (H2 : switches_below s2 s1).
  { repeat match type of E with
    | context [if ?c then _ else _] => destruct c
    end;
    try (injection E as <-;
         first [apply switches_below_refl | apply switches_below_same; reflexivity]);
    match type of E with
    | fst <$> ?o = _ =>
        destruct o as [[s3 r] |] eqn:Ep; [| discriminate E];
        injection E as <-; exact (process_location_switches _ _ _ _ Ep)
    end. }
  apply (switches_below_trans s (set_rotor_position (sensor + (1 - value) * 2) s1));
    [| apply (switches_below_trans s s1);
       [apply switches_below_same; reflexivity | exact Hb]].
  revert H2. clear. unfold switches_below. rd. tauto.
Qed.

Lemma motor_stopped_switches (now : Z) (s : state) :
  switches_below (motor_stopped now s) s.
Proof.
  destruct (bool_decide_reflect (status s = Stopped)) as [E | E].
  - unfold motor_stopped. rewrite bool_decide_false by tauto.
    apply switches_below_refl.
  - destruct (motor_stopped_deenergised now s E) as (_ & _ & G1 & G2 & P1 & P2 & _).
    apply switches_below_off; assumption.
Qed.

Lemma motor_stall_check_switches (now : Z) (s : state) :
  switches_below (motor_stall_check now s) s.
Proof.
  unfold motor_stall_check. cbv zeta.
  repeat match goal with
  | |- context [if ?c then _ else _] => destruct c
  end; try (apply switches_below_same; reflexivity).
  eapply switches_below_trans;
    [| apply (switches_below_same
                (set_hall_sensor_1_idle_time (add_u32 (hall_sensor_1_idle_time s) 1) s) s);
       reflexivity].
  eapply switches_below_trans; [| apply motor_stopped_switches].
  apply switches_below_same; reflexivity.
Qed.

Lemma isr_switches (i : interrupt) (s s' : state) :
  step (isr i) s = Some s' -> switches_below s' s.
Proof.
  intros H. destruct i as [sensor value | | now | io rx_buffer]; cbn [isr step] in H.
  - exact (hall_sensor_callback_switches sensor value s s' H).
  - destruct (motor_adjust_rpm_same_but_duty s s' H)
      as (_ & _ & _ & _ & _ & _ & _ & _ & G1 & G2 & P1 & P2 & _).
    apply switches_below_same; assumption.
  - injection H as <-. apply motor_stall_check_switches.
  - destruct (handle_command io rx_buffer (repeat 0 16) 0 0 s)
      as [[[[s1 tx1] n1] r1] |] eqn:E; [| discriminate H].
    cbn [mbind option_bind] in H. injection H as <-.
    destruct (handle_command_motion _ _ _ _ _ _ _ _ _ _ E)
      as (_ & _ & _ & _ & _ & G1 & G2 & P1 & P2 & _).
    apply switches_below_same; assumption.
Qed.

(** [motor_init] leaves every switch off. *)
Lemma booted_bridge_safe (s0 : state) : bridge_safe (booted s0).
Proof.
  assert (Hoff : HIGH_1_GATE (motor_init s0) = GPIO_PIN_RESET /\
                 HIGH_2_GATE (motor_init s0) = GPIO_PIN_RESET /\
                 LOW1_PWM (motor_init s0) = false /\ LOW2_PWM (motor_init s0) = false).
  { unfold motor_init. cbv zeta.
    destruct (negb (auto_calibration (set_location _ (motor_stop s0)) =? 0));
      rd; repeat split. }
  destruct Hoff as (G1 & G2 & P1 & P2).
  unfold bridge_safe, booted. cbn [globals code]. split.
  - unfold no_shoot_through. rewrite G1, G2. split; discriminate.
  - exists any_switch. split; [apply within_any_switch | reflexivity].
Qed.

Lemma preempt_step_bridge_safe (sl : slot) (m m' : machine) :
  bridge_safe m -> preempt_step sl m = Some m' -> bridge_safe m'.
Proof.
  intros [Hn (b & Hw & Hc)] H. destruct sl as [i | now]; cbn [preempt_step] in H.
  - destruct (step (isr i) (globals m)) as [s |] eqn:E; [| discriminate H].
    cbn [mbind option_bind] in H. injection H as <-.
    pose proof (isr_switches i _ _ E) as Hb.
    unfold bridge_safe. cbn [globals code]. split.
    + exact (no_shoot_through_below _ _ Hn Hb).
    + exists b. split; [exact (within_below _ _ _ Hw Hb) | exact Hc].
  - destruct (code m) as [| i rest] eqn:Ecode; injection H as <-;
      unfold bridge_safe; cbn [globals code].
    + split; [exact Hn |].
      exists any_switch. split; [apply within_any_switch | apply motor_process_code_checked].
    + cbn [switches_checked] in Hc. apply andb_true_iff in Hc. destruct Hc as [Ha Hc].
      destruct (exec_checked now (motor_speed m) i (globals m) b Hn Hw Ha) as [Hn' Hw'].
      split; [exact Hn' |]. exists (after i b). split; assumption.
Qed.

Lemma preempt_run_bridge_safe (slots : list slot) (m m' : machine) :
  bridge_safe m -> preempt_run slots m = Some m' -> bridge_safe m'.
Proof.
  revert m. induction slots as [| sl slots IH]; intros m Hs H; cbn [preempt_run] in H.
  - injection H as <-. exact Hs.
  - destruct (preempt_step sl m) as [m1 |] eqn:E; [| discriminate H].
    cbn [mbind option_bind] in H.
    apply (IH m1); [exact (preempt_step_bridge_safe sl m m1 Hs E) | exact H].
Qed.

(** Every run of [run] is a run of the machine. *)
Lemma preempt_run_app (l1 l2 : list slot) (m : machine) :
  preempt_run (l1 ++ l2) m = (m1 ← preempt_run l1 m; preempt_run l2 m1).
Proof.
  revert m. induction l1 as [| sl l1 IH]; intros m; [reflexivity |].
  cbn [app preempt_run]. destruct (preempt_step sl m) as [m1 |]; [| reflexivity].
  cbn [mbind option_bind]. apply IH.
Qed.

Lemma preempt_run_idle (now speed : Z) (k : nat) (s : state) :
  command s = NoCommand ->
  preempt_run (repeat (Main now) k) (Build_machine s speed []) =
    Some (Build_machine s speed []).
Proof.
  intros E. induction k as [| k IH]; [reflexivity |].
  cbn [repeat preempt_run preempt_step code globals motor_speed mbind option_bind].
  rewrite E. exact IH.
Qed.

Lemma preempt_run_code (now : Z) (rest : list instr) (s : state) (speed : Z) :
  exists speed',
    preempt_run (repeat (Main now) (length rest)) (Build_machine s speed rest) =
      Some (Build_machine (exec_all now speed rest s) speed' []).
Proof.
  revert s speed. induction rest as [| i rest IH]; intros s speed.
  - exists speed. reflexivity.
  - cbn [length repeat preempt_run preempt_step code globals motor_speed mbind option_bind
         exec_all].
    apply IH.
Qed.

Lemma motor_process_command (now : Z) (s : state) : command (motor_process now s) = NoCommand.
Proof.
  unfold motor_process.
  destruct (command s) eqn:E; decide_enum; cbv iota;
    unfold motor_up, motor_down, motor_start_common; rd; first [exact E | reflexivity].
Qed.

Lemma preempt_run_pass (now speed : Z) (s : state) :
  exists speed',
    preempt_run (repeat (Main now) 28) (Build_machine s speed []) =
      Some (Build_machine (motor_process now s) speed' []).
Proof.
  destruct (bool_decide_reflect (command s = NoCommand)) as [E | E].
  - exists speed. rewrite preempt_run_idle by exact E.
    unfold motor_process. rewrite E. decide_enum. reflexivity.
  - destruct (preempt_run_code now (motor_process_code (command s)) s speed)
      as (speed' & Hc).
    rewrite exec_all_motor_process in Hc.
    exists speed'.
    assert (Hlen : exists k, (28 = 1 + (length (motor_process_code (command s)) + k))%nat).
    { destruct (command s); [contradiction | exists 0%nat | exists 0%nat | exists 9%nat];
        reflexivity. }
    destruct Hlen as (k & ->).
    rewrite !repeat_app, !preempt_run_app.
    cbn [repeat preempt_run preempt_step code globals motor_speed mbind option_bind].
    rewrite preempt_run_app, Hc. cbn [mbind option_bind].
    apply preempt_run_idle, motor_process_command.
Qed.

Lemma run_preempt_run (events : list event) (s s' : state) (speed : Z) :
  run events s = Some s' ->
  exists speed',
    preempt_run (concat (map slots_of events)) (Build_machine s speed []) =
      Some (Build_machine s' speed' []).
Proof.
  revert s speed. induction events as [| e events IH]; intros s speed H;
    cbn [run] in H.
  - injection H as <-. exists speed. reflexivity.
  - destruct (step e s) as [s1 |] eqn:E; [| discriminate H].
    cbn [mbind option_bind] in H.
    cbn [map concat].
    assert (H1 : exists speed1,
               preempt_run (slots_of e) (Build_machine s speed []) =
                 Some (Build_machine s1 speed1 [])).
    { destruct e as [sensor value | | now | now | io rx_buffer];
        try (exists speed;
             cbn [slots_of preempt_run preempt_step isr globals motor_speed code];
             rewrite E; reflexivity).
      cbn [step] in E. injection E as <-. apply preempt_run_pass. }
    destruct H1 as (speed1 & H1).
    destruct (IH s1 speed1 H) as (speed' & H2).
    exists speed'. rewrite preempt_run_app, H1. exact H2.
Qed.

(** X8. In every state the firmware reaches from [motor_init], with the
    main loop interrupted between any two statements of [motor_process]
    (and of [motor_stop], [motor_start_common], [motor_up] and
    [motor_down] called by it) by the handlers of the Hall edges, the
    10 ms timer, the 1 ms tick and the UART, each handler run to its end:
    a high gate is never on together with the other high gate or with
    the PWM channel of its own side. *)
Theorem no_shoot_through_under_preemption (s0 : state) (slots : list slot) (m : machine) :
  preempt_run slots (booted s0) = Some m ->
  (HIGH_1_GATE (globals m) = GPIO_PIN_SET ->
     HIGH_2_GATE (globals m) = GPIO_PIN_RESET /\ LOW1_PWM (globals m) = false) /\
  (HIGH_2_GATE (globals m) = GPIO_PIN_SET ->
     HIGH_1_GATE (globals m) = GPIO_PIN_RESET /\ LOW2_PWM (globals m) = false).
Proof.
  intros Hrun.
  destruct (preempt_run_bridge_safe slots (booted s0) m (booted_bridge_safe s0) Hrun)
    as [Hn _].
  exact Hn.
Qed.

(** X9. Every frame of at least 5 bytes is handled, given a reply buffer
    of at least 9 bytes: [handle_command] returns 1 without a division by
    zero or an access out of the buffers, and whatever the frame it
    leaves the status, the direction, the duty, the compare registers,
    the high gates and the PWM channels as they are: a frame moves the
    motor only through the pending command. *)
Theorem handle_command_leaves_motion (io : inputs) (rx_buffer tx_buffer : list Z)
    (burstindex tx_bytes : Z) (s : state) :
  0 < GEAR_RATIO -> 0 <= hall_sensor_1_interval s ->
  (5 <= length rx_buffer)%nat -> (9 <= length tx_buffer)%nat ->
  exists s' tx' n,
    handle_command io rx_buffer tx_buffer burstindex tx_bytes s = Some (s', tx', n, 1) /\
    status s' = status s /\ direction s' = direction s /\ curr_pwm s' = curr_pwm s /\
    TIM1_CCR1 s' = TIM1_CCR1 s /\ TIM1_CCR4 s' = TIM1_CCR4 s /\
    HIGH_1_GATE s' = HIGH_1_GATE s /\ HIGH_2_GATE s' = HIGH_2_GATE s /\
    LOW1_PWM s' = LOW1_PWM s /\ LOW2_PWM s' = LOW2_PWM s.
Proof.
  intros Hg Hi Hrx Htx.
  assert (Hsome : exists res,
            handle_command io rx_buffer tx_buffer burstindex tx_bytes s = Some res).
  { do 5 (destruct rx_buffer as [| ? rx_buffer]; [cbn [length] in Hrx; lia |]).
    do 9 (destruct tx_buffer as [| ? tx_buffer]; [cbn [length] in Htx; lia |]).
    clear Hrx Htx.
    unfold handle_command. cbn [load lookup list_lookup mbind option_bind].
    rewrite (get_rpm_Some s) by lia.
    repeat match goal with
    | |- context [if ?c =? ?k then _ else _] => destruct (c =? k)
    | |- context [if (?c =? ?k) || _ then _ else _] => destruct (c =? k)
    | _ => progress (cbn [orb]; cbv iota)
    end; run_reply; eexists; reflexivity. }
  destruct Hsome as ([[[s' tx'] n] r] & Hrun).
  destruct (handle_command_motion _ _ _ _ _ _ _ _ _ _ Hrun)
    as (F1 & F2 & F3 & F4 & F5 & F6 & F7 & F8 & F9 & _ & ->).
  exists s', tx', n. split; [exact Hrun |]. split_and!; assumption.
Qed.
Lemma low_nibble (c : Z) : is_u8 c -> Z.land c 0x0f = c mod 16.
Proof.
  intros Hc. apply Z.eqb_eq.
  apply (u8_all (fun c => Z.land c 0x0f =? c mod 16)); [| assumption].
  vm_compute. reflexivity.
Qed.

(** Leaving the chain of [if]s on the first byte: every comparison is
    refuted by [lia]. *)
Ltac skip_parameters cmd1 :=
  unfold CMD_EXT_SET_SPEED, CMD_EXT_SET_DEFAULT_SPEED, CMD_GO_TO, CMD_EXT_GO_TO,
    CMD_EXT_SET_LOCATION, CMD_EXT_SET_MINIMUM_VOLTAGE, CMD_EXT_SET_AUTO_CAL,
    CMD_EXT_GO_TO_LOCATION, CMD_EXT_SET_SLOWDOWN_FACTOR, CMD_EXT_SET_MIN_SLOWDOWN_SPEED;
  repeat match goal with
  | |- context [cmd1 =? ?k] => rewrite (proj2 (Z.eqb_neq cmd1 k)) by lia
  | |- context [Z.land cmd1 240 =? ?k] =>
      rewrite (proj2 (Z.eqb_neq (Z.land cmd1 240) k)) by lia
  end;
  cbv iota.

(** X10. A frame whose two opcode bytes are none of the two-byte opcodes
    of the [switch], whose first byte is none of the opcodes with a
    one-byte parameter and whose high nibble is none of the prefixes with
    a 12-bit parameter is ignored: the state, the reply buffer and
    [*tx_bytes] stay as they are, and the value returned is still 1. *)
Theorem handle_command_ignores_unknown (io : inputs) (rx_buffer tx_buffer : list Z)
    (burstindex tx_bytes : Z) (s : state) (cmd1 cmd2 : Z) :
  load 3 rx_buffer = Some cmd1 -> load 4 rx_buffer = Some cmd2 ->
  is_u8 cmd1 -> is_u8 cmd2 ->
  ~ In (cmd1 * 256 + cmd2) switch_opcodes ->
  ~ In cmd1 parameter_opcodes ->
  ~ In (Z.land cmd1 0xf0) prefix_opcodes ->
  handle_command io rx_buffer tx_buffer burstindex tx_bytes s =
    Some (s, tx_buffer, tx_bytes, 1).
Proof.
  intros H3 H4 Hc1 Hc2 Hsw Hpar Hpre.
  unfold handle_command. rewrite H3, H4. cbn [mbind option_bind].
  rewrite (cmd_value cmd1 cmd2) by assumption.
  unfold switch_opcodes, parameter_opcodes, prefix_opcodes in *.
  cbn [In] in Hsw, Hpar, Hpre.
  unfold CMD_GET_STATUS, CMD_UP, CMD_DOWN, CMD_UP_17, CMD_DOWN_17, CMD_STOP,
    CMD_OVERRIDE_UP_90, CMD_OVERRIDE_DOWN_90, CMD_OVERRIDE_UP_6, CMD_OVERRIDE_DOWN_6,
    CMD_SET_FULL_CURTAIN_LENGTH, CMD_SET_MAX_CURTAIN_LENGTH, CMD_RESET_CURTAIN_LENGTH,
    CMD_EXT_OVERRIDE_DOWN, CMD_EXT_GET_VERSION, CMD_EXT_DEBUG, CMD_EXT_SENSOR_DEBUG,
    CMD_EXT_GET_LOCATION, CMD_EXT_GET_STATUS, CMD_EXT_GET_LIMITS in Hsw.
  unfold CMD_EXT_SET_SPEED, CMD_EXT_SET_DEFAULT_SPEED, CMD_GO_TO,
    CMD_EXT_SET_MINIMUM_VOLTAGE, CMD_EXT_SET_AUTO_CAL, CMD_EXT_SET_SLOWDOWN_FACTOR,
    CMD_EXT_SET_MIN_SLOWDOWN_SPEED in Hpar.
  unfold CMD_EXT_GO_TO, CMD_EXT_SET_LOCATION, CMD_EXT_GO_TO_LOCATION in Hpre.
  change 0xf0 with 240 in *.
  skip_switch (cmd1 * 256 + cmd2).
  skip_parameters cmd1.
  reflexivity.
Qed.

(** X11. While [calibrating] is set, the go-to frames that take a
    percentage (opcode [0xdd] and the prefix [0x10]) are dropped: neither
    the target nor the pending command nor anything else changes, no reply
    is written, and the value returned is 1. *)
Theorem go_to_dropped_while_calibrating (io : inputs) (rx_buffer tx_buffer : list Z)
    (burstindex tx_bytes : Z) (s : state) (cmd1 cmd2 : Z) :
  load 3 rx_buffer = Some cmd1 -> load 4 rx_buffer = Some cmd2 ->
  is_u8 cmd1 -> is_u8 cmd2 ->
  cmd1 = CMD_GO_TO \/ Z.land cmd1 0xf0 = CMD_EXT_GO_TO ->
  calibrating s <> 0 ->
  handle_command io rx_buffer tx_buffer burstindex tx_bytes s =
    Some (s, tx_buffer, tx_bytes, 1).
Proof.
  intros H3 H4 Hc1 Hc2 Hop Hcal.
  unfold handle_command. rewrite H3, H4. cbn [mbind option_bind].
  rewrite (cmd_value cmd1 cmd2) by assumption.
  pose proof (high_nibble cmd1 Hc1) as Hn.
  pose proof (Z.div_mod cmd1 16 ltac:(lia)) as Hdm.
  pose proof (Z.mod_pos_bound cmd1 16 ltac:(lia)) as Hmb.
  unfold is_u8 in Hc1, Hc2. unfold CMD_GO_TO, CMD_EXT_GO_TO in Hop.
  destruct Hop as [E | E].
  - subst cmd1.
    skip_switch (0xdd * 256 + cmd2).
    unfold CMD_EXT_SET_SPEED, CMD_EXT_SET_DEFAULT_SPEED, CMD_GO_TO.
    cbn [Z.eqb Pos.eqb]. rewrite (proj2 (Z.eqb_neq _ _) Hcal). reflexivity.
  - assert (Hr : 16 <= cmd1 < 32) by lia.
    skip_switch (cmd1 * 256 + cmd2).
    skip_cases cmd1.
    rewrite E. cbn [Z.eqb Pos.eqb]. rewrite (proj2 (Z.eqb_neq _ _) Hcal). reflexivity.
Qed.

(** X12. A frame with the prefix [0x50] sets the location to twice its
    12-bit parameter, an even number from 0 to 8190, and clears
    [calibrating]; it asks for no movement (the target and the pending
    command stay) and writes nothing to the EEPROM. *)
Theorem set_location_command (io : inputs) (rx_buffer tx_buffer : list Z)
    (burstindex tx_bytes : Z) (s : state) (cmd1 cmd2 : Z) :
  load 3 rx_buffer = Some cmd1 -> load 4 rx_buffer = Some cmd2 ->
  is_u8 cmd1 -> is_u8 cmd2 ->
  Z.land cmd1 0xf0 = CMD_EXT_SET_LOCATION ->
  exists s',
    handle_command io rx_buffer tx_buffer burstindex tx_bytes s =
      Some (s', tx_buffer, tx_bytes, 1) /\
    location s' = 2 * ((cmd1 - 0x50) * 256 + cmd2) /\
    0 <= location s' <= 8190 /\
    calibrating s' = 0 /\
    target_location s' = target_location s /\ command s' = command s /\
    status s' = status s /\ eeprom s' = eeprom s.
Proof.
  intros H3 H4 Hc1 Hc2 Hop.
  unfold handle_command. rewrite H3, H4. cbn [mbind option_bind].
  rewrite (cmd_value cmd1 cmd2) by assumption.
  pose proof (high_nibble cmd1 Hc1) as Hn.
  pose proof (low_nibble cmd1 Hc1) as Hlow.
  pose proof (Z.div_mod cmd1 16 ltac:(lia)) as Hdm.
  pose proof (Z.mod_pos_bound cmd1 16 ltac:(lia)) as Hmb.
  unfold is_u8 in Hc1, Hc2. unfold CMD_EXT_SET_LOCATION in Hop.
  change 0xf0 with 240 in *. change 0x0f with 15 in *.
  assert (Hr : 80 <= cmd1 < 96) by lia.
  skip_switch (cmd1 * 256 + cmd2).
  skip_cases cmd1.
  rewrite (proj2 (Z.eqb_neq (Z.land cmd1 240) 16)) by lia.
  rewrite Hop. cbn [Z.eqb Pos.eqb].
  eexists. split; [reflexivity |]. rd.
  assert (Hloc : to_u16 (Z.shiftl (Z.shiftl (Z.land cmd1 15) 8 + cmd2) 1)
                 = 2 * ((cmd1 - 80) * 256 + cmd2)).
  { rewrite Hlow. rewrite !Z.shiftl_mul_pow2 by lia.
    change (2 ^ 8) with 256. change (2 ^ 1) with 2.
    unfold to_u16. rewrite Z.mod_small by lia. lia. }
  rewrite Hloc. split_and!; try reflexivity; lia.
Qed.
(** ** The emulated EEPROM *)

Lemma EE_Read_write_same (a v : Z) (s : state) :
  EE_ReadVariable a (EE_WriteVariable a v s) = Some (to_u16 v).
Proof.
  unfold EE_ReadVariable, EE_WriteVariable. rd. cbn [find fst].
  rewrite Z.eqb_refl. reflexivity.
Qed.

Lemma EE_Read_write_other (a b v : Z) (s : state) :
  a <> b -> EE_ReadVariable a (EE_WriteVariable b v s) = EE_ReadVariable a s.
Proof.
  intros Hab. unfold EE_ReadVariable, EE_WriteVariable. rd. cbn [find fst].
  rewrite (proj2 (Z.eqb_neq b a)) by congruence. reflexivity.
Qed.

Lemma VirtAddVarTab_inj (var var' : eeprom_var_t) :
  VirtAddVarTab var = VirtAddVarTab var' -> var = var'.
Proof. destruct var, var'; cbn; intros H; first [reflexivity | discriminate H]. Qed.

(** What a slot holds after [motor_write_setting] in the full build with
    the motor [Stopped]. *)
Lemma motor_write_setting_read (io : inputs) (var : eeprom_var_t) (value : Z) (s : state) :
  SLIM_BINARY = false -> status s = Stopped ->
  EE_ReadVariable (VirtAddVarTab var) (motor_write_setting io var value s) =
    match EE_ReadVariable (VirtAddVarTab var) s with
    | Some _ => Some (to_u16 value)
    | None => if to_u16 (indeterminate io) =? to_u16 value then None
              else Some (to_u16 value)
    end.
Proof.
  intros Hslim Hst. unfold motor_write_setting. rewrite Hslim, Hst. decide_enum.
  cbv iota zeta.
  destruct (EE_ReadVariable (VirtAddVarTab var) s) as [old |] eqn:E; cbn [default];
    match goal with |- context [?a =? ?b] => destruct (Z.eqb_spec a b) as [Heq | Hne] end;
    cbn [negb]; rewrite ?EE_Read_write_same, ?E; unfold id in *; congruence.
Qed.

Lemma motor_write_setting_read_other (io : inputs) (var var' : eeprom_var_t) (value : Z)
    (s : state) :
  var' <> var ->
  EE_ReadVariable (VirtAddVarTab var') (motor_write_setting io var value s) =
    EE_ReadVariable (VirtAddVarTab var') s.
Proof.
  intros Hne.
  destruct (motor_write_setting_cases io var value s) as [E | (_ & _ & E)]; rewrite E;
    [reflexivity |].
  apply EE_Read_write_other. intros H. apply Hne. exact (VirtAddVarTab_inj _ _ H).
Qed.

(** X13. In the full build with the motor [Stopped],
    [motor_write_setting] leaves the slot holding the value truncated to
    16 bits whenever the slot could be read before; a slot never written
    is written unless the uninitialised local [tmp] happens to equal the
    value, in which case the slot stays unreadable. The other slots keep
    what they hold, and a value equal to the stored one is not written
    again. *)
Theorem motor_write_setting_read_back (io : inputs) (var : eeprom_var_t) (value : Z)
    (s : state) :
  SLIM_BINARY = false -> status s = Stopped ->
  let s' := motor_write_setting io var value s in
  EE_ReadVariable (VirtAddVarTab var) s' =
    match EE_ReadVariable (VirtAddVarTab var) s with
    | Some _ => Some (to_u16 value)
    | None => if to_u16 (indeterminate io) =? to_u16 value then None
              else Some (to_u16 value)
    end /\
  (forall var', var' <> var ->
     EE_ReadVariable (VirtAddVarTab var') s' = EE_ReadVariable (VirtAddVarTab var') s) /\
  (EE_ReadVariable (VirtAddVarTab var) s = Some (to_u16 value) -> s' = s).
Proof.
  intros Hslim Hst. cbv zeta. split; [| split].
  - exact (motor_write_setting_read io var value s Hslim Hst).
  - intros var' Hne. exact (motor_write_setting_read_other io var var' value s Hne).
  - intros E. unfold motor_write_setting. rewrite Hslim, Hst, E. decide_enum.
    cbv iota zeta. cbn [default from_option]. unfold id. rewrite Z.eqb_refl. reflexivity.
Qed.

(** What a frame writes to the EEPROM: nothing unless the build is the
    full one and the motor is [Stopped]. *)
Lemma motor_write_setting_eeprom (io : inputs) (var : eeprom_var_t) (value : Z) (s : state) :
  SLIM_BINARY = true \/ status s <> Stopped ->
  motor_write_setting io var value s = s.
Proof.
  intros H.
  destruct (motor_write_setting_cases io var value s) as [E | (E1 & E2 & _)]; [exact E |].
  destruct H as [H | H]; congruence.
Qed.

(** X14. No frame writes to the EEPROM while the motor is not [Stopped],
    and none at all in the slim build: the log of the EEPROM after
    [handle_command] is the one before. *)
Theorem handle_command_persists_only_when_stopped (io : inputs)
    (rx_buffer tx_buffer : list Z) (burstindex tx_bytes : Z) (s s' : state)
    (tx' : list Z) (n r : Z) :
  SLIM_BINARY = true \/ status s <> Stopped ->
  handle_command io rx_buffer tx_buffer burstindex tx_bytes s = Some (s', tx', n, r) ->
  eeprom s' = eeprom s.
Proof.
  intros Hgate. unfold handle_command. intros H.
  destruct (load 3 rx_buffer) as [cmd1 |]; [| discriminate H].
  destruct (load 4 rx_buffer) as [cmd2 |]; [| discriminate H].
  cbn [mbind option_bind] in H.
  match type of H with
  | @mbind _ _ _ _ _ ?first = _ =>
      remember first as p eqn:E; symmetry in E;
      destruct p as [ [ [ [s1 tx1] n1] handled] | ]; [| discriminate H]
  end.
  assert (E1 : eeprom s1 = eeprom s /\ status s1 = status s).
  { clear H. crunch E; injection E as <- _ _ _;
      rewrite ?motor_write_setting_eeprom by (rd; exact Hgate);
      rd; rewrite ?motor_write_setting_eeprom by (rd; exact Hgate);
      split; reflexivity. }
  cbn [mbind option_bind] in H. injection H as <- _ _ _.
  destruct E1 as [E1 E2]. rewrite <- E1.
  assert (Hgate1 : SLIM_BINARY = true \/ status s1 <> Stopped) by (rewrite E2; exact Hgate).
  clear - Hgate1.
  repeat match goal with
  | |- context [if ?c then _ else _] => destruct c
  end; rd; rewrite ?motor_write_setting_eeprom by (rd; exact Hgate1); reflexivity.
Qed.

(** Running a frame whose two opcode bytes are known numbers through the
    [switch] and the chain of [if]s. *)
Ltac run_switch H3 H4 :=
  unfold handle_command; rewrite H3, H4; cbn [mbind option_bind];
  eval_eqb; cbn [orb]; cbv iota; cbn [mbind option_bind negb]; cbv iota.

Lemma DEG_TO_LOCATION_bounds (x : Z) :
  0 <= GEAR_RATIO < 2 ^ 16 -> 0 <= x <= 3600 ->
  0 <= DEG_TO_LOCATION x < 2 ^ 30.
Proof.
  intros Hg Hx. unfold DEG_TO_LOCATION.
  rewrite Z.quot_div_nonneg by nia.
  split; [apply Z.div_pos; nia |].
  apply Z.div_lt_upper_bound; nia.
Qed.

(** X15. The two steps of 17 degrees stay on the curtain: [0x0a0d] asks
    for a movement up to the location 17 degrees above, but not above
    location 0; [0x0a0e] asks for a movement down to the location 17
    degrees below, and to [max_curtain_length] when that location lies
    beyond it or, the comparison being unsigned, is negative. *)
Theorem step_17_commands (io : inputs) (rx_buffer tx_buffer : list Z)
    (burstindex tx_bytes : Z) (s : state) (cmd2 : Z) :
  load 3 rx_buffer = Some 0x0a -> load 4 rx_buffer = Some cmd2 ->
  0 <= GEAR_RATIO < 2 ^ 16 ->
  - 2 ^ 30 < location s < 2 ^ 30 -> 0 <= max_curtain_length s < 2 ^ 31 ->
  (cmd2 = 0x0d ->
     exists s',
       handle_command io rx_buffer tx_buffer burstindex tx_bytes s =
         Some (s', tx_buffer, tx_bytes, 1) /\
       command s' = MotorUp /\
       target_location s' = Z.max 0 (location s - DEG_TO_LOCATION 17)) /\
  (cmd2 = 0x0e ->
     exists s',
       handle_command io rx_buffer tx_buffer burstindex tx_bytes s =
         Some (s', tx_buffer, tx_bytes, 1) /\
       command s' = MotorDown /\
       target_location s' =
         (if (0 <=? location s + DEG_TO_LOCATION 17)
             && (location s + DEG_TO_LOCATION 17 <=? max_curtain_length s)
          then location s + DEG_TO_LOCATION 17 else max_curtain_length s) /\
       0 <= target_location s' <= max_curtain_length s).
Proof.
  intros H3 H4 Hg Hl Hmax.
  pose proof (DEG_TO_LOCATION_bounds 17 Hg ltac:(lia)) as Hd.
  set (D := DEG_TO_LOCATION 17) in *.
  split; intros ->.
  - run_switch H3 H4. fold D.
    eexists. split; [reflexivity |]. rd.
    unfold sub_i32. rewrite to_i32_id by (unfold is_i32; lia).
    destruct (Z.ltb_spec (location s - D) 0); rd; split; try reflexivity; lia.
  - run_switch H3 H4. fold D.
    eexists. split; [reflexivity |]. rd.
    unfold add_i32. rewrite (to_i32_id (location s + D)) by (unfold is_i32; lia).
    rewrite (to_i32_id (max_curtain_length s)) by (unfold is_i32; lia).
    assert (Hu : to_u32 (location s + D) =
                 if 0 <=? location s + D then location s + D
                 else 2 ^ 32 + (location s + D)).
    { unfold to_u32. destruct (Z.leb_spec 0 (location s + D)).
      - apply Z.mod_small. lia.
      - symmetry. apply (Z.mod_unique _ _ (-1)); lia. }
    rewrite Hu.
    destruct (Z.leb_spec 0 (location s + D));
      destruct (Z.leb_spec (location s + D) (max_curtain_length s));
      cbn [andb];
      match goal with
      | |- context [?a >? ?b] => destruct (Z.gtb_spec a b)
      end; rd; split_and!; try reflexivity; lia.
Qed.
Lemma motor_write_setting_status (io : inputs) (var : eeprom_var_t) (value : Z) (s : state) :
  status (motor_write_setting io var value s) = status s.
Proof.
  destruct (motor_write_setting_cases io var value s) as [E | (_ & _ & E)]; rewrite E;
    reflexivity.
Qed.

(** A slot that could be read holds the value after the write. *)
Lemma motor_write_setting_stored (io : inputs) (var : eeprom_var_t) (value : Z) (s : state) :
  SLIM_BINARY = false -> status s = Stopped ->
  is_Some (EE_ReadVariable (VirtAddVarTab var) s) ->
  EE_ReadVariable (VirtAddVarTab var) (motor_write_setting io var value s)
    = Some (to_u16 value).
Proof.
  intros Hslim Hst [old E].
  rewrite motor_write_setting_read by assumption. rewrite E. reflexivity.
Qed.

Lemma EE_Read_set_full_curtain_length (a v : Z) (s : state) :
  EE_ReadVariable a (set_full_curtain_length v s) = EE_ReadVariable a s.
Proof. reflexivity. Qed.

Lemma EE_Read_set_max_curtain_length (a v : Z) (s : state) :
  EE_ReadVariable a (set_max_curtain_length v s) = EE_ReadVariable a s.
Proof. reflexivity. Qed.

(** Reading a field through updates and calls of
    [motor_write_setting]. *)
Ltac through_writes := repeat (rd; write_setting_cases); rd.

(** X16. The three frames on the length of the curtain. [0xfacc] sets
    the full length to the location and, its [case] having no [break],
    the maximum length too; [0xfaee] sets the maximum length only;
    [0xfa00] sets the maximum length back to the full length and sets
    [calibrating]. The lengths in memory take the location as a 32-bit
    unsigned number; in the full build with the motor [Stopped], the slots
    written, if they could be read before, hold its low 16 bits. *)
Theorem curtain_length_commands (io : inputs) (rx_buffer tx_buffer : list Z)
    (burstindex tx_bytes : Z) (s : state) (cmd2 : Z) :
  load 3 rx_buffer = Some 0xfa -> load 4 rx_buffer = Some cmd2 ->
  (cmd2 = 0xcc ->
     exists s',
       handle_command io rx_buffer tx_buffer burstindex tx_bytes s =
         Some (s', tx_buffer, tx_bytes, 1) /\
       full_curtain_length s' = to_u32 (location s) /\
       max_curtain_length s' = to_u32 (location s) /\
       calibrating s' = calibrating s /\
       (SLIM_BINARY = false -> status s = Stopped ->
        is_Some (EE_ReadVariable (VirtAddVarTab FULL_CURTAIN_LEN_EEPROM) s) ->
        is_Some (EE_ReadVariable (VirtAddVarTab MAX_CURTAIN_LEN_EEPROM) s) ->
        EE_ReadVariable (VirtAddVarTab FULL_CURTAIN_LEN_EEPROM) s'
          = Some (to_u16 (location s)) /\
        EE_ReadVariable (VirtAddVarTab MAX_CURTAIN_LEN_EEPROM) s'
          = Some (to_u16 (location s)))) /\
  (cmd2 = 0xee ->
     exists s',
       handle_command io rx_buffer tx_buffer burstindex tx_bytes s =
         Some (s', tx_buffer, tx_bytes, 1) /\
       full_curtain_length s' = full_curtain_length s /\
       max_curtain_length s' = to_u32 (location s) /\
       calibrating s' = calibrating s /\
       EE_ReadVariable (VirtAddVarTab FULL_CURTAIN_LEN_EEPROM) s'
         = EE_ReadVariable (VirtAddVarTab FULL_CURTAIN_LEN_EEPROM) s /\
       (SLIM_BINARY = false -> status s = Stopped ->
        is_Some (EE_ReadVariable (VirtAddVarTab MAX_CURTAIN_LEN_EEPROM) s) ->
        EE_ReadVariable (VirtAddVarTab MAX_CURTAIN_LEN_EEPROM) s'
          = Some (to_u16 (location s)))) /\
  (cmd2 = 0x00 ->
     exists s',
       handle_command io rx_buffer tx_buffer burstindex tx_bytes s =
         Some (s', tx_buffer, tx_bytes, 1) /\
       full_curtain_length s' = full_curtain_length s /\
       max_curtain_length s' = full_curtain_length s /\
       calibrating s' = 1 /\ location s' = location s /\ command s' = command s /\
       (SLIM_BINARY = false -> status s = Stopped ->
        is_Some (EE_ReadVariable (VirtAddVarTab MAX_CURTAIN_LEN_EEPROM) s) ->
        EE_ReadVariable (VirtAddVarTab MAX_CURTAIN_LEN_EEPROM) s'
          = Some (to_u16 (full_curtain_length s)))).
Proof.
  intros H3 H4. split; [| split]; intros ->; run_switch H3 H4;
    eexists; (split; [reflexivity |]).
  - assert (Hloc : location (set_full_curtain_length (to_u32 (location s))
                               (motor_write_setting io FULL_CURTAIN_LEN_EEPROM
                                  (location s) s)) = location s)
      by (rd; write_setting_cases; reflexivity).
    rewrite Hloc.
    split; [through_writes; reflexivity |]. split; [reflexivity |].
    split; [through_writes; reflexivity |].
    intros Hslim Hst Hfull Hmax.
    rewrite !EE_Read_set_max_curtain_length. split.
    + rewrite motor_write_setting_read_other by discriminate.
      rewrite EE_Read_set_full_curtain_length.
      apply motor_write_setting_stored; assumption.
    + apply motor_write_setting_stored; [assumption | |].
      * rd. rewrite motor_write_setting_status. exact Hst.
      * rewrite EE_Read_set_full_curtain_length.
        rewrite motor_write_setting_read_other by discriminate. exact Hmax.
  - split; [through_writes; reflexivity |].
    split; [reflexivity |].
    split; [through_writes; reflexivity |].
    rewrite !EE_Read_set_max_curtain_length. split.
    + apply motor_write_setting_read_other. discriminate.
    + intros Hslim Hst Hmax. apply motor_write_setting_stored; assumption.
  - split; [through_writes; reflexivity |].
    split; [through_writes; reflexivity |].
    split; [reflexivity |].
    split; [through_writes; reflexivity |].
    split; [through_writes; reflexivity |].
    intros Hslim Hst Hmax.
    change (EE_ReadVariable ?a (set_calibrating ?v ?x)) with (EE_ReadVariable a x).
    rewrite !EE_Read_set_max_curtain_length.
    apply motor_write_setting_stored; assumption.
Qed.
(** ** Positions in per cent *)

Lemma position100_above_100 (c : Z) (s : state) :
  is_u8 c -> 100 < c ->
  position100_to_location (f32.of_Z c) s = max_curtain_length s.
Proof.
  intros Hc Hbig. unfold position100_to_location.
  assert (H : (c <=? 100) || f32.gtb (f32.of_Z c) (f32.of_Z 100) = true).
  { apply (u8_all (fun c => (c <=? 100) || f32.gtb (f32.of_Z c) (f32.of_Z 100)));
      [vm_compute; reflexivity | exact Hc]. }
  destruct (Z.leb_spec c 100); [lia |]. cbn [orb] in H. rewrite H. reflexivity.
Qed.

Lemma position100_zero (s : state) : position100_to_location (f32.of_Z 0) s = 0.
Proof.
  unfold position100_to_location.
  change (f32.gtb (f32.of_Z 0) (f32.of_Z 100)) with false. cbv iota.
  destruct (f32.of_Z (max_curtain_length s)) as [sg | sg | | sg m e];
    try destruct sg; reflexivity.
Qed.

(** X17. The go-to frame [0xdd] with a percentage above 100 targets
    [max_curtain_length], the bottom limit, and with 0 the location 0; in
    both cases [MotorUp] is enqueued when the target is above the current
    location and [MotorDown] otherwise. *)
Theorem go_to_percent_clamped (io : inputs) (rx_buffer tx_buffer : list Z)
    (burstindex tx_bytes : Z) (s : state) (cmd2 : Z) :
  load 3 rx_buffer = Some CMD_GO_TO -> load 4 rx_buffer = Some cmd2 ->
  is_u8 cmd2 -> calibrating s = 0 ->
  exists s',
    handle_command io rx_buffer tx_buffer burstindex tx_bytes s =
      Some (s', tx_buffer, tx_bytes, 1) /\
    (100 < cmd2 -> target_location s' = to_i32 (max_curtain_length s)) /\
    (cmd2 = 0 -> target_location s' = 0) /\
    (command s' = MotorUp <-> target_location s' < location s) /\
    (command s' = MotorDown <-> location s <= target_location s').
Proof.
  intros H3 H4 Hc2 Hcal.
  rewrite (handle_command_go_to io rx_buffer tx_buffer burstindex tx_bytes s CMD_GO_TO cmd2);
    [| assumption | assumption | unfold is_u8, CMD_GO_TO; lia | assumption
     | left; split; [reflexivity | assumption]].
  eexists. split; [reflexivity |].
  destruct (go_to_command (go_to_target CMD_GO_TO cmd2 s) s) as (Et & El & Hup & Hdown).
  rewrite Et.
  assert (Eg : go_to_target CMD_GO_TO cmd2 s
               = to_i32 (position100_to_location (f32.of_Z cmd2) s)) by reflexivity.
  rewrite Eg in *.
  split; [| split; [| split; assumption]].
  - intros Hbig. rewrite position100_above_100 by assumption. reflexivity.
  - intros ->. rewrite position100_zero. reflexivity.
Qed.

(** X18. The position byte of the reply to [0xcccc]: 50 while
    [calibrating] is set, whatever the location; otherwise 0 for a
    negative location and 100 for a location beyond [max_curtain_length].
    The reply leaves the state as it is and has 8 bytes. *)
Theorem status_reply_position (io : inputs) (rx_buffer tx_buffer : list Z)
    (burstindex tx_bytes : Z) (s : state) :
  0 < GEAR_RATIO -> typed s ->
  load 3 rx_buffer = Some 0xcc -> load 4 rx_buffer = Some 0xcc ->
  (9 <= length tx_buffer)%nat ->
  exists tx',
    handle_command io rx_buffer tx_buffer burstindex tx_bytes s = Some (s, tx', 8, 1) /\
    tx' !! 2%nat = Some 0xd8 /\
    (calibrating s <> 0 -> tx' !! 6%nat = Some 50) /\
    (calibrating s = 0 -> location s < 0 -> tx' !! 6%nat = Some 0) /\
    (calibrating s = 0 -> 0 <= location s -> max_curtain_length s < location s ->
     tx' !! 6%nat = Some 100).
Proof.
  intros Hg Hty H3 H4 Hlen.
  pose proof (typed_hall_sensor_1_interval s Hty) as Hint. unfold is_u32 in Hint.
  pose proof (typed_location s Hty) as Hloc. unfold is_i32 in Hloc.
  run_switch H3 H4.
  rewrite (get_rpm_Some s) by lia.
  do 9 (destruct tx_buffer as [| ? tx_buffer]; [cbn [length] in Hlen; lia |]).
  clear Hlen. run_reply.
  eexists. split; [reflexivity |].
  cbn [lookup list_lookup].
  split; [reflexivity |].
  unfold location_to_position100.
  split; [| split].
  - intros Hcal. rewrite (proj2 (Z.eqb_neq _ _) Hcal). reflexivity.
  - intros Hcal Hneg. rewrite Hcal. cbn [Z.eqb negb].
    destruct (Z.ltb_spec (location s) 0); [reflexivity | lia].
  - intros Hcal Hpos Hbig. rewrite Hcal. cbn [Z.eqb negb].
    destruct (Z.ltb_spec (location s) 0); [lia |].
    rewrite to_u32_id by (unfold is_u32; lia).
    destruct (Z.gtb_spec (location s) (max_curtain_length s)); [reflexivity | lia].
Qed.
(** ** [motor_load_settings] *)

Lemma EE_Read_eeprom (a : Z) (s1 s2 : state) :
  eeprom s1 = eeprom s2 -> EE_ReadVariable a s1 = EE_ReadVariable a s2.
Proof. unfold EE_ReadVariable. intros ->. reflexivity. Qed.

Lemma to_u16_idem (x : Z) : to_u16 (to_u16 x) = to_u16 x.
Proof. unfold to_u16. apply Z.mod_mod. lia. Qed.

(** Each step reads its slot and, when the read fails, writes the
    default to a slot: the step of the maximum length to the slot of the
    full length, every other step to its own. *)
Lemma load_max_curtain_length_read (var : eeprom_var_t) (s : state) :
  var <> FULL_CURTAIN_LEN_EEPROM ->
  EE_ReadVariable (VirtAddVarTab var) (load_max_curtain_length s)
    = EE_ReadVariable (VirtAddVarTab var) s.
Proof.
  intros Hne. unfold load_max_curtain_length.
  destruct (EE_ReadVariable (VirtAddVarTab MAX_CURTAIN_LEN_EEPROM) s); [reflexivity |].
  cbv zeta. rewrite EE_Read_write_other; [reflexivity |].
  intros H. apply Hne. exact (VirtAddVarTab_inj _ _ H).
Qed.

Lemma load_full_curtain_length_read (var : eeprom_var_t) (s : state) :
  var <> FULL_CURTAIN_LEN_EEPROM ->
  EE_ReadVariable (VirtAddVarTab var) (load_full_curtain_length s)
    = EE_ReadVariable (VirtAddVarTab var) s.
Proof.
  intros Hne. unfold load_full_curtain_length.
  destruct (EE_ReadVariable (VirtAddVarTab FULL_CURTAIN_LEN_EEPROM) s); [reflexivity |].
  cbv zeta. rewrite EE_Read_write_other; [reflexivity |].
  intros H. apply Hne. exact (VirtAddVarTab_inj _ _ H).
Qed.

Lemma load_minimum_voltage_read (var : eeprom_var_t) (s : state) :
  var <> MINIMUM_VOLTAGE_EEPROM ->
  EE_ReadVariable (VirtAddVarTab var) (load_minimum_voltage s)
    = EE_ReadVariable (VirtAddVarTab var) s.
Proof.
  intros Hne. unfold load_minimum_voltage.
  destruct (EE_ReadVariable (VirtAddVarTab MINIMUM_VOLTAGE_EEPROM) s); [reflexivity |].
  cbv zeta. rewrite EE_Read_write_other; [reflexivity |].
  intros H. apply Hne. exact (VirtAddVarTab_inj _ _ H).
Qed.

Lemma load_default_speed_read (var : eeprom_var_t) (s : state) :
  var <> DEFAULT_SPEED_EEPROM ->
  EE_ReadVariable (VirtAddVarTab var) (load_default_speed s)
    = EE_ReadVariable (VirtAddVarTab var) s.
Proof.
  intros Hne. unfold load_default_speed.
  destruct (EE_ReadVariable (VirtAddVarTab DEFAULT_SPEED_EEPROM) s); [reflexivity |].
  cbv zeta. rewrite EE_Read_write_other; [reflexivity |].
  intros H. apply Hne. exact (VirtAddVarTab_inj _ _ H).
Qed.

Lemma load_auto_calibration_read (var : eeprom_var_t) (s : state) :
  var <> AUTO_CAL_EEPROM ->
  EE_ReadVariable (VirtAddVarTab var) (load_auto_calibration s)
    = EE_ReadVariable (VirtAddVarTab var) s.
Proof.
  intros Hne. unfold load_auto_calibration.
  destruct (EE_ReadVariable (VirtAddVarTab AUTO_CAL_EEPROM) s); [reflexivity |].
  cbv zeta. rewrite EE_Read_write_other; [reflexivity |].
  intros H. apply Hne. exact (VirtAddVarTab_inj _ _ H).
Qed.

(** The fields a step leaves. *)
Lemma load_full_curtain_length_frame (s : state) :
  max_curtain_length (load_full_curtain_length s) = max_curtain_length s.
Proof.
  unfold load_full_curtain_length.
  destruct (EE_ReadVariable _ s); reflexivity.
Qed.

Lemma load_minimum_voltage_frame (s : state) :
  max_curtain_length (load_minimum_voltage s) = max_curtain_length s /\
  full_curtain_length (load_minimum_voltage s) = full_curtain_length s.
Proof.
  unfold load_minimum_voltage.
  destruct (EE_ReadVariable _ s); split; reflexivity.
Qed.

Lemma load_default_speed_frame (s : state) :
  max_curtain_length (load_default_speed s) = max_curtain_length s /\
  full_curtain_length (load_default_speed s) = full_curtain_length s /\
  minimum_voltage (load_default_speed s) = minimum_voltage s.
Proof.
  unfold load_default_speed.
  destruct (EE_ReadVariable _ s); repeat split.
Qed.

Lemma load_auto_calibration_frame (s : state) :
  max_curtain_length (load_auto_calibration s) = max_curtain_length s /\
  full_curtain_length (load_auto_calibration s) = full_curtain_length s /\
  minimum_voltage (load_auto_calibration s) = minimum_voltage s /\
  default_speed (load_auto_calibration s) = default_speed s.
Proof.
  unfold load_auto_calibration.
  destruct (EE_ReadVariable _ s); repeat split.
Qed.

(** The value each step leaves in its global. *)
Lemma load_max_curtain_length_value (s : state) :
  max_curtain_length (load_max_curtain_length s) =
    default (to_u32 DEFAULT_FULL_CURTAIN_LEN)
      (EE_ReadVariable (VirtAddVarTab MAX_CURTAIN_LEN_EEPROM) s).
Proof.
  unfold load_max_curtain_length. destruct (EE_ReadVariable _ s); reflexivity.
Qed.

Lemma load_full_curtain_length_value (s : state) :
  full_curtain_length (load_full_curtain_length s) =
    default (to_u32 DEFAULT_FULL_CURTAIN_LEN)
      (EE_ReadVariable (VirtAddVarTab FULL_CURTAIN_LEN_EEPROM) s).
Proof.
  unfold load_full_curtain_length. destruct (EE_ReadVariable _ s); reflexivity.
Qed.

Lemma load_minimum_voltage_value (s : state) :
  minimum_voltage (load_minimum_voltage s) =
    default (to_u16 DEFAULT_MINIMUM_VOLTAGE)
      (EE_ReadVariable (VirtAddVarTab MINIMUM_VOLTAGE_EEPROM) s).
Proof.
  unfold load_minimum_voltage. destruct (EE_ReadVariable _ s); reflexivity.
Qed.

Lemma load_default_speed_value (s : state) :
  default_speed (load_default_speed s) =
    default (to_u8 DEFAULT_TARGET_SPEED)
      (to_u8 <$> EE_ReadVariable (VirtAddVarTab DEFAULT_SPEED_EEPROM) s).
Proof.
  unfold load_default_speed. destruct (EE_ReadVariable _ s); reflexivity.
Qed.

Lemma load_auto_calibration_value (s : state) :
  auto_calibration (load_auto_calibration s) =
    default (to_u8 DEFAULT_AUTO_CAL_SETTING)
      (to_u8 <$> EE_ReadVariable (VirtAddVarTab AUTO_CAL_EEPROM) s).
Proof.
  unfold load_auto_calibration. destruct (EE_ReadVariable _ s); reflexivity.
Qed.

(** The default speed [motor_load_settings] leaves: the stored one, or
    the default. *)
Lemma motor_load_settings_default_speed (s : state) :
  default_speed (motor_load_settings s) =
    default (to_u8 DEFAULT_TARGET_SPEED)
      (to_u8 <$> EE_ReadVariable (VirtAddVarTab DEFAULT_SPEED_EEPROM) s).
Proof.
  unfold motor_load_settings.
  destruct (load_auto_calibration_frame
              (load_default_speed
                 (load_minimum_voltage
                    (load_full_curtain_length (load_max_curtain_length s)))))
    as (_ & _ & _ & E).
  rewrite E, load_default_speed_value.
  rewrite load_minimum_voltage_read, load_full_curtain_length_read,
    load_max_curtain_length_read by discriminate.
  reflexivity.
Qed.

(** X19. With the five slots readable, [motor_load_settings] copies
    what they hold into the globals, the default speed and the automatic
    calibration truncated to a byte, and writes nothing. A global whose
    slot is unreadable takes the default of the build; for the full
    length this holds as long as the slot of the maximum length can be
    read. *)
Theorem motor_load_settings_restores (s : state) :
  let s' := motor_load_settings s in
  let stored var := EE_ReadVariable (VirtAddVarTab var) s in
  max_curtain_length s' =
    default (to_u32 DEFAULT_FULL_CURTAIN_LEN) (stored MAX_CURTAIN_LEN_EEPROM) /\
  (is_Some (stored MAX_CURTAIN_LEN_EEPROM) ->
   full_curtain_length s' =
     default (to_u32 DEFAULT_FULL_CURTAIN_LEN) (stored FULL_CURTAIN_LEN_EEPROM)) /\
  minimum_voltage s' =
    default (to_u16 DEFAULT_MINIMUM_VOLTAGE) (stored MINIMUM_VOLTAGE_EEPROM) /\
  default_speed s' =
    default (to_u8 DEFAULT_TARGET_SPEED) (to_u8 <$> stored DEFAULT_SPEED_EEPROM) /\
  auto_calibration s' =
    default (to_u8 DEFAULT_AUTO_CAL_SETTING) (to_u8 <$> stored AUTO_CAL_EEPROM) /\
  (is_Some (stored MAX_CURTAIN_LEN_EEPROM) -> is_Some (stored FULL_CURTAIN_LEN_EEPROM) ->
   is_Some (stored MINIMUM_VOLTAGE_EEPROM) -> is_Some (stored DEFAULT_SPEED_EEPROM) ->
   is_Some (stored AUTO_CAL_EEPROM) -> eeprom s' = eeprom s).
Proof.
  cbv zeta. split_and!.
  - unfold motor_load_settings.
    destruct (load_auto_calibration_frame
                (load_default_speed
                   (load_minimum_voltage
                      (load_full_curtain_length (load_max_curtain_length s)))))
      as (E & _).
    rewrite E.
    destruct (load_default_speed_frame
                (load_minimum_voltage
                   (load_full_curtain_length (load_max_curtain_length s))))
      as (E1 & _).
    rewrite E1.
    destruct (load_minimum_voltage_frame
                (load_full_curtain_length (load_max_curtain_length s))) as (E2 & _).
    rewrite E2, load_full_curtain_length_frame. apply load_max_curtain_length_value.
  - intros [vmax Hmax]. unfold motor_load_settings.
    destruct (load_auto_calibration_frame
                (load_default_speed
                   (load_minimum_voltage
                      (load_full_curtain_length (load_max_curtain_length s)))))
      as (_ & E & _).
    rewrite E.
    destruct (load_default_speed_frame
                (load_minimum_voltage
                   (load_full_curtain_length (load_max_curtain_length s))))
      as (_ & E1 & _).
    rewrite E1.
    destruct (load_minimum_voltage_frame
                (load_full_curtain_length (load_max_curtain_length s))) as (_ & E2).
    rewrite E2, load_full_curtain_length_value.
    unfold load_max_curtain_length. rewrite Hmax. reflexivity.
  - unfold motor_load_settings.
    destruct (load_auto_calibration_frame
                (load_default_speed
                   (load_minimum_voltage
                      (load_full_curtain_length (load_max_curtain_length s)))))
      as (_ & _ & E & _).
    rewrite E.
    destruct (load_default_speed_frame
                (load_minimum_voltage
                   (load_full_curtain_length (load_max_curtain_length s))))
      as (_ & _ & E1).
    rewrite E1, load_minimum_voltage_value.
    rewrite load_full_curtain_length_read, load_max_curtain_length_read by discriminate.
    reflexivity.
  - apply motor_load_settings_default_speed.
  - unfold motor_load_settings. rewrite load_auto_calibration_value.
    rewrite load_default_speed_read, load_minimum_voltage_read,
      load_full_curtain_length_read, load_max_curtain_length_read by discriminate.
    reflexivity.
  - intros [v1 H1] [v2 H2] [v3 H3] [v4 H4] [v5 H5].
    unfold motor_load_settings.
    unfold load_max_curtain_length at 1. rewrite H1.
    unfold load_full_curtain_length at 1.
    rewrite (EE_Read_eeprom _ (set_max_curtain_length v1 s) s) by reflexivity. rewrite H2.
    unfold load_minimum_voltage at 1.
    rewrite (EE_Read_eeprom _ (set_full_curtain_length v2 _) s) by reflexivity. rewrite H3.
    unfold load_default_speed at 1.
    rewrite (EE_Read_eeprom _ (set_minimum_voltage v3 _) s) by reflexivity. rewrite H4.
    unfold load_auto_calibration at 1.
    rewrite (EE_Read_eeprom _ (set_default_speed (to_u8 v4) _) s) by reflexivity. rewrite H5.
    reflexivity.
Qed.

(** What [motor_load_settings] does when the slot of the maximum length
    cannot be read. *)
Lemma motor_load_settings_without_max_slot_facts (s : state) :
  EE_ReadVariable (VirtAddVarTab MAX_CURTAIN_LEN_EEPROM) s = None ->
  let s' := motor_load_settings s in
  max_curtain_length s' = to_u32 DEFAULT_FULL_CURTAIN_LEN /\
  full_curtain_length s' = to_u16 (to_u32 DEFAULT_FULL_CURTAIN_LEN) /\
  EE_ReadVariable (VirtAddVarTab FULL_CURTAIN_LEN_EEPROM) s'
    = Some (to_u16 (to_u32 DEFAULT_FULL_CURTAIN_LEN)) /\
  EE_ReadVariable (VirtAddVarTab MAX_CURTAIN_LEN_EEPROM) s' = None.
Proof.
  intros Hmax. cbv zeta.
  set (D := to_u32 DEFAULT_FULL_CURTAIN_LEN).
  assert (E1 : load_max_curtain_length s =
               EE_WriteVariable (VirtAddVarTab FULL_CURTAIN_LEN_EEPROM) (to_u16 D)
                 (set_max_curtain_length D s)).
  { unfold load_max_curtain_length. rewrite Hmax. reflexivity. }
  assert (R1 : EE_ReadVariable (VirtAddVarTab FULL_CURTAIN_LEN_EEPROM)
                 (load_max_curtain_length s) = Some (to_u16 D)).
  { rewrite E1, EE_Read_write_same. rewrite to_u16_idem. reflexivity. }
  assert (E2 : load_full_curtain_length (load_max_curtain_length s) =
               set_full_curtain_length (to_u16 D) (load_max_curtain_length s)).
  { unfold load_full_curtain_length. rewrite R1. reflexivity. }
  unfold motor_load_settings.
  set (s2 := load_full_curtain_length (load_max_curtain_length s)) in *.
  assert (F2 : max_curtain_length s2 = D /\ full_curtain_length s2 = to_u16 D /\
               EE_ReadVariable (VirtAddVarTab FULL_CURTAIN_LEN_EEPROM) s2 = Some (to_u16 D) /\
               EE_ReadVariable (VirtAddVarTab MAX_CURTAIN_LEN_EEPROM) s2 = None).
  { rewrite E2. split; [rewrite E1; reflexivity |]. split; [reflexivity |].
    rewrite !EE_Read_set_full_curtain_length. split; [exact R1 |].
    rewrite load_max_curtain_length_read by discriminate. exact Hmax. }
  destruct F2 as (M2 & L2 & RF2 & RM2).
  destruct (load_auto_calibration_frame
              (load_default_speed (load_minimum_voltage s2))) as (A1 & A2 & _).
  destruct (load_default_speed_frame (load_minimum_voltage s2)) as (B1 & B2 & _).
  destruct (load_minimum_voltage_frame s2) as (C1 & C2).
  rewrite A1, A2, B1, B2, C1, C2.
  rewrite !load_auto_calibration_read, !load_default_speed_read,
    !load_minimum_voltage_read by discriminate.
  split_and!; assumption.
Qed.

(** X20. With the slot of the maximum length unreadable,
    [motor_load_settings] writes the default length to the slot of the
    full length, not to the one of the maximum length: afterwards the
    maximum length in memory is the default, the full length is what the
    slot of the full length now holds, the low 16 bits of the default,
    whatever it held before, and the slot of the maximum length is still
    unreadable. *)
Theorem motor_load_settings_without_max_slot (s : state) :
  EE_ReadVariable (VirtAddVarTab MAX_CURTAIN_LEN_EEPROM) s = None ->
  let s' := motor_load_settings s in
  max_curtain_length s' = to_u32 DEFAULT_FULL_CURTAIN_LEN /\
  full_curtain_length s' = to_u16 (to_u32 DEFAULT_FULL_CURTAIN_LEN) /\
  EE_ReadVariable (VirtAddVarTab FULL_CURTAIN_LEN_EEPROM) s'
    = Some (to_u16 (to_u32 DEFAULT_FULL_CURTAIN_LEN)) /\
  EE_ReadVariable (VirtAddVarTab MAX_CURTAIN_LEN_EEPROM) s' = None.
Proof. exact (motor_load_settings_without_max_slot_facts s). Qed.

(** X21. A default speed set by a frame [0x30] survives the next
    power-on only if the motor was [Stopped] when the frame arrived: the
    frame sets [default_speed] in either case, but after
    [motor_load_settings] the default speed is the new one when the frame
    came with the motor [Stopped], and the one stored before when it came
    in any other status. *)
Theorem default_speed_survives_reboot (io : inputs) (rx_buffer tx_buffer : list Z)
    (burstindex tx_bytes : Z) (s : state) (cmd2 old : Z) :
  load 3 rx_buffer = Some CMD_EXT_SET_DEFAULT_SPEED -> load 4 rx_buffer = Some cmd2 ->
  is_u8 cmd2 -> 0 < cmd2 -> SLIM_BINARY = false ->
  EE_ReadVariable (VirtAddVarTab DEFAULT_SPEED_EEPROM) s = Some old ->
  exists s',
    handle_command io rx_buffer tx_buffer burstindex tx_bytes s =
      Some (s', tx_buffer, tx_bytes, 1) /\
    default_speed s' = cmd2 /\
    (status s = Stopped -> default_speed (motor_load_settings s') = cmd2) /\
    (status s <> Stopped -> default_speed (motor_load_settings s') = to_u8 old).
Proof.
  intros H3 H4 Hc2 Hpos Hslim Hold. unfold CMD_EXT_SET_DEFAULT_SPEED in H3.
  unfold handle_command. rewrite H3, H4. cbn [mbind option_bind].
  rewrite (cmd_value 0x30 cmd2) by (assumption || (unfold is_u8; lia)).
  unfold is_u8 in Hc2.
  skip_switch (0x30 * 256 + cmd2).
  unfold CMD_EXT_SET_SPEED, CMD_EXT_SET_DEFAULT_SPEED. cbn [Z.eqb Pos.eqb].
  destruct (Z.gtb_spec cmd2 0); [| lia].
  eexists. split; [reflexivity |]. split; [reflexivity |].
  rewrite motor_load_settings_default_speed.
  change (EE_ReadVariable ?a (set_default_speed ?v ?x)) with (EE_ReadVariable a x).
  split.
  - intros Hst.
    rewrite motor_write_setting_stored by (assumption || (rewrite Hold; eexists; reflexivity)).
    cbn [fmap option_fmap option_map default from_option]. unfold id.
    unfold to_u16, to_u8. rewrite (Z.mod_small cmd2 (2 ^ 16)) by lia.
    apply Z.mod_small. lia.
  - intros Hst.
    rewrite motor_write_setting_eeprom by (right; exact Hst).
    rewrite Hold. reflexivity.
Qed.
(** ** Approaching a target *)

Lemma approaching_step (d : motor_direction) (L T : Z) (s : state) :
  approaching d L T s -> - 2 ^ 30 < L < 2 ^ 30 -> - 2 ^ 30 < T < 2 ^ 30 ->
  continues d L T ->
  exists s',
    process_location d s = Some (s', 0) /\ approaching d (L + tick d) T s' /\
    (status s' = status s \/ status s' = Stopping) /\ curr_pwm s' = curr_pwm s.
Proof.
  intros (Hl & Ht & Hd & Hc & Hts & Hsf & Hms) HL HT Hcont.
  rewrite process_location_refines
    by (assumption || (unfold operating_range; rewrite Hl, Ht; lia)).
  unfold process_location_spec. rewrite Hc. cbn [Z.eqb]. cbv zeta.
  assert (Hns : stops_at_target d (moved d s) = false).
  { unfold stops_at_target. destruct d; [reflexivity | |]; cbn [moved]; rd;
      rewrite Hl, Ht; cbn [continues] in Hcont.
    - destruct Hcont as [E | E].
      + rewrite E. cbn [Z.eqb negb]. rewrite andb_false_r. reflexivity.
      + destruct (Z.leb_spec (L - 1 - 1) T); [lia |]. rewrite andb_false_r. reflexivity.
    - destruct (Z.geb_spec (L + 1 + 1) T); [lia |]. rewrite andb_false_r. reflexivity. }
  rewrite Hns.
  exists (slowdown (moved d s)). split; [reflexivity |].
  destruct (slowdown_frame (moved d s)) as (El & Et & Ed & Ec & Esf & Ems).
  destruct (moved_frame d s) as (Mts & Msf & Mms & Mt & Md & Mc & Mst).
  pose proof (moved_location d s) as Ml.
  split; [| split].
  - unfold approaching. rewrite El, Et, Ed, Ec, Esf, Ems, Mt, Md, Mc, Msf, Mms, Ml, Hl.
    split_and!; try assumption.
    + destruct d; cbn [tick]; lia.
    + pose proof (slowdown_target_speed (moved d s)) as H.
      rewrite Mts, Msf, Mms in H. specialize (H Hts Hsf Hms).
      unfold is_u8 in *. lia.
  - destruct (slowdown_status (moved d s)) as [E | E]; rewrite E;
      [right; reflexivity | left; exact Mst].
  - unfold slowdown.
    repeat match goal with
    | |- context [if ?c then _ else _] => destruct c
    | _ => progress cbv zeta
    end; destruct d; reflexivity.
Qed.

Lemma approaching_edges (d : motor_direction) (T : Z) (n : nat) (L : Z) (s : state) :
  approaching d L T s -> - 2 ^ 30 < T < 2 ^ 30 ->
  (forall k, 0 <= k < Z.of_nat n -> - 2 ^ 30 < L + tick d * k < 2 ^ 30) ->
  (forall k, 0 <= k < Z.of_nat n -> continues d (L + tick d * k) T) ->
  exists s',
    feed_edges d n s = Some (s', repeat 0 n) /\
    approaching d (L + tick d * Z.of_nat n) T s' /\
    (status s' = status s \/ status s' = Stopping) /\ curr_pwm s' = curr_pwm s.
Proof.
  intros Happ HT Hrange Hcont. induction n as [| n IH].
  - exists s. split; [reflexivity |]. split; [| split; [left |]; reflexivity].
    replace (L + tick d * Z.of_nat 0) with L by lia. exact Happ.
  - destruct IH as (s1 & Hrun & Hinv & Hst & Hpw).
    { intros k Hk. apply Hrange. lia. }
    { intros k Hk. apply Hcont. lia. }
    destruct (approaching_step d (L + tick d * Z.of_nat n) T s1) as (s2 & Hstep & Hinv2 & Hst2 & Hpw2).
    + exact Hinv.
    + apply Hrange. lia.
    + exact HT.
    + apply Hcont. lia.
    + exists s2. split; [| split; [| split]].
      * rewrite feed_edges_S, Hrun. cbn [mbind option_bind].
        rewrite Hstep. cbn [mbind option_bind].
        rewrite <- repeat_cons. reflexivity.
      * replace (L + tick d * Z.of_nat (S n)) with (L + tick d * Z.of_nat n + tick d)
          by lia.
        exact Hinv2.
      * destruct Hst2 as [E | E]; [rewrite E; exact Hst | right; exact E].
      * congruence.
Qed.

(** The edge that reaches the location next to the target stops the
    motor. *)
Lemma approaching_stop (d : motor_direction) (L T : Z) (s : state) :
  approaching d L T s -> - 2 ^ 30 < L < 2 ^ 30 -> - 2 ^ 30 < T < 2 ^ 30 ->
  (d = Up /\ T <> -1 /\ L - 2 <= T) \/ (d = Down /\ T <= L + 2) ->
  process_location d s = Some (motor_stop (set_location (L + tick d) s), 1).
Proof.
  intros (Hl & Ht & Hd & Hc & Hts & Hsf & Hms) HL HT Hstop.
  rewrite process_location_refines
    by (assumption || (unfold operating_range; rewrite Hl, Ht; lia)).
  unfold process_location_spec. rewrite Hc. cbn [Z.eqb]. cbv zeta.
  destruct Hstop as [(-> & Hne & Hle) | (-> & Hle)]; unfold stops_at_target;
    cbn [moved tick]; rd; rewrite Hl, Ht, Hd; decide_enum; cbn [andb].
  - rewrite (proj2 (Z.eqb_neq T (-1)) Hne). cbn [negb andb].
    destruct (Z.leb_spec (L - 1 - 1) T); [| lia].
    replace (L + -1) with (L - 1) by lia. reflexivity.
  - destruct (Z.geb_spec (L + 1 + 1) T); [| lia]. reflexivity.
Qed.

(** X22. A driven motor stops one tick short of its target, in either
    direction. Going down towards a target [n + 2] ticks below, or going
    up towards a target other than -1 that lies [n + 2] ticks above, the
    first [n] edges return 0 and leave the motor running; the next edge
    calls [motor_stop] and returns 1, at the location next to the target
    on the side the motor came from, with the bridge off. *)
Theorem stops_one_tick_before_target (d : motor_direction) (n : nat) (s : state) :
  calibrating s = 0 -> typed s -> operating_range s -> direction s = d ->
  (d = Up /\ target_location s <> -1 /\
   location s = target_location s + Z.of_nat n + 2) \/
  (d = Down /\ location s + Z.of_nat n + 2 = target_location s) ->
  exists s',
    feed_edges d (S n) s = Some (s', repeat 0 n ++ [1]) /\
    location s' = target_location s - tick d /\
    target_location s' = target_location s /\
    status s' = Stopped /\ direction s' = DirNone /\ curr_pwm s' = 0 /\
    HIGH_1_GATE s' = GPIO_PIN_RESET /\ HIGH_2_GATE s' = GPIO_PIN_RESET.
Proof.
  intros Hcal Hty [Hl Ht] Hd Hcase.
  assert (Happ : approaching d (location s) (target_location s) s).
  { unfold approaching. split_and!; try reflexivity; try assumption; apply Hty. }
  destruct (approaching_edges d (target_location s) n (location s) s Happ Ht)
    as (s1 & Hrun & Hinv & _ & _).
  { intros k Hk. destruct Hcase as [(-> & _ & E) | (-> & E)]; cbn [tick]; lia. }
  { intros k Hk. destruct Hcase as [(-> & _ & E) | (-> & E)]; cbn [tick continues]; lia. }
  rewrite feed_edges_S, Hrun. cbn [mbind option_bind].
  rewrite (approaching_stop d _ _ s1 Hinv).
  - cbn [mbind option_bind]. eexists. split; [reflexivity |]. rd.
    destruct Hinv as (_ & Et & _).
    split; [| split; [exact Et | repeat split]].
    destruct Hcase as [(-> & _ & E) | (-> & E)]; cbn [tick]; lia.
  - destruct Hcase as [(-> & _ & E) | (-> & E)]; cbn [tick]; lia.
  - exact Ht.
  - destruct Hcase as [(-> & Hne & E) | (-> & E)]; cbn [tick]; [left | right];
      split_and!; try reflexivity; try assumption; lia.
Qed.

(** X23. With the target -1 of the frame [0x0add], edges in the upward
    direction never stop a motor driven up: each of them returns 0,
    lowers the location by one, also below 0, and keeps the direction and
    the duty; the status stays or becomes [Stopping] where the slowdown
    applies. Such a run ends only by the stall check. *)
Theorem target_minus_1_never_stops (n : nat) (s : state) :
  calibrating s = 0 -> typed s -> direction s = Up -> target_location s = -1 ->
  - 2 ^ 30 + Z.of_nat n <= location s < 2 ^ 30 ->
  exists s',
    feed_edges Up n s = Some (s', repeat 0 n) /\
    location s' = location s - Z.of_nat n /\
    direction s' = Up /\ target_location s' = -1 /\
    (status s' = status s \/ status s' = Stopping) /\ curr_pwm s' = curr_pwm s.
Proof.
  intros Hcal Hty Hd Ht Hl.
  assert (Happ : approaching Up (location s) (-1) s).
  { unfold approaching. split_and!; try reflexivity; try assumption; apply Hty. }
  destruct (approaching_edges Up (-1) n (location s) s Happ ltac:(lia))
    as (s1 & Hrun & (El & Et & Ed & _) & Hst & Hpw).
  { intros k Hk. cbn [tick]. lia. }
  { intros k Hk. cbn [continues]. left. reflexivity. }
  exists s1. split; [exact Hrun |]. cbn [tick] in El.
  split_and!; try assumption; lia.
Qed.
(** X24. With none of the five slots readable, [motor_load_settings]
    leaves the globals [motor_set_default_settings] would, but for the
    full length of the curtain, which it reads back from the slot it just
    wrote and so truncates to 16 bits. *)
Theorem motor_load_settings_defaults (s : state) :
  (forall var, EE_ReadVariable (VirtAddVarTab var) s = None) ->
  let s' := motor_load_settings s in
  let d := motor_set_default_settings s in
  max_curtain_length s' = max_curtain_length d /\
  full_curtain_length s' = to_u16 (full_curtain_length d) /\
  minimum_voltage s' = minimum_voltage d /\
  default_speed s' = default_speed d /\
  auto_calibration s' = auto_calibration d.
Proof.
  intros Hnone. cbv zeta.
  destruct (motor_load_settings_without_max_slot_facts s (Hnone MAX_CURTAIN_LEN_EEPROM))
    as (Emax & Efull & _).
  rewrite Emax, Efull.
  unfold motor_load_settings.
  destruct (load_auto_calibration_frame
              (load_default_speed
                 (load_minimum_voltage
                    (load_full_curtain_length (load_max_curtain_length s)))))
    as (_ & _ & A3 & A4).
  destruct (load_default_speed_frame
              (load_minimum_voltage
                 (load_full_curtain_length (load_max_curtain_length s))))
    as (_ & _ & B3).
  rewrite A3, A4, B3.
  rewrite load_auto_calibration_value, load_default_speed_value, load_minimum_voltage_value.
  rewrite !load_default_speed_read, !load_minimum_voltage_read,
    !load_full_curtain_length_read, !load_max_curtain_length_read by discriminate.
  rewrite !Hnone.
  unfold motor_set_default_settings. rd. repeat split.
Qed.

(** X25. A frame [0x80] with parameter 0 sets the slowdown factor to 0,
    which switches the slowdown off without a division by zero: on the
    state the frame leaves, an edge in either direction is processed, and
    unless it stops the motor at its target it changes neither the status
    nor the target speed. *)
Theorem slowdown_factor_zero_disables (io : inputs) (rx_buffer tx_buffer : list Z)
    (burstindex tx_bytes : Z) (s : state) :
  load 3 rx_buffer = Some CMD_EXT_SET_SLOWDOWN_FACTOR -> load 4 rx_buffer = Some 0 ->
  typed s -> operating_range s ->
  exists s1,
    handle_command io rx_buffer tx_buffer burstindex tx_bytes s =
      Some (s1, tx_buffer, tx_bytes, 1) /\
    slowdown_factor s1 = 0 /\
    forall d, exists s' r,
      process_location d s1 = Some (s', r) /\
      (r = 0 \/ r = 1) /\
      (r = 0 -> status s' = status s /\ target_speed s' = target_speed s) /\
      (r = 1 -> status s' = Stopped /\ target_speed s' = 0).
Proof.
  intros H3 H4 Hty Hr. unfold CMD_EXT_SET_SLOWDOWN_FACTOR in H3.
  run_switch H3 H4.
  eexists. split; [reflexivity |]. split; [reflexivity |].
  intros d.
  set (s1 := set_slowdown_factor 0 s).
  rewrite process_location_refines.
  - unfold process_location_spec.
    destruct (calibrating s1 =? 0).
    + cbv zeta. destruct (stops_at_target d (moved d s1)).
      * eexists _, 1. split; [reflexivity |]. split; [right; reflexivity |].
        split; [intros; discriminate |]. intros _. split; reflexivity.
      * eexists _, 0. split; [reflexivity |]. split; [left; reflexivity |].
        split; [| intros; discriminate]. intros _.
        destruct (moved_frame d s1) as (Mts & Msf & _ & _ & _ & _ & Mst).
        unfold slowdown.
        destruct (bool_decide (direction (moved d s1) <> DirNone));
          [| split; [exact Mst | exact Mts]].
        cbv zeta. rewrite Msf.
        change (slowdown_factor s1) with 0. rewrite Z.mul_0_r.
        change (0 / 8) with 0.
        destruct (Z.ltb_spec (Z.abs (target_location (moved d s1) - location (moved d s1)))
                    0); [lia |].
        split; [exact Mst | exact Mts].
    + eexists s1, 0. split; [reflexivity |]. split; [left; reflexivity |].
      split; [| intros; discriminate]. intros _. split; reflexivity.
  - apply Hty.
  - unfold is_u8. subst s1. rd. lia.
  - apply Hty.
  - exact Hr.
Qed.

(** X26. A motor that is [Stopped] or in [Error] does not start by
    itself. In a state where the bridge agrees with the direction, no
    Hall edge, no run of the regulator, no millisecond tick and no frame
    changes such a status or gives the motor a direction; only a pass of
    the main loop with a pending command does. *)
Theorem idle_status_is_kept (e : event) (s s' : state) :
  bridge_consistent s -> status s = Stopped \/ status s = Error ->
  match e with
  | MainLoop _ => command s = NoCommand
  | _ => True
  end ->
  step e s = Some s' ->
  status s' = status s /\ direction s' = DirNone /\ curr_pwm s' = 0.
Proof.
  intros Hb Hst He H.
  assert (Hnd : ~ driven s).
  { unfold driven. destruct Hst as [E | E]; rewrite E; intros [? | ?]; discriminate. }
  assert (Hd : direction s = DirNone).
  { unfold bridge_consistent in Hb. destruct (direction s); [reflexivity | |];
      exfalso; apply Hnd; apply Hb. }
  assert (Hp : curr_pwm s = 0).
  { unfold bridge_consistent in Hb. rewrite Hd in Hb. apply Hb. }
  destruct e as [sensor value | | now | now | io rx_buffer]; cbn [step] in H.
  - rewrite hall_sensor_callback_parts in H. cbv zeta in H.
    destruct (hall_counters_frame sensor s)
      as (El & Et & Est & Ed & Ec & Ets & Ep & Er & _ & _ & Ee).
    cbv zeta in *.
    set (s1 := hall_counters sensor s) in *.
    assert (Hloc : forall d s2 r, process_location d s1 = Some (s2, r) ->
              status s2 = status s1 /\ direction s2 = DirNone /\ curr_pwm s2 = curr_pwm s1).
    { intros d s2 r Hpl. unfold process_location in Hpl.
      destruct (calibrating s1 =? 0);
        [| injection Hpl as <- _; split_and!; try reflexivity; congruence].
      cbv zeta in Hpl.
      destruct d; rd_in Hpl; rewrite ?Ed, ?Hd in Hpl;
        repeat match type of Hpl with
        | context [@bool_decide ?P ?dec] =>
            let v := eval vm_compute in (@bool_decide P dec) in
            change (@bool_decide P dec) with v in Hpl
        end; cbn [andb] in Hpl; cbv iota in Hpl;
        rd_in Hpl; rewrite ?Ed, ?Hd in Hpl;
        repeat match type of Hpl with
        | context [@bool_decide ?P ?dec] =>
            let v := eval vm_compute in (@bool_decide P dec) in
            change (@bool_decide P dec) with v in Hpl
        end; cbv iota in Hpl;
        injection Hpl as <- _; rd; split_and!; try reflexivity; congruence. }
    match type of H with
    | @mbind _ _ _ _ _ ?edge = _ =>
        destruct edge as [s2 |] eqn:E; [| discriminate H]
    end.
    cbn [mbind option_bind] in H. injection H as <-. rd.
    assert (H2 : status s2 = status s1 /\ direction s2 = DirNone /\
                 curr_pwm s2 = curr_pwm s1).
    { repeat match type of E with
      | context [if ?c then _ else _] => destruct c
      end;
      try (injection E as <-; rd; split_and!; try reflexivity; congruence);
      match type of E with
      | fst <$> ?o = _ =>
          destruct o as [[s3 r] |] eqn:Epl; [| discriminate E];
          injection E as <-; exact (Hloc _ _ _ Epl)
      end. }
    destruct H2 as (A & B & C). split_and!; congruence.
  - unfold motor_adjust_rpm in H.
    replace (bool_decide (status s = Moving) || bool_decide (status s = Stopping))
      with false in H
      by (destruct Hst as [E | E]; rewrite E; reflexivity).
    injection H as <-. split_and!; [reflexivity | assumption | assumption].
  - injection H as <-. unfold motor_stall_check.
    replace (bool_decide (status s = Moving) || bool_decide (status s = Stopping))
      with false
      by (destruct Hst as [E | E]; rewrite E; reflexivity).
    replace (bool_decide (status s = CalibratingEndPoint)) with false
      by (destruct Hst as [E | E]; rewrite E; reflexivity).
    split_and!; [reflexivity | assumption | assumption].
  - injection H as <-. unfold motor_process. rewrite He. decide_enum.
    split_and!; [reflexivity | assumption | assumption].
  - destruct (handle_command io rx_buffer (repeat 0 16) 0 0 s)
      as [[[[s1 tx1] n1] r1] |] eqn:E; [| discriminate H].
    cbn [mbind option_bind] in H. injection H as <-.
    destruct (handle_command_motion _ _ _ _ _ _ _ _ _ _ E) as (F1 & F2 & F3 & _).
    split_and!; congruence.
Qed.

(** ** Starting the motor *)


(** ** [check_voltage] *)

(** X28. [check_voltage] compares the reading divided by 30 with
    [minimum_voltage]: for a reading that fits 16 bits after the
    division, it returns 0 exactly when a minimum voltage is set and the
    reading is below 30 times that minimum, and 1 otherwise; a minimum
    voltage of 0 switches the check off. *)
Theorem check_voltage_threshold (io : inputs) (s : state) :
  0 <= get_voltage io < 30 * 2 ^ 16 -> 0 <= minimum_voltage s ->
  check_voltage io s =
    if negb (minimum_voltage s =? 0) && (get_voltage io <? 30 * minimum_voltage s)
    then 0 else 1.
Proof.
  intros Hv Hm. unfold check_voltage.
  destruct (Z.eqb_spec (minimum_voltage s) 0) as [E | E]; cbn [negb andb]; [reflexivity |].
  cbv zeta.
  rewrite Z.quot_div_nonneg by lia.
  assert (Hq : 0 <= get_voltage io / 30 < 2 ^ 16).
  { split; [apply Z.div_pos; lia | apply Z.div_lt_upper_bound; lia]. }
  unfold to_u16. rewrite Z.mod_small by exact Hq.
  destruct (Z.ltb_spec (get_voltage io / 30) (minimum_voltage s)) as [Hlt | Hge];
    destruct (Z.ltb_spec (get_voltage io) (30 * minimum_voltage s)) as [Hlt' | Hge'];
    try reflexivity; exfalso.
  - assert (minimum_voltage s <= get_voltage io / 30)
      by (apply Z.div_le_lower_bound; lia).
    lia.
  - assert (get_voltage io / 30 < minimum_voltage s)
      by (apply Z.div_lt_upper_bound; lia).
    lia.
Qed.

End Board.

(** * The properties on a board

    The scenarios of the specification, on a board with a gear ratio of
    171, a grace period of 2000 ms, Hall-sensor timeouts of 300 ms and
    1000 ms, an end-point calibration period of 1000 ms and firmware
    version 0.7, built with the EEPROM and the analog inputs. *)

Ltac typed_closed :=
  constructor; unfold is_u8, is_u16, is_u32, is_i32; vm_compute;
  (split; [discriminate | reflexivity]).

Lemma typed_moving_up_500_to_200 : typed moving_up_500_to_200.
Proof. typed_closed. Qed.

Lemma typed_moving_down_to_30_14 : typed (moving_down_to_30 14).
Proof. typed_closed. Qed.

Lemma typed_running_up_253 : typed (running_up 253 0).
Proof. typed_closed. Qed.

Lemma typed_stopped_at_64 : typed stopped_at_64.
Proof. typed_closed. Qed.

Lemma process_location_up_stops_before_target_witness :
  calibrating moving_up_500_to_200 = 0 /\
  typed moving_up_500_to_200 /\
  operating_range moving_up_500_to_200 /\
  exists s', feed_edges Up 299 moving_up_500_to_200 = Some (s', repeat 0 298 ++ [1]) /\
             location s' = 201 /\ status s' = Stopped.
Proof.
  assert (Hr : operating_range moving_up_500_to_200)
    by (unfold operating_range; vm_compute; repeat split; reflexivity).
  split; [reflexivity |]. split; [exact typed_moving_up_500_to_200 |].
  split; [exact Hr |].
  destruct (process_location_up_stops_before_target moving_up_500_to_200
              eq_refl typed_moving_up_500_to_200 Hr) as [_ Hscenario].
  destruct Hscenario as [_ Hstop]; [reflexivity .. |].
  exact Hstop.
Defined.

(** Scenario 1 on the state [moving_up_500_to_200]: the 299th edge stops
    the motor at 201; a 300th upward edge, the motor being off, is counted
    as passive movement and leaves the location at 200. *)
Lemma scenario_stop_at_target_upward :
  (exists s', feed_edges Up 299 moving_up_500_to_200 = Some (s', repeat 0 298 ++ [1]) /\
              location s' = 201 /\ status s' = Stopped /\ direction s' = DirNone) /\
  (exists s', feed_edges Up 300 moving_up_500_to_200 = Some (s', repeat 0 298 ++ [1; 0]) /\
              location s' = 200 /\ status s' = Stopped).
Proof.
  split; eexists; (split; [vm_compute; reflexivity |]); repeat split.
Qed.

Lemma stall_check_ends_calibration_witness :
  status calibrating_end_point = CalibratingEndPoint /\
  sub_u32 6001 (endpoint_calibration_started_timestamp calibrating_end_point) > 1000 /\
  let s' := motor_stall_check 2000 300 1000 1000 6001 calibrating_end_point in
  status s' = Stopped /\ calibrating s' = 0 /\ location s' = 0.
Proof.
  split; [reflexivity |]. split; [reflexivity |].
  apply stall_check_ends_calibration; reflexivity.
Defined.

Lemma motor_stopped_transitions_witness :
  status moving_up_500_to_200 <> Stopped /\
  status (motor_stopped 7000 moving_up_500_to_200) = CalibratingEndPoint /\
  endpoint_calibration_started_timestamp (motor_stopped 7000 moving_up_500_to_200) = 7000.
Proof.
  assert (Hne : status moving_up_500_to_200 <> Stopped) by discriminate.
  split; [exact Hne |].
  destruct (motor_stopped_transitions 7000 moving_up_500_to_200 Hne) as (_ & Hup & _).
  destruct (Hup eq_refl eq_refl) as (_ & Hst & Hts).
  split; assumption.
Defined.

Lemma get_rpm_value_witness :
  0 < 171 /\
  hall_sensor_1_interval (running_up 60 5) > 0 /\
  get_rpm 171 (running_up 60 5) = Some 35.
Proof.
  split; [lia |]. split; [reflexivity |].
  destruct (get_rpm_value 171 (running_up 60 5)) as [Hpos _]; [lia |].
  apply Hpos. reflexivity.
Defined.

(** The regulator raises the duty from 253 to 255: an execution of
    [motor_adjust_rpm] that starts within 0 to 254 and ends outside. *)
Lemma duty_exceeds_254 :
  0 <= curr_pwm (running_up 253 0) <= 254 /\
  exists s', motor_adjust_rpm 171 (running_up 253 0) = Some s' /\
             curr_pwm s' = 255 /\ TIM1_CCR4 s' = 255 /\
             ~ (0 <= curr_pwm s' <= 254).
Proof.
  split; [vm_compute; split; discriminate |].
  eexists. split; [vm_compute; reflexivity |].
  split; [reflexivity |]. split; [reflexivity |].
  vm_compute. intros [_ H]. apply H. reflexivity.
Qed.

(** The state is reached from power-on: a duty of 255 after the run
    [stalled_start]. *)
Lemma duty_255_reachable :
  exists s', run 171 2000 300 1000 1000 false 0 7 0 stalled_start power_on = Some s' /\
             status s' = Moving /\ curr_pwm s' = 255.
Proof. eexists. split; [vm_compute; reflexivity |]. split; reflexivity. Qed.

(** The braking step left out of C5: at duty 2 and 175 rpm against a
    target of 18 rpm, the three decrements wrap the duty around to 255. *)
Lemma duty_wraps_around :
  exists s', motor_adjust_rpm 171 (running_up 2 1) = Some s' /\
             get_rpm 171 (running_up 2 1) = Some 175 /\
             curr_pwm s' = 255 /\ TIM1_CCR4 s' = 255.
Proof. eexists. split; [vm_compute; reflexivity |]. repeat split. Qed.

Lemma motor_adjust_rpm_duty_witness :
  0 < 171 /\ typed (running_up 253 0) /\
  get_rpm 171 (running_up 253 0) = Some 0 /\
  ~ (curr_pwm (running_up 253 0) = 2 /\ 0 - target_speed (running_up 253 0) > 4) /\
  (forall s', run 171 2000 300 1000 1000 false 0 7 0 stalled_start (motor_init power_on)
              = Some s' -> 0 <= curr_pwm s' <= 255) /\
  exists s', motor_adjust_rpm 171 (running_up 253 0) = Some s' /\
             0 <= curr_pwm s' <= 255.
Proof.
  assert (Hslip : ~ (curr_pwm (running_up 253 0) = 2
                     /\ 0 - target_speed (running_up 253 0) > 4))
    by (intros [H _]; discriminate H).
  split; [lia |]. split; [exact typed_running_up_253 |].
  split; [reflexivity |]. split; [exact Hslip |].
  destruct (motor_adjust_rpm_duty 171 2000 300 1000 1000 false 0 7 0
              power_on stalled_start (running_up 253 0) 0
              ltac:(lia) typed_running_up_253 eq_refl Hslip)
    as (Hreach & s' & Hrun & Hrange & _).
  split; [exact Hreach |].
  exists s'. split; assumption.
Defined.

(** While calibrating, an edge near the target neither sets [Stopping]
    nor lowers the target speed: 5 ticks from the target at 20 rpm, where
    the slowdown speed is 5. *)
Lemma slowdown_skipped_while_calibrating :
  let s := calibrating_down_to_30 25 in
  direction s <> DirNone /\
  Z.abs (target_location s - location s) < target_speed s * slowdown_factor s / 8 /\
  slowdown_speed (Z.abs (target_location s - location s)) s < target_speed s /\
  exists s', process_location Down s = Some (s', 0) /\
             Z.abs (target_location s' - location s') = 5 /\
             status s' = Moving /\ status s' <> Stopping /\
             target_speed s' = 20 /\
             target_speed s' <> slowdown_speed (Z.abs (target_location s' - location s')) s.
Proof.
  cbv zeta. split; [discriminate |].
  split; [reflexivity |]. split; [reflexivity |].
  eexists. split; [vm_compute; reflexivity |].
  repeat split; discriminate.
Qed.

(** Such a state is reached from power-on, and the next upward edge
    reaches [process_location] in it. *)
Lemma slowdown_skipped_in_a_run :
  exists s,
    run 171 2000 300 1000 1000 false 0 7 0 calibration_run power_on = Some s /\
    calibrating s = 1 /\ status s = Moving /\ direction s = Up /\
    Z.abs (target_location s - location s) = 4 /\
    target_speed s * slowdown_factor s / 8 = 18 /\
    slowdown_speed 4 s = 5 /\ target_speed s = 18 /\
    process_location Up s = Some (s, 0) /\
    hall_sensor_callback 0 1 1 s = Some (set_hall_sensor_2_ticks 1 (set_rotor_position 1 s)).
Proof. eexists. split; [vm_compute; reflexivity |]. repeat split. Qed.

Lemma process_location_slows_down_witness :
  typed (moving_down_to_30 14) /\ operating_range (moving_down_to_30 14) /\
  exists s' r, process_location Down (moving_down_to_30 14) = Some (s', r) /\
               target_speed s' <= target_speed (moving_down_to_30 14).
Proof.
  assert (Hr : operating_range (moving_down_to_30 14))
    by (unfold operating_range; vm_compute; repeat split; reflexivity).
  split; [exact typed_moving_down_to_30_14 |]. split; [exact Hr |].
  destruct (process_location_slows_down Down (moving_down_to_30 14)
              typed_moving_down_to_30_14 Hr) as [(s' & r & Hrun & Hle & _) _].
  exists s', r. split; assumption.
Defined.



Lemma go_to_direction_witness :
  load 3 (frame 0x70 0x20) = Some 0x70 /\ load 4 (frame 0x70 0x20) = Some 0x20 /\
  is_u8 0x70 /\ is_u8 0x20 /\ go_to_accepted 0x70 stopped_at_64 /\
  exists s', handle_command 171 false 0 7 no_inputs (frame 0x70 0x20)
               (repeat 0 16) 0 0 stopped_at_64
             = Some (s', repeat 0 16, 0, 1) /\
             target_location s' = 64 /\ location s' = 64 /\
             command s' = MotorDown /\
             status (motor_process 100 s') = Moving /\
             direction (motor_process 100 s') = Down.
Proof.
  assert (H1 : is_u8 0x70) by (unfold is_u8; lia).
  assert (H2 : is_u8 0x20) by (unfold is_u8; lia).
  assert (Hacc : go_to_accepted 0x70 stopped_at_64) by (right; right; reflexivity).
  split; [reflexivity |]. split; [reflexivity |].
  split; [exact H1 |]. split; [exact H2 |]. split; [exact Hacc |].
  destruct (go_to_direction 171 false 0 7 no_inputs (frame 0x70 0x20)
              (repeat 0 16) 0 0 stopped_at_64 0x70 0x20 eq_refl eq_refl H1 H2 Hacc)
    as (s' & Hrun & Ht & Hl & _ & _ & Hsame).
  exists s'. split; [exact Hrun |].
  assert (Ht64 : target_location s' = 64) by (rewrite Ht; reflexivity).
  assert (Hl64 : location s' = 64) by (rewrite Hl; reflexivity).
  destruct Hsame as [Hcmd Hgo]; [rewrite Ht64; reflexivity |].
  destruct (Hgo 100) as [Hst Hd].
  repeat split; assumption.
Defined.

Lemma reply_frame_checksum_witness :
  0 < 171 /\ typed (running_up 60 5) /\
  load 3 (frame 0xcc 0xcc) = Some 0xcc /\ load 4 (frame 0xcc 0xcc) = Some 0xcc /\
  In (to_u16 (Z.shiftl 0xcc 8 + 0xcc)) reply_opcodes /\
  (9 <= length (repeat 0 16))%nat /\
  exists payload tx' N,
    N = (3 + length payload)%nat /\ (N = 7 \/ N = 8)%nat /\
    handle_command 171 false 0 7 (Build_inputs 480 3 0) (frame 0xcc 0xcc)
      (repeat 0 16) 0 0 (running_up 60 5)
    = Some (running_up 60 5, tx', Z.of_nat N + 1, 1) /\
    tx' !! 2%nat = Some 0xd8 /\
    bytes 3 (N - 3) tx' = payload /\
    tx' !! N = Some (xor_bytes (bytes 3 (N - 3) tx')).
Proof.
  assert (Hty : typed (running_up 60 5)) by typed_closed.
  assert (Hin : In (to_u16 (Z.shiftl 0xcc 8 + 0xcc)) reply_opcodes) by (left; reflexivity).
  assert (Hlen : (9 <= length (repeat 0 16))%nat) by (cbn; lia).
  split; [lia |]. split; [exact Hty |]. split; [reflexivity |]. split; [reflexivity |].
  split; [exact Hin |]. split; [exact Hlen |].
  pose proof (reply_frame_checksum 171 false 0 7 (Build_inputs 480 3 0) (frame 0xcc 0xcc)
                (repeat 0 16) 0 0 (running_up 60 5) 0xcc 0xcc
                ltac:(lia) Hty eq_refl eq_refl Hin Hlen) as H.
  cbv zeta in H.
  destruct H as (payload & tx' & N & _ & HN & H78 & Hrun & _ & Hcode & Hpay & Hxor & _).
  exists payload, tx', N. repeat split; assumption.
Defined.

(** Scenario 4: the reply to [0xcccc] is 8 bytes, the battery level, the
    voltage over 16, the speed, the position in percent, and their XOR. *)
Lemma status_reply_frame :
  handle_command 171 false 0 7 (Build_inputs 480 3 0) (frame 0xcc 0xcc)
    [0x00; 0xff; 0; 0; 0; 0; 0; 0; 0; 0] 0 0 (running_up 60 5)
  = Some (running_up 60 5, [0x00; 0xff; 0xd8; 0x12; 30; 35; 50; 0x1d; 0; 0], 8, 1).
Proof. vm_compute. reflexivity. Qed.

(** ** The further properties on the board *)

Lemma typed_calibrating_end_point : typed calibrating_end_point.
Proof. typed_closed. Qed.

Lemma typed_moving_up_to_the_stall : typed moving_up_to_the_stall.
Proof. typed_closed. Qed.

Lemma operating_range_moving_up_500_to_200 : operating_range moving_up_500_to_200.
Proof. unfold operating_range. vm_compute. repeat split; reflexivity. Qed.

Lemma hall_sensor_callback_direction_mismatch_witness :
  rotor_position moving_up_wrong_phase <> -1 /\
  edge_diff 0 1 moving_up_wrong_phase = 3 /\ direction moving_up_wrong_phase = Up /\
  exists s',
    hall_sensor_callback 0 0 1 moving_up_wrong_phase = Some s' /\
    dir_error s' = 1 /\ location s' = 500 /\ status s' = Moving /\ rotor_position s' = 0.
Proof.
  assert (Hr : rotor_position moving_up_wrong_phase <> -1) by discriminate.
  split; [exact Hr |]. split; [reflexivity |]. split; [reflexivity |].
  destruct (hall_sensor_callback_direction_mismatch 0 0 1 moving_up_wrong_phase Hr
              (or_introl (conj eq_refl eq_refl)))
    as (s' & Hrun & Hde & Hl & _ & Hst & _ & _ & _ & Hrot).
  exists s'. split; [exact Hrun |]. split; [exact Hde |]. split; [exact Hl |].
  split; [exact Hst | exact Hrot].
Defined.

Lemma hall_sensor_callback_while_calibrating_witness :
  calibrating (calibrating_down_to_30 25) <> 0 /\
  exists s',
    hall_sensor_callback 0 1 0 (calibrating_down_to_30 25) = Some s' /\
    location s' = 25 /\ status s' = Moving /\ target_speed s' = 20.
Proof.
  assert (Hc : calibrating (calibrating_down_to_30 25) <> 0) by discriminate.
  split; [exact Hc |].
  destruct (hall_sensor_callback_while_calibrating 0 1 0 (calibrating_down_to_30 25) Hc)
    as (s' & Hrun & Hl & _ & Hst & _ & Hts & _).
  exists s'. split; [exact Hrun |]. split; [exact Hl |]. split; [exact Hst | exact Hts].
Defined.

Lemma hall_sensor_callback_one_tick_witness :
  typed moving_up_500_to_200 /\ operating_range moving_up_500_to_200 /\
  exists s',
    hall_sensor_callback 0 1 1 moving_up_500_to_200 = Some s' /\
    rotor_position s' = 1 /\ 499 <= location s' <= 501.
Proof.
  split; [exact typed_moving_up_500_to_200 |].
  split; [exact operating_range_moving_up_500_to_200 |].
  destruct (hall_sensor_callback_one_tick 0 1 1 moving_up_500_to_200
              typed_moving_up_500_to_200 operating_range_moving_up_500_to_200)
    as (s' & Hrun & Hrot & Hl & _).
  exists s'. split; [exact Hrun |]. split; [exact Hrot | exact Hl].
Defined.

Lemma hall_sensor_callback_passive_witness :
  direction stopped_at_64 = DirNone /\ calibrating stopped_at_64 = 0 /\
  rotor_position stopped_at_64 <> -1 /\ edge_diff 1 1 stopped_at_64 = 1 /\
  exists s',
    hall_sensor_callback 0 1 1 stopped_at_64 = Some s' /\
    location s' = 63 /\ status s' = Stopped /\ direction s' = DirNone.
Proof.
  assert (Hr : rotor_position stopped_at_64 <> -1) by discriminate.
  split; [reflexivity |]. split; [reflexivity |]. split; [exact Hr |].
  split; [reflexivity |].
  destruct (hall_sensor_callback_passive 0 1 1 stopped_at_64 eq_refl eq_refl Hr)
    as (s' & Hrun & Hup & _ & Hst & Hd & _).
  exists s'. split; [exact Hrun |]. split; [exact (Hup eq_refl) |].
  split; [exact Hst | exact Hd].
Defined.

Lemma hall_sensor_callback_interval_witness :
  typed moving_up_500_to_200 /\ operating_range moving_up_500_to_200 /\
  hall_sensor_1_ticks moving_up_500_to_200 = 0 /\
  hall_sensor_1_interval moving_up_500_to_200 = 0 /\
  exists s',
    hall_sensor_callback 0 0 1 moving_up_500_to_200 = Some s' /\
    hall_sensor_1_idle_time s' = 0 /\ get_rpm 171 s' = Some 0.
Proof.
  split; [exact typed_moving_up_500_to_200 |].
  split; [exact operating_range_moving_up_500_to_200 |].
  split; [reflexivity |]. split; [reflexivity |].
  destruct (hall_sensor_callback_interval 171 0 1 moving_up_500_to_200
              typed_moving_up_500_to_200 operating_range_moving_up_500_to_200)
    as (s' & Hrun & Hidle & _ & Hrpm).
  exists s'. split; [exact Hrun |]. split; [exact Hidle |].
  exact (Hrpm eq_refl eq_refl).
Defined.

Lemma stall_detection_latency_witness :
  (forall i, forallb background (every_10th i) = true) /\
  driven moving_up_500_to_200 /\
  movement_started_timestamp moving_up_500_to_200 = 0 /\
  hall_sensor_1_idle_time moving_up_500_to_200 = 0 /\
  hall_sensor_1_interval moving_up_500_to_200 = 0 /\
  command moving_up_500_to_200 = NoCommand /\
  stall_deadline 2000 300 1000 moving_up_500_to_200 = 2001 /\
  (exists s',
     run 171 2000 300 1000 1000 false 0 7 0 (quiet 0 every_10th 2000) moving_up_500_to_200
       = Some s' /\
     status s' = Moving /\ direction s' = Up /\ location s' = 500 /\
     HIGH_1_GATE s' = GPIO_PIN_SET /\ LOW2_PWM s' = true /\ 60 <= curr_pwm s') /\
  (exists s',
     run 171 2000 300 1000 1000 false 0 7 0
       (quiet 0 every_10th (Z.to_nat (stall_deadline 2000 300 1000 moving_up_500_to_200)))
       moving_up_500_to_200 = Some s' /\
     status s' = CalibratingEndPoint /\
     endpoint_calibration_started_timestamp s' = 2001 /\
     direction s' = DirNone /\ curr_pwm s' = 0 /\
     HIGH_1_GATE s' = GPIO_PIN_RESET /\ LOW2_PWM s' = false).
Proof.
  assert (Hms : forall i, forallb background (every_10th i) = true).
  { intros i. unfold every_10th. destruct (i mod 10 =? 0)%nat; reflexivity. }
  assert (Hd : driven moving_up_500_to_200) by (left; reflexivity).
  split; [exact Hms |].
  split; [exact Hd |]. split; [reflexivity |]. split; [reflexivity |].
  split; [reflexivity |]. split; [reflexivity |]. split; [reflexivity |].
  destruct (stall_detection_latency 171 2000 300 1000 1000 false 0 7 0
              0 every_10th moving_up_500_to_200
              Hms Hd eq_refl eq_refl eq_refl ltac:(vm_compute; discriminate)
              ltac:(vm_compute; discriminate) eq_refl ltac:(lia) ltac:(lia) ltac:(lia)
              ltac:(vm_compute; reflexivity))
    as (Hwait & Hfire).
  split.
  - destruct (Hwait 2000%nat ltac:(vm_compute; reflexivity))
      as (s' & Hrun & Es & Ed & El & _ & G1 & _ & _ & P2 & Hle).
    exists s'. split; [exact Hrun |].
    split; [rewrite Es; reflexivity |]. split; [rewrite Ed; reflexivity |].
    split; [rewrite El; reflexivity |]. split; [rewrite G1; reflexivity |].
    split; [rewrite P2; reflexivity |]. exact Hle.
  - destruct Hfire as (s' & Hrun & Dn & Pw & _ & _ & G1 & _ & _ & P2 & _ & _ & Hup & _).
    exists s'. split; [exact Hrun |].
    destruct (Hup eq_refl eq_refl) as [Hs Hts].
    split; [exact Hs |]. split; [exact Hts |]. split; [exact Dn |]. split; [exact Pw |].
    split; [exact G1 |]. exact P2.
Defined.

Lemma auto_calibration_completes_witness :
  auto_calibration power_on <> 0 /\
  let d := Z.max 2000 300 + 1 in
  let s1 := motor_process 10 (motor_init power_on) in
  let s2 := stall_checks 2000 300 1000 1000 10 (Z.to_nat d) s1 in
  let s3 := stall_checks 2000 300 1000 1000 (10 + d) (Z.to_nat (1000 + 1)) s2 in
  d = 2001 /\
  (status s1 = Moving /\ direction s1 = Up /\ calibrating s1 = 1 /\
   target_speed s1 = default_speed power_on /\
   location s1 = to_i32 (max_curtain_length power_on)) /\
  (status s2 = CalibratingEndPoint /\ direction s2 = DirNone /\ curr_pwm s2 = 0 /\
   calibrating s2 = 1) /\
  (status s3 = Stopped /\ location s3 = 0 /\ calibrating s3 = 0 /\
   direction s3 = DirNone /\ curr_pwm s3 = 0 /\ command s3 = NoCommand).
Proof.
  assert (Ha : auto_calibration power_on <> 0) by discriminate.
  split; [exact Ha |].
  intros d s1 s2 s3. split; [reflexivity |].
  exact (auto_calibration_completes 2000 300 1000 1000 10 power_on Ha
           ltac:(lia) ltac:(lia) ltac:(lia) ltac:(lia) ltac:(vm_compute; reflexivity)).
Defined.

Lemma no_shoot_through_under_preemption_witness :
  exists m,
    preempt_run 171 2000 300 1000 1000 false 0 7 0 interrupted_start (booted power_on)
      = Some m /\
    code m = [] /\ status (globals m) = Moving /\ direction (globals m) = Up /\
    curr_pwm (globals m) = 62 /\ TIM1_CCR1 (globals m) = 62 /\
    TIM1_CCR4 (globals m) = 60 /\
    HIGH_1_GATE (globals m) = GPIO_PIN_SET /\ LOW2_PWM (globals m) = true /\
    HIGH_2_GATE (globals m) = GPIO_PIN_RESET /\ LOW1_PWM (globals m) = false.
Proof.
  destruct (preempt_run 171 2000 300 1000 1000 false 0 7 0 interrupted_start
              (booted power_on)) as [m |] eqn:E; [| vm_compute in E; discriminate E].
  exists m. split; [reflexivity |].
  destruct (no_shoot_through_under_preemption 171 2000 300 1000 1000 false 0 7 0
              power_on interrupted_start m E) as (H1 & _).
  assert (Em : Some m = Some m) by reflexivity.
  rewrite <- E in Em at 1. vm_compute in Em. injection Em as Em.
  assert (Hg : HIGH_1_GATE (globals m) = GPIO_PIN_SET) by (rewrite <- Em; reflexivity).
  split; [rewrite <- Em; reflexivity |]. split; [rewrite <- Em; reflexivity |].
  split; [rewrite <- Em; reflexivity |]. split; [rewrite <- Em; reflexivity |].
  split; [rewrite <- Em; reflexivity |]. split; [rewrite <- Em; reflexivity |].
  split; [exact Hg |]. split; [rewrite <- Em; reflexivity |].
  exact (H1 Hg).
Defined.

Lemma handle_command_leaves_motion_witness :
  0 < 171 /\ 0 <= hall_sensor_1_interval moving_up_500_to_200 /\
  (5 <= length (frame CMD_EXT_SET_SPEED 30))%nat /\ (9 <= length (repeat 0 16))%nat /\
  exists s' tx' n,
    handle_command 171 false 0 7 no_inputs (frame CMD_EXT_SET_SPEED 30) (repeat 0 16) 0 0
      moving_up_500_to_200 = Some (s', tx', n, 1) /\
    status s' = Moving /\ direction s' = Up /\ curr_pwm s' = 60.
Proof.
  split; [lia |]. split; [vm_compute; discriminate |].
  split; [vm_compute; lia |]. split; [vm_compute; lia |].
  destruct (handle_command_leaves_motion 171 false 0 7 no_inputs
              (frame CMD_EXT_SET_SPEED 30) (repeat 0 16) 0 0 moving_up_500_to_200
              ltac:(lia) ltac:(vm_compute; discriminate)
              ltac:(vm_compute; lia) ltac:(vm_compute; lia))
    as (s' & tx' & n & Hrun & Hst & Hd & Hp & _).
  exists s', tx', n. split; [exact Hrun |]. split; [exact Hst |].
  split; [exact Hd | exact Hp].
Defined.

Lemma handle_command_ignores_unknown_witness :
  ~ In (0xcc * 256 + 0xcd) switch_opcodes /\ ~ In 0xcc parameter_opcodes /\
  ~ In (Z.land 0xcc 0xf0) prefix_opcodes /\
  handle_command 171 false 0 7 no_inputs (frame 0xcc 0xcd) (repeat 0 16) 0 0 stopped_at_64
    = Some (stopped_at_64, repeat 0 16, 0, 1).
Proof.
  assert (H1 : ~ In (0xcc * 256 + 0xcd) switch_opcodes).
  { vm_compute. intros H. repeat (destruct H as [H | H]; [discriminate H |]). exact H. }
  assert (H2 : ~ In 0xcc parameter_opcodes).
  { vm_compute. intros H. repeat (destruct H as [H | H]; [discriminate H |]). exact H. }
  assert (H3 : ~ In (Z.land 0xcc 0xf0) prefix_opcodes).
  { vm_compute. intros H. repeat (destruct H as [H | H]; [discriminate H |]). exact H. }
  split; [exact H1 |]. split; [exact H2 |]. split; [exact H3 |].
  apply (handle_command_ignores_unknown 171 false 0 7 no_inputs (frame 0xcc 0xcd)
           (repeat 0 16) 0 0 stopped_at_64 0xcc 0xcd eq_refl eq_refl);
    [unfold is_u8; lia | unfold is_u8; lia | exact H1 | exact H2 | exact H3].
Defined.

Lemma go_to_dropped_while_calibrating_witness :
  calibrating (calibrating_down_to_30 25) <> 0 /\
  handle_command 171 false 0 7 no_inputs (frame CMD_GO_TO 50) (repeat 0 16) 0 0
    (calibrating_down_to_30 25)
    = Some (calibrating_down_to_30 25, repeat 0 16, 0, 1).
Proof.
  assert (Hc : calibrating (calibrating_down_to_30 25) <> 0) by discriminate.
  split; [exact Hc |].
  apply (go_to_dropped_while_calibrating 171 false 0 7 no_inputs (frame CMD_GO_TO 50)
           (repeat 0 16) 0 0 (calibrating_down_to_30 25) CMD_GO_TO 50 eq_refl eq_refl);
    [unfold is_u8, CMD_GO_TO; lia | unfold is_u8; lia | left; reflexivity | exact Hc].
Defined.

Lemma set_location_command_witness :
  Z.land 0x51 0xf0 = CMD_EXT_SET_LOCATION /\
  exists s',
    handle_command 171 false 0 7 no_inputs (frame 0x51 0x20) (repeat 0 16) 0 0
      (calibrating_down_to_30 25) = Some (s', repeat 0 16, 0, 1) /\
    location s' = 576 /\ calibrating s' = 0.
Proof.
  split; [reflexivity |].
  destruct (set_location_command 171 false 0 7 no_inputs (frame 0x51 0x20) (repeat 0 16)
              0 0 (calibrating_down_to_30 25) 0x51 0x20 eq_refl eq_refl
              ltac:(unfold is_u8; lia) ltac:(unfold is_u8; lia) eq_refl)
    as (s' & Hrun & Hl & _ & Hc & _).
  exists s'. split; [exact Hrun |]. split; [exact Hl | exact Hc].
Defined.

Lemma motor_write_setting_read_back_witness :
  status stopped_at_64 = Stopped /\
  EE_ReadVariable (VirtAddVarTab DEFAULT_SPEED_EEPROM) stopped_at_64 = None /\
  EE_ReadVariable (VirtAddVarTab DEFAULT_SPEED_EEPROM)
    (motor_write_setting false no_inputs DEFAULT_SPEED_EEPROM 20 stopped_at_64) = Some 20 /\
  EE_ReadVariable (VirtAddVarTab DEFAULT_SPEED_EEPROM)
    (motor_write_setting false no_inputs DEFAULT_SPEED_EEPROM 0 stopped_at_64) = None.
Proof.
  split; [reflexivity |]. split; [reflexivity |].
  split.
  - exact (proj1 (motor_write_setting_read_back false no_inputs DEFAULT_SPEED_EEPROM 20
                    stopped_at_64 eq_refl eq_refl)).
  - exact (proj1 (motor_write_setting_read_back false no_inputs DEFAULT_SPEED_EEPROM 0
                    stopped_at_64 eq_refl eq_refl)).
Defined.

Lemma handle_command_persists_only_when_stopped_witness :
  status moving_up_500_to_200 <> Stopped /\
  exists s',
    handle_command 171 false 0 7 no_inputs (frame CMD_EXT_SET_DEFAULT_SPEED 25)
      (repeat 0 16) 0 0 moving_up_500_to_200 = Some (s', repeat 0 16, 0, 1) /\
    default_speed s' = 25 /\ eeprom s' = eeprom moving_up_500_to_200.
Proof.
  assert (Hst : status moving_up_500_to_200 <> Stopped) by discriminate.
  split; [exact Hst |].
  destruct (handle_command 171 false 0 7 no_inputs (frame CMD_EXT_SET_DEFAULT_SPEED 25)
              (repeat 0 16) 0 0 moving_up_500_to_200)
    as [[[[s' tx'] n] r] |] eqn:E; [| vm_compute in E; discriminate E].
  pose proof (handle_command_persists_only_when_stopped 171 false 0 7 no_inputs
                (frame CMD_EXT_SET_DEFAULT_SPEED 25) (repeat 0 16) 0 0
                moving_up_500_to_200 s' tx' n r (or_intror Hst) E) as Hee.
  vm_compute in E. injection E as Es Etx En Er. subst tx' n r.
  exists s'. split; [reflexivity |]. split; [rewrite <- Es; reflexivity | exact Hee].
Defined.
Lemma step_17_commands_witness :
  0 <= 171 < 2 ^ 16 /\ - 2 ^ 30 < location stopped_at_64 < 2 ^ 30 /\
  0 <= max_curtain_length stopped_at_64 < 2 ^ 31 /\
  DEG_TO_LOCATION 171 17 = 32 /\
  (exists s',
     handle_command 171 false 0 7 no_inputs (frame 0x0a 0x0d) (repeat 0 16) 0 0
       stopped_at_64 = Some (s', repeat 0 16, 0, 1) /\
     command s' = MotorUp /\ target_location s' = 32) /\
  (exists s',
     handle_command 171 false 0 7 no_inputs (frame 0x0a 0x0e) (repeat 0 16) 0 0
       stopped_at_64 = Some (s', repeat 0 16, 0, 1) /\
     command s' = MotorDown /\ target_location s' = 96).
Proof.
  assert (Hg : 0 <= 171 < 2 ^ 16) by lia.
  assert (Hl : - 2 ^ 30 < location stopped_at_64 < 2 ^ 30) by (vm_compute; split; reflexivity).
  assert (Hm : 0 <= max_curtain_length stopped_at_64 < 2 ^ 31)
    by (vm_compute; split; [discriminate | reflexivity]).
  split; [exact Hg |]. split; [exact Hl |]. split; [exact Hm |]. split; [reflexivity |].
  split.
  - destruct (step_17_commands 171 false 0 7 no_inputs (frame 0x0a 0x0d) (repeat 0 16) 0 0
                stopped_at_64 0x0d eq_refl eq_refl Hg Hl Hm) as [Hup _].
    destruct (Hup eq_refl) as (s' & Hrun & Hc & Ht).
    exists s'. split; [exact Hrun |]. split; [exact Hc | exact Ht].
  - destruct (step_17_commands 171 false 0 7 no_inputs (frame 0x0a 0x0e) (repeat 0 16) 0 0
                stopped_at_64 0x0e eq_refl eq_refl Hg Hl Hm) as [_ Hdown].
    destruct (Hdown eq_refl) as (s' & Hrun & Hc & Ht & _).
    exists s'. split; [exact Hrun |]. split; [exact Hc | exact Ht].
Defined.

Lemma curtain_length_commands_witness :
  status stored_settings = Stopped /\
  exists s',
    handle_command 171 false 0 7 no_inputs (frame 0xfa 0xcc) (repeat 0 16) 0 0
      stored_settings = Some (s', repeat 0 16, 0, 1) /\
    full_curtain_length s' = 64 /\ max_curtain_length s' = 64 /\
    EE_ReadVariable (VirtAddVarTab FULL_CURTAIN_LEN_EEPROM) s' = Some 64 /\
    EE_ReadVariable (VirtAddVarTab MAX_CURTAIN_LEN_EEPROM) s' = Some 64.
Proof.
  split; [reflexivity |].
  destruct (curtain_length_commands 171 false 0 7 no_inputs (frame 0xfa 0xcc)
              (repeat 0 16) 0 0 stored_settings 0xcc eq_refl eq_refl) as [Hfull _].
  destruct (Hfull eq_refl) as (s' & Hrun & Hf & Hm & _ & Hee).
  destruct (Hee eq_refl eq_refl ltac:(eexists; reflexivity) ltac:(eexists; reflexivity))
    as [E1 E2].
  exists s'. split; [exact Hrun |]. split; [exact Hf |]. split; [exact Hm |].
  split; [exact E1 | exact E2].
Defined.

Lemma go_to_percent_clamped_witness :
  calibrating stopped_at_64 = 0 /\
  exists s',
    handle_command 171 false 0 7 no_inputs (frame CMD_GO_TO 150) (repeat 0 16) 0 0
      stopped_at_64 = Some (s', repeat 0 16, 0, 1) /\
    target_location s' = 1000 /\ command s' = MotorDown.
Proof.
  split; [reflexivity |].
  destruct (go_to_percent_clamped 171 false 0 7 no_inputs (frame CMD_GO_TO 150)
              (repeat 0 16) 0 0 stopped_at_64 150 eq_refl eq_refl
              ltac:(unfold is_u8; lia) eq_refl)
    as (s' & Hrun & Hbig & _ & _ & Hdown).
  exists s'. split; [exact Hrun |].
  assert (Ht : target_location s' = 1000) by exact (Hbig ltac:(lia)).
  split; [exact Ht |]. apply Hdown. rewrite Ht. vm_compute. discriminate.
Defined.

Lemma status_reply_position_witness :
  0 < 171 /\ typed calibrating_end_point /\ calibrating calibrating_end_point <> 0 /\
  exists tx',
    handle_command 171 false 0 7 no_inputs (frame 0xcc 0xcc) (repeat 0 16) 0 0
      calibrating_end_point = Some (calibrating_end_point, tx', 8, 1) /\
    tx' !! 2%nat = Some 0xd8 /\ tx' !! 6%nat = Some 50.
Proof.
  assert (Hc : calibrating calibrating_end_point <> 0) by discriminate.
  split; [lia |]. split; [exact typed_calibrating_end_point |]. split; [exact Hc |].
  destruct (status_reply_position 171 false 0 7 no_inputs (frame 0xcc 0xcc) (repeat 0 16)
              0 0 calibrating_end_point ltac:(lia) typed_calibrating_end_point
              eq_refl eq_refl ltac:(vm_compute; lia))
    as (tx' & Hrun & H2 & H50 & _).
  exists tx'. split; [exact Hrun |]. split; [exact H2 | exact (H50 Hc)].
Defined.

Lemma motor_load_settings_restores_witness :
  let s' := motor_load_settings 2000 0 1 stored_settings in
  max_curtain_length s' = 900 /\ full_curtain_length s' = 1200 /\
  minimum_voltage s' = 0 /\ default_speed s' = 25 /\ auto_calibration s' = 1 /\
  eeprom s' = eeprom stored_settings.
Proof.
  cbv zeta.
  destruct (motor_load_settings_restores 2000 0 1 stored_settings)
    as (H1 & H2 & H3 & H4 & H5 & H6).
  split; [exact H1 |].
  split; [exact (H2 ltac:(eexists; reflexivity)) |].
  split; [exact H3 |]. split; [exact H4 |]. split; [exact H5 |].
  exact (H6 ltac:(eexists; reflexivity) ltac:(eexists; reflexivity)
            ltac:(eexists; reflexivity) ltac:(eexists; reflexivity)
            ltac:(eexists; reflexivity)).
Defined.

Lemma motor_load_settings_without_max_slot_witness :
  EE_ReadVariable (VirtAddVarTab MAX_CURTAIN_LEN_EEPROM) full_slot_only = None /\
  EE_ReadVariable (VirtAddVarTab FULL_CURTAIN_LEN_EEPROM) full_slot_only = Some 1200 /\
  let s' := motor_load_settings 2000 0 1 full_slot_only in
  max_curtain_length s' = 2000 /\ full_curtain_length s' = 2000 /\
  EE_ReadVariable (VirtAddVarTab FULL_CURTAIN_LEN_EEPROM) s' = Some 2000 /\
  EE_ReadVariable (VirtAddVarTab MAX_CURTAIN_LEN_EEPROM) s' = None.
Proof.
  split; [reflexivity |]. split; [reflexivity |].
  exact (motor_load_settings_without_max_slot 2000 0 1 full_slot_only eq_refl).
Defined.

Lemma default_speed_survives_reboot_witness :
  status stored_settings = Stopped /\
  EE_ReadVariable (VirtAddVarTab DEFAULT_SPEED_EEPROM) stored_settings = Some 25 /\
  exists s',
    handle_command 171 false 0 7 no_inputs (frame CMD_EXT_SET_DEFAULT_SPEED 30)
      (repeat 0 16) 0 0 stored_settings = Some (s', repeat 0 16, 0, 1) /\
    default_speed s' = 30 /\ default_speed (motor_load_settings 2000 0 1 s') = 30.
Proof.
  split; [reflexivity |]. split; [reflexivity |].
  destruct (default_speed_survives_reboot 171 false 0 7 2000 0 1 no_inputs
              (frame CMD_EXT_SET_DEFAULT_SPEED 30) (repeat 0 16) 0 0 stored_settings 30 25
              eq_refl eq_refl ltac:(unfold is_u8; lia) ltac:(lia) eq_refl eq_refl)
    as (s' & Hrun & Hd & Hstopped & _).
  exists s'. split; [exact Hrun |]. split; [exact Hd | exact (Hstopped eq_refl)].
Defined.

Lemma stops_one_tick_before_target_witness :
  calibrating (moving_down_to_30 14) = 0 /\ typed (moving_down_to_30 14) /\
  operating_range (moving_down_to_30 14) /\
  exists s',
    feed_edges Down 15 (moving_down_to_30 14) = Some (s', repeat 0 14 ++ [1]) /\
    location s' = 29 /\ status s' = Stopped /\ direction s' = DirNone.
Proof.
  assert (Hr : operating_range (moving_down_to_30 14))
    by (unfold operating_range; vm_compute; repeat split; reflexivity).
  split; [reflexivity |]. split; [exact typed_moving_down_to_30_14 |].
  split; [exact Hr |].
  destruct (stops_one_tick_before_target Down 14 (moving_down_to_30 14) eq_refl
              typed_moving_down_to_30_14 Hr eq_refl
              (or_intror (conj eq_refl eq_refl)))
    as (s' & Hrun & Hl & _ & Hst & Hd & _).
  exists s'. split; [exact Hrun |]. split; [exact Hl |]. split; [exact Hst | exact Hd].
Defined.

Lemma target_minus_1_never_stops_witness :
  calibrating moving_up_to_the_stall = 0 /\ typed moving_up_to_the_stall /\
  direction moving_up_to_the_stall = Up /\ target_location moving_up_to_the_stall = -1 /\
  exists s',
    feed_edges Up 600 moving_up_to_the_stall = Some (s', repeat 0 600) /\
    location s' = -100 /\ direction s' = Up /\ curr_pwm s' = 60.
Proof.
  split; [reflexivity |]. split; [exact typed_moving_up_to_the_stall |].
  split; [reflexivity |]. split; [reflexivity |].
  destruct (target_minus_1_never_stops 600 moving_up_to_the_stall eq_refl
              typed_moving_up_to_the_stall eq_refl eq_refl
              ltac:(vm_compute; split; [discriminate | reflexivity]))
    as (s' & Hrun & Hl & Hd & _ & _ & Hp).
  exists s'. split; [exact Hrun |]. split; [exact Hl |]. split; [exact Hd | exact Hp].
Defined.

Lemma motor_load_settings_defaults_witness :
  (forall var, EE_ReadVariable (VirtAddVarTab var) stopped_at_64 = None) /\
  let s' := motor_load_settings 70000 0 1 stopped_at_64 in
  max_curtain_length s' = 70000 /\ full_curtain_length s' = 4464 /\
  default_speed s' = 18 /\ auto_calibration s' = 1.
Proof.
  assert (Hn : forall var, EE_ReadVariable (VirtAddVarTab var) stopped_at_64 = None)
    by (intros []; reflexivity).
  split; [exact Hn |].
  destruct (motor_load_settings_defaults 70000 0 1 stopped_at_64 Hn)
    as (H1 & H2 & _ & H4 & H5).
  cbv zeta. split; [exact H1 |]. split; [exact H2 |]. split; [exact H4 | exact H5].
Defined.

Lemma slowdown_factor_zero_disables_witness :
  typed moving_up_500_to_200 /\ operating_range moving_up_500_to_200 /\
  exists s1,
    handle_command 171 false 0 7 no_inputs (frame CMD_EXT_SET_SLOWDOWN_FACTOR 0)
      (repeat 0 16) 0 0 moving_up_500_to_200 = Some (s1, repeat 0 16, 0, 1) /\
    slowdown_factor s1 = 0 /\
    exists s' r, process_location Up s1 = Some (s', r) /\ (r = 0 \/ r = 1).
Proof.
  split; [exact typed_moving_up_500_to_200 |].
  split; [exact operating_range_moving_up_500_to_200 |].
  destruct (slowdown_factor_zero_disables 171 false 0 7 no_inputs
              (frame CMD_EXT_SET_SLOWDOWN_FACTOR 0) (repeat 0 16) 0 0 moving_up_500_to_200
              eq_refl eq_refl typed_moving_up_500_to_200
              operating_range_moving_up_500_to_200)
    as (s1 & Hrun & Hsf & Hedge).
  exists s1. split; [exact Hrun |]. split; [exact Hsf |].
  destruct (Hedge Up) as (s' & r & Hpl & Hr & _).
  exists s', r. split; [exact Hpl | exact Hr].
Defined.

Lemma idle_status_is_kept_witness :
  bridge_consistent stopped_at_64 /\ status stopped_at_64 = Stopped /\
  exists s',
    step 171 2000 300 1000 1000 false 0 7 0 (HallEdge 1 1) stopped_at_64 = Some s' /\
    status s' = Stopped /\ direction s' = DirNone /\ curr_pwm s' = 0.
Proof.
  assert (Hb : bridge_consistent stopped_at_64).
  { unfold bridge_consistent, driven. vm_compute.
    repeat split; intros [H | H]; discriminate H. }
  split; [exact Hb |]. split; [reflexivity |].
  destruct (step 171 2000 300 1000 1000 false 0 7 0 (HallEdge 1 1) stopped_at_64)
    as [s' |] eqn:E; [| vm_compute in E; discriminate E].
  exists s'. split; [reflexivity |].
  exact (idle_status_is_kept 171 2000 300 1000 1000 false 0 7 0 (HallEdge 1 1)
           stopped_at_64 s' Hb (or_introl eq_refl) I E).
Defined.


Lemma check_voltage_threshold_witness :
  0 <= get_voltage voltage_3000 < 30 * 2 ^ 16 /\
  0 <= minimum_voltage minimum_voltage_110 /\
  check_voltage voltage_3000 minimum_voltage_110 = 0.
Proof.
  assert (Hv : 0 <= get_voltage voltage_3000 < 30 * 2 ^ 16)
    by (vm_compute; split; [discriminate | reflexivity]).
  assert (Hm : 0 <= minimum_voltage minimum_voltage_110) by (vm_compute; discriminate).
  split; [exact Hv |]. split; [exact Hm |].
  exact (check_voltage_threshold voltage_3000 minimum_voltage_110 Hv Hm).
Defined.
